(** * gochatsrv: a shallow embedding of the chat server's session engine

    The development follows the Go sources file by file:
    - [util.go]       nickname validation and sanitisation;
    - [serveraux.go]  shutdown countdown, timed nickname query, sends;
    - [persistence.go] the credential store (SQL table [users]);
    - [usermgr.go]    the registry ([UserManager]) and the command handlers;
    - [server.go]     [terminateServer], [commandDispatcher], the login loop.

    Go strings are byte strings; they are modelled by [string] (a list of
    8-bit characters).  Go's [int] is modelled by [Z].  Pointers to [User]
    are addresses into an explicit heap, so that two registry keys holding
    the same [*User] alias as they do in Go. *)

From Stdlib Require Import ZArith Lia Bool List Ascii.
From Stdlib Require String.
From stdpp Require Import base option list gmap strings pretty fin_maps.

Local Open Scope Z_scope.

(** ** Package [strings] and [strconv]: the functions the server calls *)

Module GoStrings.

Definition isUpper (c : ascii) : bool := (("A" <=? c) && (c <=? "Z"))%char.
Definition isLower (c : ascii) : bool := (("a" <=? c) && (c <=? "z"))%char.
Definition isLetter (c : ascii) : bool := isUpper c || isLower c.
Definition isDigit (c : ascii) : bool := (("0" <=? c) && (c <=? "9"))%char.

(** Case mapping of one byte.  Nicknames that pass [validateNickname] are
    ASCII, and on ASCII text Go's Unicode case mapping is this one. *)
Definition toLowerByte (c : ascii) : ascii :=
  if isUpper c then ascii_of_N (N_of_ascii c + 32) else c.

(** [strings.ToLower] *)
Fixpoint ToLower (s : string) : string :=
  match s with
  | EmptyString => EmptyString
  | String c r => String (toLowerByte c) (ToLower r)
  end.

(** [strings.EqualFold] on ASCII text: two strings without a byte above
    127 are equal under Go's case folding when they are equal byte by
    byte up to the case of the letters.  Go folds some runes beyond ASCII
    onto ASCII letters (U+017F onto s, U+212A onto k); what is stated
    below of a comparison with typed text is stated for ASCII text. *)
Fixpoint EqualFold (s t : string) : bool :=
  match s, t with
  | EmptyString, EmptyString => true
  | String a s', String b t' =>
      Ascii.eqb (toLowerByte a) (toLowerByte b) && EqualFold s' t'
  | _, _ => false
  end.

(** [strings.ReplaceAll s old ""] for a one-byte [old]: every occurrence
    of the byte is dropped. *)
Fixpoint removeByte (old : ascii) (s : string) : string :=
  match s with
  | EmptyString => EmptyString
  | String c r =>
      if Ascii.eqb c old then removeByte old r else String c (removeByte old r)
  end.

Fixpoint inCutset (cutset : string) (c : ascii) : bool :=
  match cutset with
  | EmptyString => false
  | String d r => Ascii.eqb c d || inCutset r c
  end.

(** [strings.TrimRight s cutset]: the longest suffix made of bytes of
    [cutset] is removed. *)
Fixpoint TrimRight (s cutset : string) : string :=
  match s with
  | EmptyString => EmptyString
  | String c r =>
      match TrimRight r cutset with
      | EmptyString => if inCutset cutset c then EmptyString else String c EmptyString
      | r' => String c r'
      end
  end.

(** [strings.TrimLeft s cutset] and [strings.Trim s cutset] *)
Fixpoint TrimLeft (s cutset : string) : string :=
  match s with
  | EmptyString => EmptyString
  | String c r => if inCutset cutset c then TrimLeft r cutset else s
  end.

Definition Trim (s cutset : string) : string :=
  TrimRight (TrimLeft s cutset) cutset.

(** [strings.Join] *)
Fixpoint Join (elems : list string) (sep : string) : string :=
  match elems with
  | [] => ""
  | [e] => e
  | e :: r => e +:+ sep +:+ Join r sep
  end.

(** [strings.Contains] *)
Fixpoint Contains (s substr : string) : bool :=
  String.prefix substr s
  || match s with
     | EmptyString => false
     | String _ r => Contains r substr
     end.

Fixpoint all_bytes (p : ascii -> bool) (s : string) : bool :=
  match s with
  | EmptyString => true
  | String c r => p c && all_bytes p r
  end.

Definition strlen (s : string) : Z := Z.of_nat (String.length s).

End GoStrings.

Module GoStrconv.
Import GoStrings.

Definition maxInt : Z := 9223372036854775807.
Definition minInt : Z := -9223372036854775808.

Definition digitVal (c : ascii) : Z := Z.of_N (N_of_ascii c) - 48.

Fixpoint digits (acc : Z) (s : string) : Z :=
  match s with
  | EmptyString => acc
  | String c r => digits (10 * acc + digitVal c) r
  end.

(** Unsigned part: one or more decimal digits. *)
Definition parseUnsigned (s : string) : option Z :=
  match s with
  | EmptyString => None
  | _ => if all_bytes isDigit s then Some (digits 0 s) else None
  end.

(** [strconv.Atoi]: optional sign, decimal digits, result within the
    range of a 64-bit [int]; [None] stands for a non-nil error. *)
Definition Atoi (s : string) : option Z :=
  let signed (neg : bool) (r : string) :=
    match parseUnsigned r with
    | None => None
    | Some n =>
        let v := if neg then - n else n in
        if (minInt <=? v) && (v <=? maxInt) then Some v else None
    end in
  match s with
  | String "+" r => signed false r
  | String "-" r => signed true r
  | _ => signed false s
  end.

End GoStrconv.

(** ** util.go *)

Module Util.
Import GoStrings.

Definition ErrIllegalNickname : string := "illegal nickname".

Definition isWordByte (c : ascii) : bool :=
  isLetter c || isDigit c || Ascii.eqb c "_".

(** The regular expression [^[a-zA-Z][a-zA-Z0-9_]{2,19}$].  Go's [$]
    (no multi-line flag) matches only at the very end of the text. *)
Definition nicknameRegex (s : string) : bool :=
  match s with
  | EmptyString => false
  | String c r =>
      isLetter c && all_bytes isWordByte r
      && (2 <=? String.length r)%nat && (String.length r <=? 19)%nat
  end.

(** [validateNickname]: [None] is the nil error. *)
Definition validateNickname (nickname : string) : option string :=
  if negb (nicknameRegex nickname) then Some ErrIllegalNickname else None.

Definition sanitizeNickname (nickname : string) : string :=
  let nickname := removeByte " " nickname in
  let nickname := removeByte "\" nickname in
  TrimRight nickname (String "013" (String "010" EmptyString)).

End Util.

(** ** The state of the server process *)

Module Model.
Import GoStrings GoStrconv Util.

Definition ptr := nat.
Definition connId := nat.

(** [type User struct] of usermgr.go; [id] is spelled [uid]. *)
Record User := mkUser {
  uid : Z;
  username : string;
  privilege : Z;
  nickname : string;
  conn : connId;
  lastMsgFrom : string
}.

(** A [net.Conn] as the server sees it: the lines written to it, whether
    the server closed it, whether the peer is gone, and its address. *)
Record Conn := mkConn {
  sent : list string;
  closed : bool;
  broken : bool;
  remoteAddr : string
}.

(** One row of the SQL table [users]. *)
Record Account := mkAccount {
  acc_id : Z;
  acc_hash : string;
  acc_privilege : Z
}.

(** Goroutines started by [terminateServer]. *)
Inductive Goroutine :=
| GoCountdownWarnings (seconds : Z)
| GoSleepThenTerminate (seconds : Z).

Record State := mkState {
  heap : gmap ptr User;            (* the allocated [User] objects *)
  nextPtr : ptr;
  users : gmap string ptr;         (* [UserManager.users] *)
  conns : gmap connId Conn;
  DB : gmap string Account;        (* table [users], keyed by username *)
  DBnextId : Z;
  log : list string;
  shutdownOngoing : bool;
  listenerClosed : bool;
  commandsClosed : bool;
  goroutines : list Goroutine
}.

Definition with_heap (f : gmap ptr User -> gmap ptr User) (s : State) : State :=
  mkState (f (heap s)) (nextPtr s) (users s) (conns s) (DB s) (DBnextId s)
    (log s) (shutdownOngoing s) (listenerClosed s) (commandsClosed s) (goroutines s).
Definition with_nextPtr (n : ptr) (s : State) : State :=
  mkState (heap s) n (users s) (conns s) (DB s) (DBnextId s)
    (log s) (shutdownOngoing s) (listenerClosed s) (commandsClosed s) (goroutines s).
Definition with_users (f : gmap string ptr -> gmap string ptr) (s : State) : State :=
  mkState (heap s) (nextPtr s) (f (users s)) (conns s) (DB s) (DBnextId s)
    (log s) (shutdownOngoing s) (listenerClosed s) (commandsClosed s) (goroutines s).
Definition with_conns (f : gmap connId Conn -> gmap connId Conn) (s : State) : State :=
  mkState (heap s) (nextPtr s) (users s) (f (conns s)) (DB s) (DBnextId s)
    (log s) (shutdownOngoing s) (listenerClosed s) (commandsClosed s) (goroutines s).
Definition with_DB (f : gmap string Account -> gmap string Account) (n : Z) (s : State) : State :=
  mkState (heap s) (nextPtr s) (users s) (conns s) (f (DB s)) n
    (log s) (shutdownOngoing s) (listenerClosed s) (commandsClosed s) (goroutines s).
Definition with_log (f : list string -> list string) (s : State) : State :=
  mkState (heap s) (nextPtr s) (users s) (conns s) (DB s) (DBnextId s)
    (f (log s)) (shutdownOngoing s) (listenerClosed s) (commandsClosed s) (goroutines s).
Definition with_shutdownOngoing (b : bool) (s : State) : State :=
  mkState (heap s) (nextPtr s) (users s) (conns s) (DB s) (DBnextId s)
    (log s) b (listenerClosed s) (commandsClosed s) (goroutines s).
Definition with_listenerClosed (b : bool) (s : State) : State :=
  mkState (heap s) (nextPtr s) (users s) (conns s) (DB s) (DBnextId s)
    (log s) (shutdownOngoing s) b (commandsClosed s) (goroutines s).
Definition with_commandsClosed (b : bool) (s : State) : State :=
  mkState (heap s) (nextPtr s) (users s) (conns s) (DB s) (DBnextId s)
    (log s) (shutdownOngoing s) (listenerClosed s) b (goroutines s).
Definition with_goroutines (f : list Goroutine -> list Goroutine) (s : State) : State :=
  mkState (heap s) (nextPtr s) (users s) (conns s) (DB s) (DBnextId s)
    (log s) (shutdownOngoing s) (listenerClosed s) (commandsClosed s) (f (goroutines s)).

(** *** The state monad of the handlers *)

Definition M (A : Type) : Type := State -> A * State.
Definition ret {A} (a : A) : M A := fun s => (a, s).
Definition bind {A B} (m : M A) (k : A -> M B) : M B :=
  fun s => let (a, s') := m s in k a s'.
Definition get : M State := fun s => (s, s).
Definition modify (f : State -> State) : M unit := fun s => (tt, f s).

Declare Scope go_scope.
Delimit Scope go_scope with go.
Notation "x <- c ;; k" := (bind c (fun x => k))
  (at level 100, c at next level, right associativity) : go_scope.
Notation "c ;; k" := (bind c (fun _ => k))
  (at level 100, right associativity) : go_scope.
Local Open Scope go_scope.

Definition emptyUser : User := mkUser 0 "" 0 "" 0%nat "".

(** Dereferencing a [*User]. *)
Definition deref (s : State) (p : ptr) : User := default emptyUser (heap s !! p).
Definition load (p : ptr) : M User := fun s => (deref s p, s).

Definition set_nickname (p : ptr) (n : string) : M unit :=
  modify (with_heap (fun h =>
    let u := default emptyUser (h !! p) in
    <[p := mkUser (uid u) (username u) (privilege u) n (conn u) (lastMsgFrom u)]> h)).
Definition set_conn (p : ptr) (c : connId) : M unit :=
  modify (with_heap (fun h =>
    let u := default emptyUser (h !! p) in
    <[p := mkUser (uid u) (username u) (privilege u) (nickname u) c (lastMsgFrom u)]> h)).
Definition set_lastMsgFrom (p : ptr) (n : string) : M unit :=
  modify (with_heap (fun h =>
    let u := default emptyUser (h !! p) in
    <[p := mkUser (uid u) (username u) (privilege u) (nickname u) (conn u) n]> h)).

(** [logEvent] / [log.Println] *)
Definition logEvent (event : string) : M unit :=
  modify (with_log (fun l => l ++ [event])).

Definition ErrClosedConn : string := "use of closed network connection".

(** [conn.Close()]: [None] is the nil error. *)
Definition connClose (c : connId) : M (option string) := fun s =>
  match conns s !! c with
  | Some k =>
      if closed k then (Some ErrClosedConn, s)
      else (None, with_conns <[c := mkConn (sent k) true (broken k) (remoteAddr k)]> s)
  | None => (Some ErrClosedConn, s)
  end.

Definition connRemoteAddr (s : State) (c : connId) : string :=
  match conns s !! c with Some k => remoteAddr k | None => "" end.

(** A write of [lines] through a fresh [bufio.Writer] followed by
    [Flush]: it fails as a whole on a closed or broken connection. *)
Definition connWrite (c : connId) (lines : list string) : M (option string) := fun s =>
  match conns s !! c with
  | Some k =>
      if closed k then (Some ErrClosedConn, s)
      else if broken k then (Some "broken pipe", s)
      else (None, with_conns <[c := mkConn (sent k ++ lines) false false (remoteAddr k)]> s)
  | None => (Some ErrClosedConn, s)
  end.

Definition nl : string := String "010" EmptyString.
Definition cr : string := String "013" EmptyString.
Definition dq : string := String "034" EmptyString.

(** [for ... { body }] over a list, in the monad. *)
Fixpoint forEach {A} (l : list A) (body : A -> M unit) : M unit :=
  match l with
  | [] => ret tt
  | a :: r => body a ;; forEach r body
  end.

Section Server.

(** The collaborators outside the repository: the markup renderer
    [termcolor.EncodeHTMLToTerm] (with the server's tag table) and
    [bcrypt] ([None] of [bcryptGenerate] is its error). *)
Variable EncodeHTMLToTerm : string -> string.
Variable bcryptGenerate : string -> option string.
Variable bcryptCompare : string -> string -> bool.

(** *** serveraux.go *)

(** [fmt.Fprintln] writes each message as one line. *)
Definition sendMessageToConn (c : connId) (msgs : list string) : M (option string) :=
  connWrite c msgs.

Definition sendSysMessageToConn (c : connId) (msgs : list string) : M (option string) :=
  connWrite c ((fun msg => EncodeHTMLToTerm ("<sys>" +:+ msg +:+ "</sys>")) <$> msgs).

Definition Minute : Z := 60.

(** The body of one tick of [countdownWarnings], after the decrement:
    the message it broadcasts at this [remainingTime], if any. *)
Definition countdownTick (remainingTime : Z) : option string :=
  if remainingTime >? 15 * Minute then
    if Z.rem remainingTime (15 * Minute) =? 0 then
      let minutes := Z.quot remainingTime Minute in
      Some ("System Notice: SHUTDOWN in " +:+ pretty minutes +:+ " minutes")
    else None
  else if (remainingTime <=? 15 * Minute) && (remainingTime >? 1 * Minute) then
    if Z.rem remainingTime 60 =? 0 then
      let minutes := Z.quot remainingTime 60 in
      Some ("System Notice: SHUTDOWN in " +:+ pretty minutes
            +:+ " minutes. Please log out now.")
    else None
  else if remainingTime <=? 1 * Minute then
    if (Z.rem remainingTime 10 =? 0) && (remainingTime >? 0) then
      Some ("System Notice: SHUTDOWN IMMINENT in " +:+ pretty remainingTime
            +:+ " seconds. LOG OUT NOW!")
    else None
  else None.

(** The loop [for remainingTime > 0 { <-ticker.C; remainingTime--; ... }].
    Every iteration lowers [remainingTime] by one, so [ticks] iterations
    are all there are when [ticks] is [remainingTime]. The result lists
    the system broadcasts in order, each with the remaining time at
    which it is made. *)
Fixpoint countdownLoop (ticks : nat) (remainingTime : Z) : list (Z * string) :=
  match ticks with
  | O => []
  | S ticks' =>
      if remainingTime >? 0 then
        let remainingTime := remainingTime - 1 in
        match countdownTick remainingTime with
        | Some msg => (remainingTime, msg) :: countdownLoop ticks' remainingTime
        | None => countdownLoop ticks' remainingTime
        end
      else []
  end.

Definition countdownWarnings (remainingTime : Z) : list (Z * string) :=
  countdownLoop (Z.to_nat remainingTime) remainingTime.

(** *** persistence.go: the table [users] *)

Definition createUser (uname passwordHash : string) (priv : Z) : M (option string) :=
  fun s =>
    match DB s !! uname with
    | Some _ => (Some "UNIQUE constraint failed: users.username", s)
    | None =>
        (None, with_DB <[uname := mkAccount (DBnextId s) passwordHash priv]>
                 (DBnextId s + 1) s)
    end.

(** [authenticateUser] returns the address of a fresh [User]. *)
Definition authenticateUser (uname password : string) : M (ptr + string) :=
  fun s =>
    match DB s !! uname with
    | None => (inr "user not found", s)
    | Some a =>
        if bcryptCompare (acc_hash a) password then
          let p := nextPtr s in
          (inl p,
           with_nextPtr (S p)
             (with_heap <[p := mkUser (acc_id a) uname (acc_privilege a) "" 0%nat ""]> s))
        else (inr "invalid password", s)
    end.

Definition updatePassword (uname newPasswordHash : string) : M (option string) :=
  modify (fun s => with_DB (alter (fun a =>
            mkAccount (acc_id a) newPasswordHash (acc_privilege a)) uname) (DBnextId s) s) ;;
  ret None.

Definition updatePrivilege (uname : string) (newPrivilege : Z) : M (option string) :=
  modify (fun s => with_DB (alter (fun a =>
            mkAccount (acc_id a) (acc_hash a) newPrivilege) uname) (DBnextId s) s) ;;
  ret None.

Definition deleteUser (uname : string) : M (option string) :=
  modify (fun s => with_DB (delete uname) (DBnextId s) s) ;;
  ret None.

Fixpoint insertBy {A} (less : A -> A -> bool) (x : A) (l : list A) : list A :=
  match l with
  | [] => [x]
  | y :: r => if less x y then x :: l else y :: insertBy less x r
  end.

(** [sort.Slice] and SQL [ORDER BY]: an insertion sort by [less]. *)
Definition sortSlice {A} (less : A -> A -> bool) (l : list A) : list A :=
  foldr (insertBy less) [] l.

(** [ORDER BY privilege DESC, username] *)
Definition rowLess (a b : string * Account) : bool :=
  (acc_privilege b.2 <? acc_privilege a.2)
  || ((acc_privilege a.2 =? acc_privilege b.2) && String.ltb a.1 b.1).

Definition enumUsers : M (list string + string) := fun s =>
  (inl ((fun row : string * Account =>
           if acc_privilege row.2 =? 1 then row.1 +:+ " (admin)" else row.1)
        <$> sortSlice rowLess (map_to_list (DB s))), s).

(** *** usermgr.go *)

Definition ErrPrivilege : string :=
  "this is a system command, must be admin user to execute".
Definition ErrInvalidShutdownTime : string :=
  "invalid shutdown time, specify <#seconds>".

(** [for _, user := range um.users]: an entry deleted before the
    iteration reaches it is not visited.  Go leaves the order of the
    iteration open; the model takes the order of [map_to_list], and no
    statement below depends on it. *)
Fixpoint rangeKeys (keys : list string) (body : ptr -> M unit) : M unit :=
  match keys with
  | [] => ret tt
  | k :: r =>
      fun s =>
        match users s !! k with
        | Some p => (body p ;; rangeKeys r body) s
        | None => rangeKeys r body s
        end
  end.

Definition rangeUsers (body : ptr -> M unit) : M unit :=
  fun s => rangeKeys (map_to_list (users s)).*1 body s.

Definition FindUser (nick : string) : M (option ptr) := fun s =>
  (snd <$> List.find (fun kp : string * ptr => EqualFold (nickname (deref s kp.2)) nick)
             (map_to_list (users s)), s).

Definition addUser (user : ptr) : M bool := fun s =>
  let key := nickname (deref s user) in
  match users s !! key with
  | Some _ => (false, s)
  | None => (true, with_users <[key := user]> s)
  end.

Definition removeUser (nick : string) : M unit :=
  modify (with_users (delete (ToLower nick))).

Definition unsafeSendMessageToUser (user : ptr) (msgs : list string) : M (option string) :=
  u <- load user ;;
  err <- sendMessageToConn (conn u) msgs ;;
  match err with
  | Some e =>
      logEvent ("Error sending message to user " +:+ nickname u +:+ ": " +:+ e +:+ ". "
                +:+ pretty (Z.of_nat (length msgs)) +:+ " messages not sent.") ;;
      modify (with_users (delete (nickname u))) ;;
      ret (Some e)
  | None => ret None
  end.

Definition unsafeSendSysMessageToUser (user : ptr) (msgs : list string) : M (option string) :=
  u <- load user ;;
  err <- sendSysMessageToConn (conn u) msgs ;;
  match err with
  | Some e =>
      logEvent ("Error sending message to user " +:+ nickname u +:+ ": " +:+ e +:+ ". "
                +:+ pretty (Z.of_nat (length msgs)) +:+ " messages not sent.") ;;
      modify (with_users (delete (nickname u))) ;;
      ret (Some e)
  | None => ret None
  end.

Definition sendMessageToUser (user : ptr) (msgs : list string) : M (option string) :=
  unsafeSendMessageToUser user msgs.

Definition broadcastMessage (msgs : list string) : M unit :=
  rangeUsers (fun user => unsafeSendMessageToUser user msgs ;; ret tt).

Definition broadcastSysMessage (msgs : list string) : M unit :=
  rangeUsers (fun user => unsafeSendSysMessageToUser user msgs ;; ret tt).

Definition broadcastMessageExcept (excludedUserNickname : string) (msgs : list string)
  : M unit :=
  rangeUsers (fun user =>
    u <- load user ;;
    if EqualFold (nickname u) excludedUserNickname then ret tt
    else (unsafeSendMessageToUser user msgs ;; ret tt)).

Definition handleWhoAmI (user : ptr) : M unit :=
  u <- load user ;;
  s <- get ;;
  (if privilege u =? 1 then
     sendMessageToUser user
       ["You are: " +:+ nickname u +:+ " (admin) (" +:+ connRemoteAddr s (conn u)
        +:+ ")" +:+ nl]
   else
     sendMessageToUser user ["You are: " +:+ nickname u +:+ " (user)" +:+ nl]) ;;
  ret tt.

Definition userListLess (a b : string) : bool :=
  (Contains a "admin" && negb (Contains b "admin")) || String.ltb a b.

(** The lines of [generateUserList] before sorting, one per entry of
    the map. *)
Definition userListLines (s : State) (requestingUser : ptr) : list string :=
  (fun kp : string * ptr =>
     let user := deref s kp.2 in
     let priv := if privilege user =? 1 then "admin" else "user" in
     if privilege (deref s requestingUser) =? 1 then
       nickname user +:+ " (" +:+ priv +:+ ") (" +:+ connRemoteAddr s (conn user) +:+ ")"
     else nickname user +:+ " (" +:+ priv +:+ ")")
  <$> map_to_list (users s).

Definition generateUserList (requestingUser : ptr) : M string := fun s =>
  (Join (sortSlice userListLess (userListLines s requestingUser)) nl
   +:+ nl +:+ "(end of list)" +:+ nl, s).

Definition handlePrivateMessage (sender : ptr) (isReply : bool)
  (targetNickname message : string) : M unit :=
  found <- FindUser targetNickname ;;
  match found with
  | None =>
      logEvent ("Private message failed: user " +:+ targetNickname +:+ " not found") ;;
      sendMessageToUser sender ["User not found."] ;;
      ret tt
  | Some targetUser =>
      if Nat.eqb sender targetUser then
        sendMessageToUser sender
          [EncodeHTMLToTerm ("<w>You whisper to yourself: " +:+ message +:+ "</w>")] ;;
        ret tt
      else
        (* [strings.Fields(msgtype)] gives the verb and its third person *)
        let verb := if isReply then "reply" else "whisper" in
        let verbs := if isReply then "replies" else "whispers" in
        t <- load targetUser ;;
        sendMessageToUser sender
          [EncodeHTMLToTerm ("<w>You " +:+ verb +:+ " to " +:+ nickname t +:+ ": "
                             +:+ message +:+ "</w>")] ;;
        snd <- load sender ;;
        (if privilege snd =? 1 then
           sendMessageToUser targetUser
             [EncodeHTMLToTerm ("<aw>" +:+ nickname snd +:+ " (admin) " +:+ verbs +:+ ": "
                                +:+ message +:+ "</ww>")]
         else
           sendMessageToUser targetUser
             [EncodeHTMLToTerm ("<w>" +:+ nickname snd +:+ " " +:+ verbs +:+ ": "
                                +:+ message +:+ "</w>")]) ;;
        snd <- load sender ;;
        set_lastMsgFrom targetUser (nickname snd)
  end.

Definition handleUserLogout (user : ptr) : M unit :=
  u <- load user ;;
  logEvent ("User " +:+ nickname u +:+ " has quit") ;;
  broadcastMessage [nickname u +:+ " has left the chat"] ;;
  err <- connClose (conn u) ;;
  match err with
  | Some e => logEvent ("Error closing connection for user " +:+ nickname u +:+ ": " +:+ e)
  | None => ret tt
  end ;;
  removeUser (nickname u).

Definition handleWho (user : ptr) : M unit :=
  userList <- generateUserList user ;;
  sendMessageToUser user ["Current Users:"] ;;
  sendMessageToUser user [userList] ;;
  ret tt.

Definition handleNewNick (user : ptr) (newNickname : string) : M unit :=
  match validateNickname newNickname with
  | Some err => sendMessageToUser user [err] ;; ret tt
  | None =>
      existingUser <- FindUser newNickname ;;
      match existingUser with
      | Some _ =>
          sendMessageToUser user
            ["That nickname is already in use. Please choose another."] ;;
          ret tt
      | None =>
          u <- load user ;;
          let oldNickname := nickname u in
          logEvent ("User " +:+ oldNickname +:+ " changed nickname to " +:+ newNickname) ;;
          removeUser oldNickname ;;
          set_nickname user newNickname ;;
          added <- addUser user ;;
          if negb added then
            sendMessageToUser user ["Failed to update nickname. Please try again."] ;;
            ret tt
          else
            u <- load user ;;
            broadcastMessage [oldNickname +:+ " is now: " +:+ nickname u]
      end
  end.

(** [handleKick]: [None] is the nil error. *)
Definition handleKick (targetNickname kickMessage : string) (admin : ptr)
  : M (option string) :=
  a <- load admin ;;
  if EqualFold targetNickname (nickname a) then
    logEvent (nickname a +:+ " tried to kick themselves") ;;
    ret (Some "cannot kick yourself")
  else
    found <- FindUser targetNickname ;;
    match found with
    | None =>
        logEvent ("Kick attempt failed: user " +:+ targetNickname +:+ " not found") ;;
        ret (Some "user not found")
    | Some targetUser =>
        let nomsg := String.eqb (Trim kickMessage " ") "" in
        let kickMsg :=
          if nomsg then "You have been kicked by " +:+ nickname a +:+ "."
          else "You have been kicked by " +:+ nickname a +:+ ": " +:+ kickMessage in
        err <- sendMessageToUser targetUser [kickMsg] ;;
        t <- load targetUser ;;
        match err with
        | Some e => logEvent ("Error sending message to user " +:+ nickname t +:+ ": " +:+ e)
        | None => ret tt
        end ;;
        err <- connClose (conn t) ;;
        match err with
        | Some e =>
            logEvent ("Error closing connection for kicked user " +:+ nickname t
                      +:+ ": " +:+ e) ;;
            ret (Some e)
        | None =>
            removeUser (nickname t) ;;
            let broadcast :=
              if nomsg then nickname t +:+ " has been kicked."
              else nickname t +:+ " has been kicked by " +:+ nickname a +:+ ": "
                   +:+ kickMessage in
            logEvent broadcast ;;
            broadcastMessageExcept (nickname t) [broadcast] ;;
            err <- sendMessageToUser admin ["User " +:+ nickname t +:+ " has been kicked."] ;;
            match err with
            | Some e =>
                logEvent ("Error sending kick confirmation to admin " +:+ nickname a
                          +:+ ": " +:+ e)
            | None => ret tt
            end ;;
            ret None
        end
    end.

Definition changePasswordForUser (uname newPassword : string) : M (option string) :=
  match bcryptGenerate newPassword with
  | None => ret (Some "error hashing new password: bcrypt: password length exceeds 72 bytes")
  | Some newPasswordHash => updatePassword uname newPasswordHash
  end.

Definition handleChangePassword (user : ptr) (args : list string) : M unit :=
  match args with
  | [targetUsername; newPassword] =>
      u <- load user ;;
      if privilege u =? 1 then
        err <- changePasswordForUser targetUsername newPassword ;;
        match err with
        | Some e =>
            sendMessageToUser user
              ["Error changing password for " +:+ targetUsername +:+ ": " +:+ e]
        | None =>
            sendMessageToUser user
              ["Password for " +:+ targetUsername +:+ " updated successfully."]
        end ;;
        ret tt
      else if negb (String.eqb targetUsername (username u)) then
        sendMessageToUser user ["You can only change your own password."] ;;
        ret tt
      else
        err <- changePasswordForUser (username u) newPassword ;;
        match err with
        | Some _ =>
            sendMessageToUser user ["Error updating your password. Please try again later."]
        | None => sendMessageToUser user ["Your password has been updated successfully."]
        end ;;
        ret tt
  | _ => sendMessageToUser user ["Usage: /passwd <username> <newPassword>"] ;; ret tt
  end.

Definition handleCreateUser (user : ptr) (args : list string) : M unit :=
  u <- load user ;;
  if privilege u <? 1 then sendMessageToUser user [ErrPrivilege] ;; ret tt
  else
    match args with
    | [arg0; arg1] =>
        match bcryptGenerate arg1 with
        | None =>
            sendMessageToUser user ["Error hashing password. Please try again later."] ;;
            ret tt
        | Some passwordHash =>
            err <- createUser arg0 passwordHash 0 ;;
            match err with
            | Some e => sendMessageToUser user ["Error creating user: " +:+ e]
            | None => sendMessageToUser user ["User " +:+ arg0 +:+ " created successfully."]
            end ;;
            ret tt
        end
    | _ => sendMessageToUser user ["Usage: /createuser <username> <password>"] ;; ret tt
    end.

Definition handleChangePrivilege (user : ptr) (args : list string) : M unit :=
  let syntax := "Usage: /priv <username> <privilege> (0: user, 1: admin)" in
  u <- load user ;;
  if privilege u <? 1 then sendMessageToUser user [ErrPrivilege] ;; ret tt
  else
    match args with
    | [arg0; arg1] =>
        if EqualFold arg1 "admin" then
          sendMessageToUser user
            ["Privilege level change for user 'admin' is not allowed."] ;;
          ret tt
        else
          match Atoi arg1 with
          | None => sendMessageToUser user [syntax] ;; ret tt
          | Some newPrivilege =>
              err <- updatePrivilege arg0 newPrivilege ;;
              match err with
              | Some e =>
                  sendMessageToUser user
                    ["Error changing privilege for user " +:+ arg0 +:+ ": " +:+ e]
              | None =>
                  sendMessageToUser user
                    ["Privilege for user " +:+ arg0
                     +:+ " updated successfully. User must re-login."]
              end ;;
              ret tt
          end
    | _ => sendMessageToUser user [syntax] ;; ret tt
    end.

Definition handleDeleteUser (user : ptr) (args : list string) : M unit :=
  let syntax := "Usage: /deleteuser <username>" in
  u <- load user ;;
  if privilege u <? 1 then sendMessageToUser user [ErrPrivilege] ;; ret tt
  else
    match args with
    | [targetUsername] =>
        if EqualFold targetUsername (username u) then
          sendMessageToUser user ["Deleting current user is not allowed."] ;; ret tt
        else
          targetUser <- FindUser targetUsername ;;
          kicked <-
            match targetUser with
            | Some _ => handleKick targetUsername "User deleted by administrator" user
            | None => ret None
            end ;;
          match kicked with
          | Some e =>
              sendMessageToUser user
                ["Error kicking user " +:+ targetUsername +:+ ": " +:+ e] ;;
              ret tt
          | None =>
              err <- deleteUser targetUsername ;;
              match err with
              | Some e =>
                  sendMessageToUser user
                    ["Error deleting user " +:+ targetUsername +:+ ": " +:+ e]
              | None =>
                  sendMessageToUser user
                    ["User " +:+ targetUsername +:+ " deleted successfully."]
              end ;;
              ret tt
          end
    | _ => sendMessageToUser user [syntax] ;; ret tt
    end.

Definition handleEnumUsers (user : ptr) : M unit :=
  u <- load user ;;
  if privilege u <? 1 then sendMessageToUser user [ErrPrivilege] ;; ret tt
  else
    r <- enumUsers ;;
    match r with
    | inr e => sendMessageToUser user ["Error enumerating users: " +:+ e] ;; ret tt
    | inl dbusers =>
        sendMessageToUser user [Join dbusers nl +:+ nl +:+ "(End of list)"] ;; ret tt
    end.

(** *** server.go *)

Definition serverName : string := "ChatServer".
Definition maxLoginAttempts : nat := 3.
Definition loginTimeout : Z := 30.

Record ServerCommand := mkCmd {
  Command : string;
  cmdUser : option ptr;            (* the field [User]; [None] is nil *)
  Args : list string
}.

Definition terminateServerNow : M unit :=
  modify (with_shutdownOngoing true) ;;
  let msg := "System Notice: ChatServer is shutting down NOW. Please reconnect later." in
  broadcastSysMessage [msg] ;;
  logEvent msg ;;
  s <- get ;;
  (if listenerClosed s then
     logEvent ("Error closing listener: " +:+ ErrClosedConn)
   else modify (with_listenerClosed true)) ;;
  modify (with_commandsClosed true) ;;
  (* one goroutine per registered user closes its connection ([SetLinger]
     has no effect on the state); the closes are immediate here, so the
     final [select] logs the graceful case *)
  rangeUsers (fun user =>
    u <- load user ;;
    err <- connClose (conn u) ;;
    match err with
    | Some e => logEvent ("Error closing connection for user " +:+ nickname u +:+ ": " +:+ e)
    | None => ret tt
    end) ;;
  logEvent "All connections closed gracefully.".

Definition terminateServer (seconds : Z) : M unit :=
  if seconds >? 0 then
    let msg := "ChatServer shutdown has been initiated; server will shut down in "
               +:+ pretty (Z.quot seconds 60) +:+ " minutes, "
               +:+ pretty (Z.rem seconds 60) +:+ " seconds." in
    logEvent msg ;;
    broadcastSysMessage [msg] ;;
    modify (with_goroutines (fun g =>
      g ++ [GoCountdownWarnings seconds; GoSleepThenTerminate seconds]))
  else terminateServerNow.

Definition handleEcho (user : ptr) (args : list string) : M unit :=
  match args with
  | [] => sendMessageToUser user ["Usage: /echo <message>"] ;; ret tt
  | _ =>
      let msg := Join args " " in
      let txt := msg in
      sendMessageToUser user ["Echo: " +:+ txt] ;;
      logEvent txt
  end.

Definition helpMsg : list string :=
  [ "<title>Available commands:</title>" +:+ cr;
    "<cmd>/whoami</cmd> - Display your current nickname and privilege level" +:+ cr;
    "<cmd>/echo</cmd> &lt;message&gt; - Echo back the message" +:+ cr;
    "<cmd>/msg</cmd> &lt;nickname&gt; &lt;message&gt; - Send a private message" +:+ cr;
    "<cmd>/reply</cmd> &lt;message&gt; - Reply to the last private message received" +:+ cr;
    "<cmd>/bye</cmd> or /logout - Logout from the chat" +:+ cr;
    "<cmd>/who</cmd> - List all users in the chat" +:+ cr;
    "<cmd>/nick</cmd> &lt;newNickname&gt; - Change your nickname" +:+ cr;
    "<cmd>/help</cmd> - Display this help information" +:+ cr ].

Definition adminCommands : list string :=
  [ cr +:+ "<title>Admin commands:</title>" +:+ cr;
    "<cmd>/createuser</cmd> &lt;username&gt; &lt;password&gt; - Create a new user" +:+ cr;
    "<cmd>/priv</cmd> &lt;username&gt; &lt;level&gt; - Change user privileges" +:+ cr;
    "<cmd>/deleteuser</cmd> &lt;username&gt; - Delete a user" +:+ cr;
    "<cmd>/enumusers</cmd> - List all users" +:+ cr;
    "<cmd>/kick</cmd> &lt;nickname&gt; [reason] - Kick a user" +:+ cr;
    "<cmd>/shutdown</cmd> [seconds] - Shutdown the server with an optional countdown"
    +:+ cr ].

Definition handleHelp (user : ptr) : M unit :=
  u <- load user ;;
  let lines := if privilege u >? 0 then helpMsg ++ adminCommands else helpMsg in
  let msg := EncodeHTMLToTerm (Join lines nl) in
  sendMessageToUser user [msg] ;;
  ret tt.

(** The copy of the encoded text that [handleTest] prints on the standard
    output is not part of the state. *)
Definition handleTest (user : ptr) : M unit :=
  sendMessageToUser user ["Test command received."] ;;
  let src := "[src4] This is <span style=" +:+ dq +:+ "color: blue; font-weight: bold" +:+ dq
             +:+ ">This is <u>blue and bold</u> with <span style=" +:+ dq
             +:+ "color: green" +:+ dq
             +:+ ">green nested text</span></span> and normal text" in
  let encoded := EncodeHTMLToTerm src in
  sendMessageToUser user [encoded] ;;
  sendMessageToUser user ["This should be normal text again"] ;;
  ret tt.

(** How one iteration of the dispatcher's loop ends: with the next
    iteration ([continue] or the end of the body), with [return], or with
    a run-time panic. *)
Inductive Flow := Continue | Return | Panic.

Definition reportKick (user : ptr) (err : option string) : M Flow :=
  match err with
  | Some e =>
      logEvent ("Error in kick command: " +:+ e) ;;
      sendMessageToUser user ["Error executing kick command. " +:+ e] ;;
      ret Continue
  | None => ret Continue
  end.

(** The body of the loop of [commandDispatcher] for one received command. *)
Definition dispatch (cmd : ServerCommand) : M Flow :=
  match cmdUser cmd with
  | None => ret Continue
  | Some user =>
      match Command cmd with
      | "" => ret Continue
      | "help" => handleHelp user ;; ret Continue
      | "test" => handleTest user ;; ret Continue
      | "whoami" => handleWhoAmI user ;; ret Continue
      | "echo" => handleEcho user (Args cmd) ;; ret Continue
      | "kick" =>
          u <- load user ;;
          if privilege u =? 0 then sendMessageToUser user [ErrPrivilege] ;; ret Continue
          else
            match Args cmd with
            | [arg0] => err <- handleKick arg0 "" user ;; reportKick user err
            | arg0 :: rest =>
                let msg := Join rest " " in
                err <- handleKick arg0 msg user ;; reportKick user err
            | [] => ret Panic          (* [cmd.Args[1:]] of an empty slice *)
            end
      | "msg" | "w" | "whisper" =>
          match Args cmd with
          | targetNickname :: ((_ :: _) as rest) =>
              let msg := Join rest " " in
              if String.eqb (Trim msg " ") "" then
                sendMessageToUser user ["Message what?"] ;; ret Continue
              else handlePrivateMessage user false targetNickname msg ;; ret Continue
          | _ =>
              sendMessageToUser user
                ["Invalid message format. Use: /msg <nickname> <message>"] ;;
              ret Continue
          end
      | "r" | "reply" =>
          u <- load user ;;
          if String.eqb (lastMsgFrom u) "" then
            sendMessageToUser user ["No user to reply to."] ;; ret Continue
          else
            let msg := Join (Args cmd) " " in
            if String.eqb (Trim msg " ") "" then
              sendMessageToUser user ["Invalid reply format. Use: /r <message>"] ;;
              ret Continue
            else handlePrivateMessage user true (lastMsgFrom u) msg ;; ret Continue
      | "bye" | "logout" => handleUserLogout user ;; ret Continue
      | "who" => handleWho user ;; ret Continue
      | "nick" =>
          match Args cmd with
          | newNickname :: _ => handleNewNick user newNickname ;; ret Continue
          | [] =>
              sendMessageToUser user
                ["Please provide a new nickname. Use: /nick <newNickname>"] ;;
              ret Continue
          end
      | "passwd" => handleChangePassword user (Args cmd) ;; ret Continue
      | "createuser" => handleCreateUser user (Args cmd) ;; ret Continue
      | "priv" => handleChangePrivilege user (Args cmd) ;; ret Continue
      | "deleteuser" => handleDeleteUser user (Args cmd) ;; ret Continue
      | "enumusers" => handleEnumUsers user ;; ret Continue
      | "shutdown" =>
          u <- load user ;;
          if privilege u =? 0 then sendMessageToUser user [ErrPrivilege] ;; ret Return
          else
            match Args cmd with
            | arg0 :: _ =>
                match Atoi arg0 with
                | Some cts =>
                    if cts <? 0 then
                      sendMessageToUser user [ErrInvalidShutdownTime] ;; ret Continue
                    else terminateServer cts ;; ret Return
                | None => sendMessageToUser user [ErrInvalidShutdownTime] ;; ret Continue
                end
            | [] => ret Return
            end
      | _ =>
          u <- load user ;;
          logEvent ("Unknown command received from user " +:+ nickname u +:+ ": "
                    +:+ Command cmd) ;;
          sendMessageToUser user ["Unknown command."] ;;
          ret Continue
      end
  end.

(** [for cmd := range s.commands]: [queue] lists the commands received
    from the channel, in order.  The result tells how the loop was left
    and which received commands were never looked at; [Continue] means
    that the dispatcher waits for the next command. *)
Fixpoint commandDispatcher (queue : list ServerCommand) : M (Flow * list ServerCommand) :=
  match queue with
  | [] => ret (Continue, [])
  | cmd :: rest =>
      flow <- dispatch cmd ;;
      match flow with
      | Continue => commandDispatcher rest
      | _ => ret (flow, rest)
      end
  end.

(** main.go and [Run]: the command that the handler of SIGINT and SIGTERM
    sends on [s.commands]. *)
Definition signalCommand : ServerCommand :=
  mkCmd "shutdown" None ["0"].

(** *** The login phase of [handleNewClient], in logical time

    Time is counted in seconds from the moment the login timer is armed
    ([time.After(loginTimeout * time.Second)]), so the timer fires at
    [loginTimeout].  The run of one handler is described by what its
    receiving operations deliver, in the order in which it performs
    them: an item is a line or a read error, with the time at which it
    becomes available to the handler; past the last item nothing ever
    arrives.  The password is read from the reader of the connection.
    The timed query receives from [timedLoginNickChan] and
    [timedLoginErrorChan], which are package-level: the reader goroutine
    of every connection in its login phase sends on them, and the
    [select] of every such handler receives from them.  The item of a
    timed query is the one that reaches the [select] of this handler,
    from the reader of whichever connection it comes.  When no other
    connection is in its login phase, the items are what the client of
    this connection sends. *)

Inductive Input :=
| Line (arrival : Z) (text : string)
| ReadError (arrival : Z) (err : string).

Definition arrivalOf (i : Input) : Z :=
  match i with Line t _ => t | ReadError t _ => t end.

(** A plain [reader.ReadString]: it returns when the item has arrived,
    however late; with nothing left to arrive it never returns. *)
Inductive ReadResult :=
| ReadLine (text : string) (at_time : Z)
| ReadFailed (err : string) (at_time : Z)
| ReadBlocks.

Definition readString (now : Z) (next : option Input) : ReadResult :=
  match next with
  | None => ReadBlocks
  | Some (Line t text) => ReadLine text (Z.max now t)
  | Some (ReadError t e) => ReadFailed e (Z.max now t)
  end.

(** [queryNicknameWithTimeout]: the read runs in a goroutine, which
    sends the line or the error on the package-level channels, and the
    [select] races them with [timeoutChan]; [next] is the item that
    reaches this [select].  The line wins when it is there before the
    timer fires; otherwise the result is the error [timeout], at the
    time the timer fires (or at once when it has fired already). *)
Definition queryNicknameWithTimeout (now : Z) (next : option Input)
  : (string + string) * Z :=
  match readString now next with
  | ReadLine line t =>
      if t <? loginTimeout then
        let nick := TrimRight line (String " " (String "013" (String "010" EmptyString))) in
        let nick := sanitizeNickname nick in
        match validateNickname nick with
        | Some err => (inr err, t)
        | None => (inl nick, t)
        end
      else (inr "timeout", Z.max now loginTimeout)
  | ReadFailed e t =>
      if t <? loginTimeout then (inr e, t) else (inr "timeout", Z.max now loginTimeout)
  | ReadBlocks => (inr "timeout", Z.max now loginTimeout)
  end.

Definition asciiSpace : string :=
  String "009" (String "010" (String "011" (String "012" (String "013" (String " " EmptyString))))).

(** [strings.TrimSpace] on ASCII text: the six ASCII blanks are trimmed.
    Go trims the Unicode white space beyond ASCII as well (U+0085,
    U+00A0, ...); what is stated below of a trimmed line that comes
    from a client is stated for ASCII text. *)
Definition TrimSpace (s : string) : string := Trim s asciiSpace.

Inductive LoginResult :=
| LoginTimeout                 (* the login-timeout message was sent *)
| LoginError                   (* a read or validation error, logged only *)
| LoginAttemptsExhausted
| Authenticated (user : ptr)   (* registered; the read loop takes over *)
| LoginBlocked.                (* the handler is stuck in a read *)

Definition loginPeriodExceeded (c : connId) (now : Z) : M (LoginResult * Z) :=
  let msg := "Login period exceeded, connection closed." in
  logEvent msg ;;
  sendMessageToConn c [msg] ;;
  ret (LoginTimeout, now).

(** The loop [for s.userManager.FindUser(username) != nil]; every
    iteration that goes on consumes one item of the input. *)
Fixpoint resolveNickname (c : connId) (input : list Input) (now : Z) (uname : string)
  : M ((string * list Input + LoginResult) * Z) :=
  found <- FindUser uname ;;
  match found with
  | None => ret (inl (uname, input), now)
  | Some _ =>
      sendMessageToConn c ["Username already in use. Please enter a different nickname: "] ;;
      match queryNicknameWithTimeout now (head input) with
      | (inr err, t) =>
          if String.eqb err "timeout" then
            r <- loginPeriodExceeded c t ;; ret (inr r.1, r.2)
          else
            logEvent ("Error querying nickname: " +:+ err) ;; ret (inr LoginError, t)
      | (inl newNickname, t) =>
          match input with
          | [] => ret (inr LoginError, t)          (* no line, no nickname *)
          | _ :: rest => resolveNickname c rest t (TrimSpace newNickname)
          end
      end
  end.

(** One pass of the loop [for attempts := 0; attempts < maxLoginAttempts;
    attempts++]; [attemptsLeft] is [maxLoginAttempts - attempts]. *)
Fixpoint loginAttempts (attemptsLeft : nat) (c : connId) (input : list Input) (now : Z)
  : M (LoginResult * Z) :=
  match attemptsLeft with
  | O =>
      let msg := "Login attempts exhausted, closing connection." in
      logEvent msg ;;
      sendMessageToConn c [msg] ;;
      ret (LoginAttemptsExhausted, now)
  | S attemptsLeft' =>
      if loginTimeout <=? now then loginPeriodExceeded c now
      else
        match queryNicknameWithTimeout now (head input) with
        | (inr err, t) =>
            if String.eqb err "timeout" then loginPeriodExceeded c t
            else logEvent ("Error querying username: " +:+ err) ;; ret (LoginError, t)
        | (inl uname, t) =>
            sendMessageToConn c ["Please enter your password: "] ;;
            match readString t (head (tail input)) with
            | ReadBlocks => ret (LoginBlocked, t)
            | ReadFailed e t' =>
                logEvent ("Error reading password: " +:+ e) ;; ret (LoginError, t')
            | ReadLine password t' =>
                let password := TrimSpace password in
                auth <- authenticateUser uname password ;;
                match auth with
                | inr _ =>
                    sendMessageToConn c ["Invalid username or password. Please try again."] ;;
                    loginAttempts attemptsLeft' c (tail (tail input)) t'
                | inl user =>
                    r <- resolveNickname c (tail (tail input)) t' uname ;;
                    match r with
                    | (inr failure, t'') => ret (failure, t'')
                    | (inl (uname, _), t'') =>
                        set_nickname user uname ;;
                        set_conn user c ;;
                        u <- load user ;;
                        sendMessageToConn c
                          ["Welcome to " +:+ serverName +:+ "! You are now known as "
                           +:+ nickname u +:+ "."] ;;
                        addUser user ;;
                        broadcastMessage [nickname u +:+ " has joined the chat"] ;;
                        ret (Authenticated user, t'')
                    end
                end
            end
        end
  end.

(** [handleNewClient] up to the hand-over to [handleUserInput].  The
    deferred [conn.Close()] runs when the handler returns, which it does
    at once on a failed login. *)
Definition handleNewClient (c : connId) (input : list Input) : M (LoginResult * Z) :=
  sendMessageToConn c ["Welcome to " +:+ serverName +:+ ". Please enter your username: "] ;;
  r <- loginAttempts maxLoginAttempts c input 0 ;;
  match r.1 with
  | Authenticated _ | LoginBlocked => ret r
  | _ =>
      err <- connClose c ;;
      match err with
      | Some e => logEvent ("Error closing connection: " +:+ e)
      | None => ret tt
      end ;;
      ret r
  end.

(** *** The read loop: [parseCommand] and the body of [handleUserInput]

    [strings.TrimSpace] and [strings.Fields] are modelled on bytes, for
    the ASCII white space; on text with no byte above 127 this is what Go
    computes.  Go treats the Unicode white space beyond ASCII (U+0085,
    U+00A0, ...) as blanks too, so what is stated of a line that comes
    from a client either holds of Go's functions as well or is stated
    for ASCII text. *)

(** [strings.TrimPrefix]: [stripPrefix] is the rest behind the prefix. *)
Fixpoint stripPrefix (prefix s : string) : option string :=
  match prefix, s with
  | EmptyString, _ => Some s
  | String a p, String b r => if Ascii.eqb a b then stripPrefix p r else None
  | String _ _, EmptyString => None
  end.

Definition TrimPrefix (s prefix : string) : string :=
  default s (stripPrefix prefix s).

Definition isSpace (c : ascii) : bool := inCutset asciiSpace c.

(** [strings.Fields] on ASCII text: the maximal runs of bytes that are
    not ASCII white space. *)
Fixpoint Fields (s : string) : list string :=
  match s with
  | EmptyString => []
  | String c r =>
      if isSpace c then Fields r
      else
        match r with
        | EmptyString => [String c EmptyString]
        | String d _ =>
            if isSpace d then String c EmptyString :: Fields r
            else
              match Fields r with
              | f :: fs => String c f :: fs
              | [] => [String c EmptyString]
              end
        end
  end.

Definition parseCommand (user : ptr) (input : string) : ServerCommand :=
  let input := TrimSpace input in
  let cmdStr := TrimPrefix input "/" in
  match Fields cmdStr with
  | [] => mkCmd EmptyString (Some user) []
  | part0 :: parts => mkCmd part0 (Some user) parts
  end.

(** How one pass of the loop of [handleUserInput] ends: with the next
    read, with a command sent on [s.commands] and then the next read, or
    with [return]. *)
Inductive ReadStep :=
| KeepReading
| Submit (cmd : ServerCommand)
| StopReading.

(** The body of the loop for what [reader.ReadString] returned: a line
    ([inl]) or an error ([inr]). *)
Definition handleUserInputStep (user : ptr) (read : string + string) : M ReadStep :=
  match read with
  | inr err =>
      u <- load user ;;
      logEvent ("Error reading input from user " +:+ nickname u +:+ ": " +:+ err) ;;
      removeUser (nickname u) ;;
      ret StopReading
  | inl msg =>
      let msg := TrimSpace msg in
      match msg with
      | EmptyString => ret KeepReading
      | String c _ =>
          if Ascii.eqb c "/" then ret (Submit (parseCommand user msg))
          else
            u <- load user ;;
            broadcastMessage [nickname u +:+ ": " +:+ msg] ;;
            ret KeepReading
      end
  end.

End Server.
End Model.

(** * A running server, for the examples

    The collaborators are instantiated (the renderer leaves the text as it
    is, a hash is the password behind a prefix), and the states are those a
    server reaches from its start by the logins described. *)

Module Scenario.
Import GoStrings GoStrconv Util Model.

Definition render (s : string) : string := s.
Definition hashOf (pw : string) : option string := Some ("hash:" +:+ pw).
Definition hashOk (h pw : string) : bool := String.eqb h ("hash:" +:+ pw).

Definition openConn (addr : string) : Conn := mkConn [] false false addr.

Definition typed (text : string) : string := text +:+ cr +:+ nl.

(** The server after start-up: four accounts, three accepted connections,
    nobody logged in. *)
Definition started : State :=
  mkState ∅ 1%nat ∅
    (<[1%nat := openConn "10.0.0.1:5001"]>
       (<[2%nat := openConn "10.0.0.2:5002"]>
          (<[3%nat := openConn "10.0.0.3:5003"]> ∅)))
    (<["admin" := mkAccount 1 "hash:admin123" 1]>
       (<["Alice" := mkAccount 2 "hash:wonder" 0]>
          (<["alice" := mkAccount 3 "hash:rabbit" 0]>
             (<["bob" := mkAccount 4 "hash:builder" 0]> ∅))))
    5 [] false false false [].

(** [Alice] logs in on connection 1: her [User] is at address 1. *)
Definition aliceOnline : State := Eval vm_compute in
  (handleNewClient hashOk 1%nat [Line 1 (typed "Alice"); Line 2 (typed "wonder")] started).2.

(** Then [admin] logs in on connection 2 (address 2). *)
Definition adminOnline : State := Eval vm_compute in
  (handleNewClient hashOk 2%nat [Line 1 (typed "admin"); Line 2 (typed "admin123")]
     aliceOnline).2.

(** [bob] alone logs in on connection 3 (address 1). *)
Definition bobOnline : State := Eval vm_compute in
  (handleNewClient hashOk 3%nat [Line 1 (typed "bob"); Line 2 (typed "builder")] started).2.

(** Lower-case [alice] logs in on connection 2 (address 1); the account
    [Alice] has authenticated on connection 1 (address 2) but is not
    registered yet. *)
Definition aliceLowerOnline : State := Eval vm_compute in
  (handleNewClient hashOk 2%nat [Line 1 (typed "alice"); Line 2 (typed "rabbit")] started).2.

Definition capitalAlicePending : State := Eval vm_compute in
  ((p <- authenticateUser hashOk "Alice" "wonder" ;;
    match p with
    | inl user => set_nickname user "Alice" ;; set_conn user 1%nat
    | inr _ => ret tt
    end)%go aliceLowerOnline).2.

(** [bob] is logged in and his peer has gone away. *)
Definition bobUnreachable : State := Eval vm_compute in
  with_conns (alter (fun k => mkConn (sent k) (closed k) true (remoteAddr k)) 3%nat) bobOnline.

(** [Alice] and [admin] are logged in and the peer of [Alice] has gone
    away. *)
Definition aliceUnreachable : State := Eval vm_compute in
  with_conns (alter (fun k => mkConn (sent k) (closed k) true (remoteAddr k)) 1%nat)
    adminOnline.

(** [bob] (address 1, connection 3) and then [admin] (address 2,
    connection 2) are logged in. *)
Definition bobAndAdmin : State := Eval vm_compute in
  (handleNewClient hashOk 2%nat [Line 1 (typed "admin"); Line 2 (typed "admin123")]
     bobOnline).2.

(** [Alice] and [admin] are logged in, [admin] has given the account
    [bob] the privilege -1, and then [bob] has logged in on connection 3
    (address 3). *)
Definition bobDemoted : State := Eval vm_compute in
  (handleNewClient hashOk 3%nat [Line 1 (typed "bob"); Line 2 (typed "builder")]
     (dispatch render hashOf (mkCmd "priv" (Some 2%nat) ["bob"; "-1"]) adminOnline).2).2.

(** [bob] and [admin] are logged in, and [bob] has taken the nickname
    [robert]. *)
Definition bobRenamed : State := Eval vm_compute in
  (dispatch render hashOf (mkCmd "nick" (Some 1%nat) ["robert"]) bobAndAdmin).2.

End Scenario.

(** * The vocabulary of the statements *)

Import GoStrings GoStrconv Util Model.
Local Open Scope go_scope.

(** A nickname of twenty bytes. *)
Definition nicknameOfLength20 : string := "a2345678901234567890".

(** The cutset of the [TrimRight] in [queryNicknameWithTimeout]. *)
Definition spaceCRLF : string := String " " (String "013" (String "010" EmptyString)).

(** The cadence: which remaining times carry a warning. *)
Definition onCadence (r : Z) : Prop :=
  (15 * 60 < r -> (15 * 60 | r))
  /\ (60 < r <= 15 * 60 -> (60 | r))
  /\ (r <= 60 -> (10 | r)).

(** The countdown started with [delay] broadcasts a warning at the
    remaining time [r]. *)
Definition warnedAt (delay r : Z) : Prop :=
  exists msg, In (r, msg) (countdownWarnings delay).

(** The connection is there, not closed and not broken: a write succeeds. *)
Definition writable (s : State) (c : connId) : Prop :=
  exists k, conns s !! c = Some k /\ closed k = false /\ broken k = false.

(** Every registered session has a connection that accepts writes. *)
Definition allWritable (s : State) : Prop :=
  forall key p, users s !! key = Some p -> writable s (conn (deref s p)).

(** [s'] is [s] with more lines sent on some connections, nothing else. *)
Definition sentMore (s s' : State) : Prop :=
  s' = with_conns (fun _ => conns s') s
  /\ forall c, writable s c -> writable s' c.

(** The same, decided. *)
Definition writableb (s : State) (c : connId) : bool :=
  match conns s !! c with
  | Some k => negb (closed k) && negb (broken k)
  | None => false
  end.

Definition allWritableb (s : State) : bool :=
  forallb (fun kp : string * ptr => writableb s (conn (deref s kp.2)))
    (map_to_list (users s)).

(** The state that [handleNewNick] builds before it broadcasts the
    change: the event logged, the key [ToLower old] deleted, the nickname
    overwritten and the session filed under it. *)
Definition renamed (s : State) (user : ptr) (newNickname : string) : State :=
  let old := nickname (deref s user) in
  with_users <[newNickname := user]>
    (set_nickname user newNickname
       (removeUser old
          (logEvent ("User " +:+ old +:+ " changed nickname to " +:+ newNickname) s).2).2).2.

(** The command names its issuer. *)
Definition hasUser (cmd : ServerCommand) : bool :=
  match cmdUser cmd with Some _ => true | None => false end.

(** The commands that the handlers themselves gate by privilege. *)
Definition gatedByHandler : list string :=
  ["createuser"; "priv"; "deleteuser"; "enumusers"].

(** The two answers of [handleChangePrivilege] that the statements name. *)
Definition privRefusal : string :=
  "Privilege level change for user 'admin' is not allowed.".

Definition privUpdated (uname : string) : string :=
  "Privilege for user " +:+ uname +:+ " updated successfully. User must re-login.".


(** The format rule as the spec words it: a letter first, then 3 to 19
    letters, digits or underscores. *)
Definition statedNicknameRule (s : string) : bool :=
  match s with
  | EmptyString => false
  | String c r =>
      isLetter c && all_bytes isWordByte r
      && (3 <=? String.length r)%nat && (String.length r <=? 19)%nat
  end.

(** The sanitising as the spec words it: the spaces and the backslashes
    are taken out wherever they stand, every other byte is kept in its
    place, and the line terminators at the end are stripped. *)
Fixpoint dropWhile {A} (p : A -> bool) (l : list A) : list A :=
  match l with
  | [] => []
  | x :: r => if p x then dropWhile p r else l
  end.

Definition isLineTerminator (c : ascii) : bool :=
  Ascii.eqb c "013" || Ascii.eqb c "010".

Definition sanitizedAsStated (s : string) : string :=
  let kept := List.filter (fun c => negb (Ascii.eqb c " ") && negb (Ascii.eqb c "\"))
                (String.list_ascii_of_string s) in
  String.string_of_list_ascii (rev (dropWhile isLineTerminator (rev kept))).

(** Text without a byte above 127: on such text the byte-wise
    [EqualFold], [ToLower], [TrimSpace] and [Fields] are what Go's
    Unicode-aware functions compute. *)
Definition isAscii (s : string) : bool :=
  all_bytes (fun c => (N_of_ascii c <? 128)%N) s.

(** The nickname of every registered session is ASCII text, as it is
    when every nickname has passed [validateNickname]. *)
Definition asciiNicknames (s : State) : Prop :=
  forall key p, users s !! key = Some p -> isAscii (nickname (deref s p)) = true.

Definition asciiNicknamesb (s : State) : bool :=
  forallb (fun kp : string * ptr => isAscii (nickname (deref s kp.2)))
    (map_to_list (users s)).

(** A byte of a token: ASCII and not white space. *)
Definition isTokenByte (c : ascii) : bool :=
  negb (isSpace c) && (N_of_ascii c <? 128)%N.

(** A token: not empty, made of token bytes. *)
Definition isToken (w : string) : bool :=
  negb (String.eqb w EmptyString) && all_bytes isTokenByte w.

(** A field: not empty, without white space. *)
Definition isField (w : string) : bool :=
  negb (String.eqb w EmptyString) && all_bytes (fun c => negb (isSpace c)) w.

(** The line terminator of a client. *)
Definition crlf : string := cr +:+ nl.

(** The names of the [switch] of [commandDispatcher]. *)
Definition knownCommands : list string :=
  ["help"; "test"; "whoami"; "echo"; "kick"; "msg"; "w"; "whisper"; "r"; "reply";
   "bye"; "logout"; "who"; "nick"; "passwd"; "createuser"; "priv"; "deleteuser";
   "enumusers"; "shutdown"].

Definition isKnownCommand (name : string) : bool :=
  existsb (String.eqb name) knownCommands.

(** The [default] branch of the [switch]. *)
Definition unknownCommand (user : ptr) (name : string) : M Flow :=
  u <- load user ;;
  logEvent ("Unknown command received from user " +:+ nickname u +:+ ": " +:+ name) ;;
  sendMessageToUser user ["Unknown command."] ;;
  ret Continue.

(** The commands that write to the credential store. *)
Definition storeCommands : list string := ["passwd"; "createuser"; "priv"; "deleteuser"].

(** The computation leaves this view of the state as it is. *)
Definition keepsOn {A B} (view : State -> B) (m : M A) : Prop :=
  forall s, view (m s).2 = view s.

(** The table of accounts with its counter of ids. *)
Definition accounts (s : State) : gmap string Account * Z := (DB s, DBnextId s).

(** All of the state but the registry, the connections and the log. *)
Definition core (s : State)
  : gmap ptr User * ptr * (gmap string Account * Z) * (bool * bool * bool) * list Goroutine :=
  (heap s, nextPtr s, accounts s,
   (shutdownOngoing s, listenerClosed s, commandsClosed s), goroutines s).

(** Every outcome of the computation satisfies [F]. *)
Definition flowsIn (F : Flow -> Prop) (m : M Flow) : Prop :=
  forall s, F (m s).1.

(** A command that cannot end the loop of the dispatcher. *)
Definition keepsDispatcher (cmd : ServerCommand) : bool :=
  negb (String.eqb (Command cmd) "shutdown")
  && negb (String.eqb (Command cmd) "kick" && match Args cmd with [] => true | _ => false end).

(** Every key of the registry is the nickname of the session under it. *)
Definition keyed (s : State) : Prop :=
  forall key p, users s !! key = Some p -> nickname (deref s p) = key.

(** Between [s] and [s'] the [lines] were written to the connection [c],
    in this order and without anything in between. *)
Definition delivered (s s' : State) (c : connId) (lines : list string) : Prop :=
  exists k k' before after,
    conns s !! c = Some k /\ conns s' !! c = Some k'
    /\ sent k' = sent k ++ before ++ lines ++ after.

(** What was sent on a connection in [s] is still there in [s'], at the
    front. *)
Definition sentKept (s s' : State) : Prop :=
  forall c k, conns s !! c = Some k ->
    exists k' more, conns s' !! c = Some k' /\ sent k' = sent k ++ more.

(** From [s] to [s'] connections were only written to: the [User]
    objects are the same, a connection takes writes in [s'] iff it did in
    [s], what was sent on it is still there, at the front, and a
    connection that took no writes is as it was. *)
Definition grows (s s' : State) : Prop :=
  heap s' = heap s
  /\ (forall c, writableb s' c = writableb s c)
  /\ sentKept s s'
  /\ (forall c, writableb s c = false -> conns s' !! c = conns s !! c).



(** The connection as it is once the server has closed it. *)
Definition closedConn (k : Conn) : Conn := mkConn (sent k) true (broken k) (remoteAddr k).

(** The connection after a write of [lines] that succeeded. *)
Definition written (k : Conn) (lines : list string) : Conn :=
  mkConn (sent k ++ lines) false false (remoteAddr k).

(** What the target of a private message reads. *)
Definition whisperLine (render : string -> string) (sender : User) (isReply : bool)
  (message : string) : string :=
  let verbs := if isReply then "replies" else "whispers" in
  if privilege sender =? 1
  then render ("<aw>" +:+ nickname sender +:+ " (admin) " +:+ verbs +:+ ": "
               +:+ message +:+ "</ww>")
  else render ("<w>" +:+ nickname sender +:+ " " +:+ verbs +:+ ": " +:+ message +:+ "</w>").

(** The system notice of [terminateServerNow], as it is written. *)
Definition shutdownNow (render : string -> string) : string :=
  render ("<sys>" +:+ "System Notice: ChatServer is shutting down NOW. Please reconnect later."
          +:+ "</sys>").

(** [keyed], decided. *)
Definition keyedb (s : State) : bool :=
  forallb (fun kp : string * ptr => String.eqb (nickname (deref s kp.2)) kp.1)
    (map_to_list (users s)).

(** Every registered session is an object that has been allocated. *)
Definition allocated (s : State) : Prop :=
  forall key p, users s !! key = Some p -> (p < nextPtr s)%nat.

Definition allocatedb (s : State) : bool :=
  forallb (fun kp : string * ptr => (kp.2 <? nextPtr s)%nat) (map_to_list (users s)).

(** What the server writes during a login. *)
Definition usernamePrompt : string :=
  "Welcome to " +:+ serverName +:+ ". Please enter your username: ".
Definition passwordPrompt : string := "Please enter your password: ".
Definition loginRefused : string := "Invalid username or password. Please try again.".
Definition loginExhausted : string := "Login attempts exhausted, closing connection.".
Definition loginExpired : string := "Login period exceeded, connection closed.".
Definition loginWelcome (nick : string) : string :=
  "Welcome to " +:+ serverName +:+ "! You are now known as " +:+ nick +:+ ".".

(** One attempt to log in, as the handler receives it: the username, which
    reaches the [select] of the timed query at [nameAt], and the password,
    which the read of the password returns at [passwordAt]. *)
Record Attempt := mkAttempt {
  nameAt : Z;
  nameTyped : string;
  passwordAt : Z;
  passwordTyped : string
}.

(** What the handler receives for these attempts, in order. *)
Definition arrivals (attempts : list Attempt) : list Input :=
  flat_map (fun a => [Line (nameAt a) (nameTyped a +:+ crlf);
                      Line (passwordAt a) (passwordTyped a +:+ crlf)])
    attempts.

(** The attempt is made in time, with a well-formed username and a
    password in ASCII, and the store does not accept it. *)
Definition fails (check : string -> string -> bool) (s : State) (a : Attempt) : bool :=
  (0 <=? nameAt a) && (nameAt a <? loginTimeout)
  && (0 <=? passwordAt a) && (passwordAt a <? loginTimeout)
  && match validateNickname (nameTyped a) with None => true | Some _ => false end
  && isAscii (passwordTyped a)
  && match DB s !! nameTyped a with
     | None => true
     | Some acc => negb (check (acc_hash acc) (TrimSpace (passwordTyped a +:+ crlf)))
     end.

(** What the server writes in answer to attempts that all fail. *)
Definition refusals (attempts : list Attempt) : list string :=
  flat_map (fun _ => [passwordPrompt; loginRefused]) attempts.

(** * Properties *)

(** ** Nickname validation and sanitisation (util.go) *)

Section Nicknames.

Lemma validateNickname_None s : validateNickname s = None <-> nicknameRegex s = true.
Proof.
  unfold validateNickname. destruct (nicknameRegex s); simpl; split; congruence.
Qed.

Lemma validateNickname_Some s :
  nicknameRegex s = false -> validateNickname s = Some ErrIllegalNickname.
Proof. unfold validateNickname. intros ->. reflexivity. Qed.

Lemma nicknameRegex_length s :
  nicknameRegex s = true -> (3 <= String.length s <= 20)%nat.
Proof.
  destruct s as [|c r]; [discriminate|].
  unfold nicknameRegex. cbn [String.length].
  rewrite !andb_true_iff, !Nat.leb_le. lia.
Qed.

Lemma all_bytes_removeByte p old s :
  all_bytes p s = true -> all_bytes p (removeByte old s) = true.
Proof.
  induction s as [|c r IH]; simpl; [reflexivity|].
  rewrite andb_true_iff. intros [Hc Hr].
  destruct (Ascii.eqb c old); simpl; rewrite ?Hc; auto.
Qed.

Lemma removeByte_gone old s :
  all_bytes (fun c => negb (Ascii.eqb c old)) (removeByte old s) = true.
Proof.
  induction s as [|c r IH]; simpl; [reflexivity|].
  destruct (Ascii.eqb c old) eqn:E; simpl; rewrite ?E; auto.
Qed.

Lemma removeByte_id old s :
  all_bytes (fun c => negb (Ascii.eqb c old)) s = true -> removeByte old s = s.
Proof.
  induction s as [|c r IH]; simpl; [reflexivity|].
  rewrite andb_true_iff, negb_true_iff. intros [-> Hr]. f_equal; auto.
Qed.

Lemma all_bytes_TrimRight p s cutset :
  all_bytes p s = true -> all_bytes p (TrimRight s cutset) = true.
Proof.
  induction s as [|c r IH]; simpl; [reflexivity|].
  rewrite andb_true_iff. intros [Hc Hr]. specialize (IH Hr).
  destruct (TrimRight r cutset) as [|d t].
  - destruct (inCutset cutset c); simpl; rewrite ?Hc; reflexivity.
  - simpl in *. rewrite Hc. exact IH.
Qed.

(** The last byte of a right-trimmed string is outside the cutset. *)
Lemma TrimRight_last s cutset r c :
  TrimRight s cutset = r +:+ String c EmptyString -> inCutset cutset c = false.
Proof.
  revert r. induction s as [|a s' IH]; intros r; simpl.
  - destruct r; discriminate.
  - destruct (TrimRight s' cutset) as [|b t] eqn:E.
    + destruct (inCutset cutset a) eqn:Ha.
      * destruct r; discriminate.
      * destruct r as [|x r']; simpl; intros H; inversion H; subst; [exact Ha|].
        destruct r'; discriminate.
    + destruct r as [|x r']; simpl; intros H; inversion H; subst.
      eapply IH. eassumption.
Qed.

End Nicknames.

(** *** Sanitising, as the spec describes it *)

Lemma all_bytes_impl (p q : ascii -> bool) (s : string) :
  (forall c, p c = true -> q c = true) -> all_bytes p s = true -> all_bytes q s = true.
Proof.
  intros Hpq. induction s as [|c r IH]; simpl; [reflexivity|].
  rewrite !andb_true_iff. intros [Hc Hr]. auto.
Qed.

Section Sanitising.

Lemma removeByte_filter (old : ascii) (s : string) :
  String.list_ascii_of_string (removeByte old s)
  = List.filter (fun c => negb (Ascii.eqb c old)) (String.list_ascii_of_string s).
Proof.
  induction s as [|c r IH]; [reflexivity|]. cbn [removeByte String.list_ascii_of_string List.filter].
  destruct (Ascii.eqb c old); cbn [negb]; [exact IH|].
  cbn [String.list_ascii_of_string]. rewrite IH. reflexivity.
Qed.

Lemma filter_filter_andb {A} (p q : A -> bool) (l : list A) :
  List.filter p (List.filter q l) = List.filter (fun x => q x && p x) l.
Proof.
  induction l as [|x l IH]; [reflexivity|]. cbn [List.filter].
  destruct (q x); cbn [andb List.filter]; [|exact IH].
  destruct (p x); rewrite IH; reflexivity.
Qed.

Lemma dropWhile_app {A} (p : A -> bool) (l1 l2 : list A) :
  dropWhile p (l1 ++ l2)
  = match dropWhile p l1 with
    | [] => dropWhile p l2
    | x :: r => (x :: r) ++ l2
    end.
Proof.
  induction l1 as [|x l1 IH]; [reflexivity|]. cbn [app dropWhile].
  destruct (p x); [exact IH|reflexivity].
Qed.

Lemma dropWhile_ext {A} (p q : A -> bool) (l : list A) :
  (forall x, p x = q x) -> dropWhile p l = dropWhile q l.
Proof.
  intros H. induction l as [|x l IH]; [reflexivity|]. cbn [dropWhile].
  rewrite H, IH. reflexivity.
Qed.

(** [TrimRight] drops the longest run of bytes of the cutset at the end. *)
Lemma TrimRight_dropWhile (s cutset : string) :
  String.list_ascii_of_string (TrimRight s cutset)
  = rev (dropWhile (inCutset cutset) (rev (String.list_ascii_of_string s))).
Proof.
  induction s as [|c r IH]; [reflexivity|].
  cbn [TrimRight String.list_ascii_of_string rev]. rewrite dropWhile_app.
  destruct (TrimRight r cutset) as [|b t] eqn:E.
  - cbn [String.list_ascii_of_string] in IH.
    destruct (dropWhile (inCutset cutset) (rev (String.list_ascii_of_string r))) as [|x d];
      [|apply (f_equal (@length ascii)) in IH; rewrite length_rev in IH; discriminate IH].
    cbn [dropWhile]. destruct (inCutset cutset c); reflexivity.
  - cbn [String.list_ascii_of_string] in *.
    destruct (dropWhile (inCutset cutset) (rev (String.list_ascii_of_string r))) as [|x d];
      [discriminate IH|].
    rewrite rev_app_distr. cbn [rev app]. rewrite IH. reflexivity.
Qed.

Lemma inCutset_line_terminators (c : ascii) :
  inCutset (String "013" (String "010" EmptyString)) c = isLineTerminator c.
Proof. unfold isLineTerminator. cbn [inCutset]. rewrite orb_false_r. reflexivity. Qed.

(** [sanitizeNickname] is the sanitising that the spec describes. *)
Lemma sanitizeNickname_as_stated (s : string) : sanitizeNickname s = sanitizedAsStated s.
Proof.
  rewrite <- (String.string_of_list_ascii_of_string (sanitizeNickname s)).
  unfold sanitizeNickname, sanitizedAsStated. cbv zeta. f_equal.
  rewrite TrimRight_dropWhile, !removeByte_filter, filter_filter_andb.
  rewrite (dropWhile_ext _ _ _ inCutset_line_terminators). reflexivity.
Qed.

(** A string that does not end in a byte of the cutset is left alone. *)
Lemma TrimRight_keeps (s cutset : string) :
  (forall r c, s = r +:+ String c EmptyString -> inCutset cutset c = false) ->
  TrimRight s cutset = s.
Proof.
  induction s as [|c r IH]; intros Hlast; [reflexivity|]. cbn [TrimRight].
  destruct r as [|d r'].
  - cbn [TrimRight]. rewrite (Hlast EmptyString c eq_refl). reflexivity.
  - rewrite IH; [reflexivity|].
    intros r0 c0 E. apply (Hlast (String c r0) c0). change (String c r0 +:+ String c0 EmptyString)
      with (String c (r0 +:+ String c0 EmptyString)). rewrite <- E. reflexivity.
Qed.

Lemma sanitizeNickname_keeps (s : string) :
  all_bytes (fun c => negb (Ascii.eqb c " ") && negb (Ascii.eqb c "\")) s = true ->
  (forall r c, s = r +:+ String c EmptyString -> isLineTerminator c = false) ->
  sanitizeNickname s = s.
Proof.
  intros Hclean Hlast. unfold sanitizeNickname. cbv zeta.
  rewrite (removeByte_id " " s), (removeByte_id "\" s).
  - apply TrimRight_keeps. intros r c E. rewrite inCutset_line_terminators.
    exact (Hlast r c E).
  - revert Hclean. apply all_bytes_impl. intros c H. apply andb_true_iff in H. apply H.
  - revert Hclean. apply all_bytes_impl. intros c H. apply andb_true_iff in H. apply H.
Qed.

End Sanitising.

(** C9 (amended). [validateNickname] accepts exactly a letter followed
    by 2 to 19 letters, digits or underscores, 3 to 20 bytes in all:
    every 2-byte candidate is rejected, a 20-byte candidate is accepted,
    every 21-byte candidate is rejected.  [sanitizeNickname] is the
    sanitising that the spec describes: every space and every backslash
    is taken out, every other byte is kept in its place, and the carriage
    returns and line feeds at the end are stripped; so no space and no
    backslash is left, the result does not end in a line terminator, and
    a string that is clean already comes back as it is.  During login
    the line read is sanitised first and it is the sanitised string that
    is validated. *)
Theorem C9_nickname_validation :
  (forall s, validateNickname s = None <->
     exists c r, s = String c r /\ isLetter c = true /\ all_bytes isWordByte r = true
                 /\ (3 <= String.length s <= 20)%nat)
  /\ (forall s, String.length s = 2%nat -> validateNickname s = Some ErrIllegalNickname)
  /\ (String.length nicknameOfLength20 = 20%nat /\ validateNickname nicknameOfLength20 = None)
  /\ (forall s, String.length s = 21%nat -> validateNickname s = Some ErrIllegalNickname)
  /\ (forall s, all_bytes (fun c => negb (Ascii.eqb c " ") && negb (Ascii.eqb c "\"))
                  (sanitizeNickname s) = true)
  /\ (forall s r c, sanitizeNickname s = r +:+ String c EmptyString ->
                    c <> "013"%char /\ c <> "010"%char)
  /\ (forall now t line, Z.max now t < loginTimeout ->
        queryNicknameWithTimeout now (Some (Line t line)) =
        (let nick := sanitizeNickname (TrimRight line spaceCRLF) in
         match validateNickname nick with Some err => inr err | None => inl nick end,
         Z.max now t))
  /\ (forall s, sanitizeNickname s = sanitizedAsStated s)
  /\ (forall s,
        all_bytes (fun c => negb (Ascii.eqb c " ") && negb (Ascii.eqb c "\")) s = true ->
        (forall r c, s = r +:+ String c EmptyString -> isLineTerminator c = false) ->
        sanitizeNickname s = s)
  /\ sanitizeNickname ("al ice\_99" +:+ String "013" (String "010" EmptyString)) = "alice_99".
Proof.
  split; [|split; [|split; [|split; [|split; [|split; [|split; [|split; [|split]]]]]]]].
  - intros s. split.
    + intros H. apply validateNickname_None in H.
      pose proof (nicknameRegex_length _ H) as Hlen.
      destruct s as [|c r]; [discriminate|]. exists c, r.
      unfold nicknameRegex in H. rewrite !andb_true_iff in H.
      intuition.
    + intros (c & r & -> & Hc & Hr & Hlen). apply validateNickname_None.
      unfold nicknameRegex. cbn [String.length] in Hlen.
      rewrite Hc, Hr. cbn [andb]. rewrite andb_true_iff, !Nat.leb_le. lia.
  - intros s Hs. apply validateNickname_Some.
    destruct (nicknameRegex s) eqn:E; [|reflexivity].
    apply nicknameRegex_length in E. lia.
  - split; reflexivity.
  - intros s Hs. apply validateNickname_Some.
    destruct (nicknameRegex s) eqn:E; [|reflexivity].
    apply nicknameRegex_length in E. lia.
  - intros s. unfold sanitizeNickname. apply all_bytes_TrimRight.
    pose proof (removeByte_gone "\" (removeByte " " s)) as Hb.
    pose proof (all_bytes_removeByte (fun c => negb (Ascii.eqb c " ")) "\" _
                  (removeByte_gone " " s)) as Hs.
    revert Hb Hs. generalize (removeByte "\" (removeByte " " s)).
    induction s0 as [|c r IH]; simpl; [reflexivity|].
    rewrite !andb_true_iff. intros [-> Hb] [-> Hs]. auto.
  - intros s r c H. unfold sanitizeNickname in H. split; intros ->;
      apply TrimRight_last in H; discriminate.
  - intros now t line Hlt. unfold queryNicknameWithTimeout, readString.
    apply Z.ltb_lt in Hlt. rewrite Hlt. unfold spaceCRLF.
    destruct (validateNickname _); reflexivity.
  - apply sanitizeNickname_as_stated.
  - apply sanitizeNickname_keeps.
  - reflexivity.
Qed.

(** The rule as the spec words it asks for one byte more than the code:
    [a12], a letter and two more bytes, is accepted by [validateNickname]
    and is no nickname under the stated rule. *)
Lemma C9_stated_minimum_is_one_too_high :
  validateNickname "a12" = None /\ statedNicknameRule "a12" = false.
Proof. split; reflexivity. Qed.

(** ** The shutdown countdown (serveraux.go) *)

Section Countdown.

Lemma rem_zero_divide r b : 0 <= r -> 0 < b -> (Z.rem r b =? 0) = true <-> (b | r).
Proof.
  intros Hr Hb. rewrite Z.eqb_eq, Z.rem_mod_nonneg by lia.
  apply Z.mod_divide. lia.
Qed.

Lemma rem_nonzero_divide r b : 0 <= r -> 0 < b -> (Z.rem r b =? 0) = false -> ~ (b | r).
Proof.
  intros Hr Hb E Hd. apply (rem_zero_divide r b) in Hd; [congruence|lia|lia].
Qed.

Lemma countdownTick_Some r :
  0 <= r -> (exists msg, countdownTick r = Some msg) <-> 0 < r /\ onCadence r.
Proof.
  intros Hr. unfold countdownTick, onCadence, Minute.
  rewrite !Z.gtb_ltb.
  destruct (Z.ltb_spec (15 * 60) r) as [H15|H15].
  - destruct (Z.rem r (15 * 60) =? 0) eqn:E.
    + apply rem_zero_divide in E; [|lia|lia].
      split; [intros _|intros _; eexists; reflexivity].
      split; [lia|]. split; [auto|]. split; intros; lia.
    + apply rem_nonzero_divide in E; [|lia|lia].
      split; [intros [m Hm]; discriminate|]. intros (_ & Hd & _). tauto.
  - destruct (Z.leb_spec r (15 * 60)) as [_|?]; [|lia].
    destruct (Z.ltb_spec (1 * 60) r) as [H1|H1]; cbn [andb].
    + destruct (Z.rem r 60 =? 0) eqn:E.
      * apply rem_zero_divide in E; [|lia|lia].
        split; [intros _|intros _; eexists; reflexivity].
        split; [lia|]. split; [intros; lia|]. split; [auto|intros; lia].
      * apply rem_nonzero_divide in E; [|lia|lia].
        split; [intros [m Hm]; discriminate|]. intros (_ & _ & Hd & _).
        exfalso. apply E, Hd. lia.
    + destruct (Z.leb_spec r (1 * 60)) as [_|?]; [|lia].
      destruct (Z.rem r 10 =? 0) eqn:E; cbn [andb].
      * apply rem_zero_divide in E; [|lia|lia].
        destruct (Z.ltb_spec 0 r) as [H0|H0].
        -- split; [intros _|intros _; eexists; reflexivity].
           split; [lia|]. split; [intros; lia|]. split; [intros; lia|auto].
        -- split; [intros [m Hm]; discriminate|]. lia.
      * apply rem_nonzero_divide in E; [|lia|lia].
        split; [intros [m Hm]; discriminate|]. intros (_ & _ & _ & Hd).
        exfalso. apply E, Hd. lia.
Qed.

Lemma countdownLoop_In n r x msg :
  r = Z.of_nat n ->
  In (x, msg) (countdownLoop n r) <-> 0 <= x < r /\ countdownTick x = Some msg.
Proof.
  revert r. induction n as [|n IH]; intros r Hr.
  - simpl. subst r. simpl. lia.
  - cbn [countdownLoop]. rewrite Z.gtb_ltb.
    destruct (Z.ltb_spec 0 r) as [_|?]; [|lia].
    assert (Hn : r - 1 = Z.of_nat n) by lia.
    specialize (IH (r - 1) Hn).
    destruct (countdownTick (r - 1)) as [m|] eqn:E.
    + cbn [In]. rewrite IH. split.
      * intros [H|[H1 H2]]; [inversion H; subst; split; [lia|assumption]|split; [lia|assumption]].
      * intros [H1 H2]. destruct (Z.eq_dec x (r - 1)) as [->|Hne].
        -- left. congruence.
        -- right. split; [lia|assumption].
    + rewrite IH. split.
      * intros [H1 H2]. split; [lia|assumption].
      * intros [H1 H2]. destruct (Z.eq_dec x (r - 1)) as [->|Hne]; [congruence|].
        split; [lia|assumption].
Qed.

Lemma countdownLoop_NoDup n r :
  r = Z.of_nat n -> NoDup (countdownLoop n r).*1.
Proof.
  revert r. induction n as [|n IH]; intros r Hr; [constructor|].
  cbn [countdownLoop]. rewrite Z.gtb_ltb.
  destruct (Z.ltb_spec 0 r) as [_|?]; [|lia].
  assert (Hn : r - 1 = Z.of_nat n) by lia.
  destruct (countdownTick (r - 1)) as [m|] eqn:E; [|auto].
  cbn. constructor; [|auto].
  intros Hin. apply list_elem_of_fmap in Hin as ([x m'] & Hx & Hin). simpl in Hx. subst x.
  apply list_elem_of_In, countdownLoop_In in Hin; [lia|assumption].
Qed.

(** C8. With a countdown of [delay] seconds, a warning is broadcast
    exactly at the remaining times [r] with [0 < r < delay] that are a
    multiple of 15 minutes above 15 minutes, of one minute between 1 and
    15 minutes, and of 10 seconds within the last minute; each such time
    is warned once, and there is no warning at [r = 0]. *)
Theorem C8_countdown_cadence (delay r : Z) :
  (warnedAt delay r <-> 0 < r < delay /\ onCadence r)
  /\ NoDup (countdownWarnings delay).*1
  /\ ~ warnedAt delay 0.
Proof.
  assert (Hin : forall x msg, In (x, msg) (countdownWarnings delay) <->
                  0 <= x < delay /\ countdownTick x = Some msg).
  { intros x msg. unfold countdownWarnings.
    destruct (Z.le_gt_cases delay 0) as [Hle|Hgt].
    - replace (Z.to_nat delay) with 0%nat by lia. simpl. lia.
    - rewrite <- (Z2Nat.id delay) at 2 3 by lia.
      apply countdownLoop_In. reflexivity. }
  split; [split|split].
  - intros [msg Hm]. apply Hin in Hm as [Hrange Htick].
    assert (Hs : 0 < r /\ onCadence r) by (apply countdownTick_Some; [lia|eauto]).
    split; [lia|tauto].
  - intros [Hrange Hcad].
    destruct (proj2 (countdownTick_Some r ltac:(lia)) (conj (proj1 Hrange) Hcad)) as [msg Hm].
    exists msg. apply Hin. split; [lia|assumption].
  - unfold countdownWarnings.
    destruct (Z.le_gt_cases delay 0) as [Hle|Hgt].
    + replace (Z.to_nat delay) with 0%nat by lia. constructor.
    + apply countdownLoop_NoDup. lia.
  - intros [msg Hm]. apply Hin in Hm as [_ Htick]. vm_compute in Htick. discriminate.
Qed.

End Countdown.

(** ** Sending: what a delivery changes *)

Section Sending.

Lemma sentMore_refl s : sentMore s s.
Proof. split; [destruct s; reflexivity|auto]. Qed.

Lemma sentMore_trans s1 s2 s3 : sentMore s1 s2 -> sentMore s2 s3 -> sentMore s1 s3.
Proof.
  intros [E1 W1] [E2 W2]. split; [|auto].
  rewrite E2 at 1. rewrite E1. reflexivity.
Qed.

Lemma sentMore_users s s' : sentMore s s' -> users s' = users s.
Proof. intros [E _]. rewrite E. reflexivity. Qed.

Lemma sentMore_heap s s' : sentMore s s' -> heap s' = heap s.
Proof. intros [E _]. rewrite E. reflexivity. Qed.

Lemma sentMore_deref s s' p : sentMore s s' -> deref s' p = deref s p.
Proof. intros H. unfold deref. rewrite (sentMore_heap _ _ H). reflexivity. Qed.

Lemma sentMore_allWritable s s' : sentMore s s' -> allWritable s -> allWritable s'.
Proof.
  intros H Hall key p Hp. rewrite (sentMore_deref _ _ _ H).
  apply (proj2 H). apply (Hall key). rewrite <- (sentMore_users _ _ H). exact Hp.
Qed.

Lemma connWrite_ok s c lines :
  writable s c -> exists s', connWrite c lines s = (None, s') /\ sentMore s s'.
Proof.
  intros (k & Hk & Hc & Hb). unfold connWrite. rewrite Hk, Hc, Hb.
  eexists. split; [reflexivity|]. split; [reflexivity|].
  intros c' (k' & Hk' & Hc' & Hb'). unfold writable. cbn.
  destruct (decide (c = c')) as [->|Hne].
  - rewrite lookup_insert_eq. eexists. split; [reflexivity|]. split; reflexivity.
  - rewrite lookup_insert_ne by exact Hne. eauto.
Qed.

Lemma unsafeSendMessageToUser_ok s user msgs :
  writable s (conn (deref s user)) ->
  exists s', unsafeSendMessageToUser user msgs s = (None, s') /\ sentMore s s'.
Proof.
  intros Hw. unfold unsafeSendMessageToUser, sendMessageToConn, bind, load.
  destruct (connWrite_ok s _ msgs Hw) as (s' & -> & Hs'). eauto.
Qed.

(** A loop over the registry whose body only sends, on writable
    connections, only sends. *)
Lemma rangeKeys_sentMore (body : ptr -> M unit) :
  (forall s p, writable s (conn (deref s p)) ->
               exists s', body p s = (tt, s') /\ sentMore s s') ->
  forall keys s, allWritable s ->
    exists s', rangeKeys keys body s = (tt, s') /\ sentMore s s'.
Proof.
  intros Hbody keys. induction keys as [|k keys IH]; intros s Hall; cbn [rangeKeys].
  - exists s. split; [reflexivity|apply sentMore_refl].
  - destruct (users s !! k) as [p|] eqn:Hk; [|apply IH; exact Hall].
    destruct (Hbody s p (Hall k p Hk)) as (s1 & E1 & H1).
    unfold bind at 1. rewrite E1.
    destruct (IH s1 (sentMore_allWritable _ _ H1 Hall)) as (s2 & E2 & H2).
    exists s2. split; [exact E2|eapply sentMore_trans; eassumption].
Qed.

Lemma broadcastMessage_ok s msgs :
  allWritable s -> exists s', broadcastMessage msgs s = (tt, s') /\ sentMore s s'.
Proof.
  intros Hall. unfold broadcastMessage, rangeUsers. apply rangeKeys_sentMore; [|exact Hall].
  intros s0 p Hw. destruct (unsafeSendMessageToUser_ok s0 p msgs Hw) as (s' & E & Hs').
  exists s'. unfold bind. rewrite E. split; [reflexivity|exact Hs'].
Qed.

Lemma writableb_true s c : writableb s c = true -> writable s c.
Proof.
  unfold writableb, writable. destruct (conns s !! c) as [k|]; [|discriminate].
  rewrite andb_true_iff, !negb_true_iff. intros [Hc Hb]. eauto.
Qed.

Lemma allWritableb_true s : allWritableb s = true -> allWritable s.
Proof.
  unfold allWritableb. rewrite forallb_forall. intros H key p Hp.
  apply writableb_true, (H (key, p)), list_elem_of_In, elem_of_map_to_list. exact Hp.
Qed.

End Sending.

(** ** The registry (usermgr.go) *)

Section Registry.

Lemma EqualFold_refl (s : string) : EqualFold s s = true.
Proof.
  induction s as [|c r IH]; simpl; [reflexivity|].
  rewrite Ascii.eqb_refl. exact IH.
Qed.

Lemma addUser_fresh (s : State) (user : ptr) :
  users s !! nickname (deref s user) = None ->
  addUser user s = (true, with_users <[nickname (deref s user) := user]> s).
Proof. intros H. unfold addUser. rewrite H. reflexivity. Qed.

Lemma addUser_taken (s : State) (user other : ptr) :
  users s !! nickname (deref s user) = Some other ->
  addUser user s = (false, s).
Proof. intros H. unfold addUser. rewrite H. reflexivity. Qed.

(** [FindUser] finds some entry as soon as one matches. *)
Lemma FindUser_finds (s : State) (key nick : string) (p : ptr) :
  users s !! key = Some p ->
  EqualFold (nickname (deref s p)) nick = true ->
  exists found, (FindUser nick s).1 = Some found.
Proof.
  intros Hk Heq. unfold FindUser. cbn [fst].
  destruct (List.find _ (map_to_list (users s))) as [[k q]|] eqn:E; [eauto|].
  exfalso. assert (Hin : In (key, p) (map_to_list (users s))).
  { apply list_elem_of_In, elem_of_map_to_list. exact Hk. }
  apply (List.find_none _ _ E) in Hin. cbn in Hin. congruence.
Qed.

Lemma FindUser_state (s : State) (nick : string) : (FindUser nick s).2 = s.
Proof. reflexivity. Qed.

(** What [FindUser] returns is a registered session whose nickname matches. *)
Lemma FindUser_sound (s : State) (nick : string) (p : ptr) :
  (FindUser nick s).1 = Some p ->
  exists key, users s !! key = Some p /\ EqualFold (nickname (deref s p)) nick = true.
Proof.
  unfold FindUser. cbn [fst].
  destruct (List.find _ (map_to_list (users s))) as [[k q]|] eqn:E; [|discriminate].
  intros [= <-]. apply List.find_some in E as [Hin Heq].
  exists k. split; [|exact Heq].
  apply elem_of_map_to_list, list_elem_of_In. exact Hin.
Qed.

Lemma removeUser_users (s : State) (nick : string) :
  users (removeUser nick s).2 = delete (ToLower nick) (users s).
Proof. reflexivity. Qed.

(** C1. [addUser] looks the nickname up as it is spelled: when a
    registered session has a nickname that matches case-insensitively
    (so that [FindUser] finds one) but no entry has the very same key,
    [addUser] succeeds, and the registry then holds both sessions. *)
Theorem C1_addUser_accepts_case_variant (s : State) (user other : ptr) (key : string) :
  users s !! key = Some other ->
  EqualFold (nickname (deref s other)) (nickname (deref s user)) = true ->
  users s !! nickname (deref s user) = None ->
  (exists found, (FindUser (nickname (deref s user)) s).1 = Some found)
  /\ (addUser user s).1 = true
  /\ users (addUser user s).2 !! key = Some other
  /\ users (addUser user s).2 !! nickname (deref s user) = Some user.
Proof.
  intros Hkey Hfold Hfree. split; [eapply FindUser_finds; eassumption|].
  rewrite (addUser_fresh _ _ Hfree). cbn [fst snd with_users users].
  split; [reflexivity|]. split.
  - rewrite lookup_insert_ne; [exact Hkey|]. intros <-. congruence.
  - apply lookup_insert_eq.
Qed.

(** The race of two logins: [alice] is registered, [Alice] has passed
    the check of [FindUser] before that and is added now. *)
Lemma C1_addUser_accepts_case_variant_witness :
  let s := Scenario.capitalAlicePending in
  (exists found, (FindUser "Alice" s).1 = Some found)
  /\ (addUser 2%nat s).1 = true
  /\ users (addUser 2%nat s).2 !! "alice" = Some 1%nat
  /\ users (addUser 2%nat s).2 !! "Alice" = Some 2%nat.
Proof.
  apply (C1_addUser_accepts_case_variant Scenario.capitalAlicePending 2%nat 1%nat "alice");
    vm_compute; reflexivity.
Defined.

(** C4. [removeUser] deletes the key [ToLower nickname], while [addUser]
    files a session under its nickname as spelled: a session added under
    a nickname with an upper-case letter is still registered, and still
    found by [FindUser], after [removeUser] of that very nickname. *)
Theorem C4_removeUser_misses_mixed_case_key (s : State) (user : ptr) :
  users s !! nickname (deref s user) = None ->
  ToLower (nickname (deref s user)) <> nickname (deref s user) ->
  let s1 := (addUser user s).2 in
  let s2 := (removeUser (nickname (deref s user)) s1).2 in
  users s1 !! nickname (deref s user) = Some user
  /\ users s2 !! nickname (deref s user) = Some user
  /\ exists found, (FindUser (nickname (deref s user)) s2).1 = Some found.
Proof.
  intros Hfree Hcase s1 s2.
  assert (H1 : users s1 !! nickname (deref s user) = Some user).
  { subst s1. rewrite (addUser_fresh _ _ Hfree). apply lookup_insert_eq. }
  assert (H2 : users s2 !! nickname (deref s user) = Some user).
  { subst s2. rewrite removeUser_users, lookup_delete_ne; [exact H1|exact Hcase]. }
  split; [exact H1|]. split; [exact H2|].
  eapply FindUser_finds; [exact H2|].
  assert (Hd : deref s2 user = deref s user).
  { subst s2 s1. rewrite (addUser_fresh _ _ Hfree). reflexivity. }
  rewrite Hd. apply EqualFold_refl.
Qed.

(** [Alice] is added beside [alice] and then removed by her nickname:
    her entry stays. *)
Lemma C4_removeUser_misses_mixed_case_key_witness :
  let s1 := (addUser 2%nat Scenario.capitalAlicePending).2 in
  let s2 := (removeUser "Alice" s1).2 in
  users s1 !! "Alice" = Some 2%nat
  /\ users s2 !! "Alice" = Some 2%nat
  /\ exists found, (FindUser "Alice" s2).1 = Some found.
Proof.
  apply (C4_removeUser_misses_mixed_case_key Scenario.capitalAlicePending 2%nat);
    vm_compute; [reflexivity|discriminate].
Defined.

End Registry.

(** ** Changing the nickname *)

Section Nick.

Lemma FindUser_None (s : State) (nick : string) :
  (FindUser nick s).1 = None -> FindUser nick s = (None, s).
Proof. intros H. rewrite (surjective_pairing (FindUser nick s)), H. reflexivity. Qed.

(** Two keys for one session give the listing of [who] the same line at
    two places. *)
Lemma userListLines_twice (s : State) (requestingUser p : ptr) (k1 k2 : string) :
  users s !! k1 = Some p -> users s !! k2 = Some p -> k1 <> k2 ->
  exists line l1 l2 l3,
    userListLines s requestingUser = l1 ++ line :: l2 ++ line :: l3.
Proof.
  intros H1 H2 Hne. unfold userListLines.
  apply elem_of_map_to_list in H1, H2.
  set (f := fun kp : string * ptr => _).
  destruct (list_elem_of_split _ _ H1) as (a & b & Hab).
  rewrite Hab in H2 |- *.
  apply elem_of_app in H2 as [H2|H2].
  - destruct (list_elem_of_split _ _ H2) as (a1 & a2 & ->).
    exists (f (k1, p)), (f <$> a1), (f <$> a2), (f <$> b).
    rewrite !fmap_app, !fmap_cons, <- !app_assoc. reflexivity.
  - apply elem_of_cons in H2 as [H2|H2]; [congruence|].
    destruct (list_elem_of_split _ _ H2) as (b1 & b2 & ->).
    exists (f (k1, p)), (f <$> a), (f <$> b1), (f <$> b2).
    rewrite !fmap_app, !fmap_cons, !fmap_app, !fmap_cons. reflexivity.
Qed.

Lemma renamed_users (s : State) (user : ptr) (newNickname : string) :
  users (renamed s user newNickname)
  = <[newNickname := user]> (delete (ToLower (nickname (deref s user))) (users s)).
Proof. reflexivity. Qed.

Lemma renamed_deref (s : State) (user : ptr) (newNickname : string) :
  deref (renamed s user newNickname) user
  = mkUser (uid (deref s user)) (username (deref s user)) (privilege (deref s user))
      newNickname (conn (deref s user)) (lastMsgFrom (deref s user)).
Proof. unfold renamed, deref. cbn. rewrite lookup_insert_eq. reflexivity. Qed.

Lemma renamed_conn (s : State) (user p : ptr) (newNickname : string) :
  conn (deref (renamed s user newNickname) p) = conn (deref s p).
Proof.
  destruct (decide (p = user)) as [->|Hpu]; [rewrite renamed_deref; reflexivity|].
  unfold renamed, deref. cbn. rewrite lookup_insert_ne by congruence. reflexivity.
Qed.

Lemma renamed_allWritable (s : State) (user : ptr) (newNickname key0 : string) :
  users s !! key0 = Some user -> allWritable s -> allWritable (renamed s user newNickname).
Proof.
  intros Hreg Hall key p Hp. rewrite renamed_conn.
  rewrite renamed_users in Hp.
  assert (Hw : writable s (conn (deref s p))).
  { destruct (decide (newNickname = key)) as [->|Hk].
    - rewrite lookup_insert_eq in Hp. injection Hp as <-. exact (Hall _ _ Hreg).
    - rewrite lookup_insert_ne in Hp by exact Hk.
      apply lookup_delete_Some in Hp as [_ Hp]. exact (Hall _ _ Hp). }
  destruct Hw as (k & Hk & Hw). exists k. split; [exact Hk|exact Hw].
Qed.

(** A valid nickname that [FindUser] does not find and whose key is free
    once the old key is deleted: [handleNewNick] reaches [renamed] and
    broadcasts the change. *)
Lemma handleNewNick_run (s : State) (user : ptr) (newNickname key0 : string) :
  users s !! key0 = Some user ->
  validateNickname newNickname = None ->
  (FindUser newNickname s).1 = None ->
  delete (ToLower (nickname (deref s user))) (users s) !! newNickname = None ->
  allWritable s ->
  exists s', handleNewNick user newNickname s = (tt, s')
             /\ sentMore (renamed s user newNickname) s'.
Proof.
  intros Hreg Hvalid Hfind Hfree Hall.
  pose proof (renamed_allWritable s user newNickname key0 Hreg Hall) as Hall3.
  unfold handleNewNick. rewrite Hvalid. unfold bind at 1.
  rewrite (FindUser_None _ _ Hfind).
  unfold bind at 1. unfold load at 1.
  set (old := nickname (deref s user)) in *.
  unfold bind at 1. destruct (logEvent _ s) as [[] s1] eqn:E1.
  unfold bind at 1. destruct (removeUser old s1) as [[] s2] eqn:E2.
  unfold bind at 1. destruct (set_nickname user newNickname s2) as [[] s2'] eqn:E3.
  assert (Hs1 : s1 = (logEvent ("User " +:+ old +:+ " changed nickname to " +:+ newNickname)
                        s).2) by (rewrite E1; reflexivity).
  assert (Hs2 : s2 = (removeUser old s1).2) by (rewrite E2; reflexivity).
  assert (Hs2' : s2' = (set_nickname user newNickname s2).2) by (rewrite E3; reflexivity).
  assert (Hnick : nickname (deref s2' user) = newNickname).
  { rewrite Hs2'. unfold deref. cbn. rewrite lookup_insert_eq. reflexivity. }
  assert (Hfree' : users s2' !! nickname (deref s2' user) = None).
  { rewrite Hnick, Hs2', Hs2, Hs1. exact Hfree. }
  unfold bind at 1. rewrite (addUser_fresh _ _ Hfree'). cbn [negb].
  rewrite Hnick.
  assert (E4 : with_users <[newNickname := user]> s2' = renamed s user newNickname).
  { unfold renamed. fold old. rewrite Hs2', Hs2, Hs1. reflexivity. }
  rewrite E4.
  unfold bind at 1. unfold load at 1.
  destruct (broadcastMessage_ok (renamed s user newNickname)
              [old +:+ " is now: " +:+ nickname (deref (renamed s user newNickname) user)]
              Hall3) as (s4 & E & Hs4).
  exists s4. split; [exact E|exact Hs4].
Qed.

(** C5. A session registered under a nickname with an upper-case letter
    changes to a valid nickname that nobody uses: [removeUser] misses its
    entry, so afterwards the registry holds the session twice, under the
    old key and under the new one, and the listing of [who] has its line
    at two places. *)
Theorem C5_nick_leaves_the_old_entry (s : State) (user : ptr) (newNickname : string) :
  users s !! nickname (deref s user) = Some user ->
  ToLower (nickname (deref s user)) <> nickname (deref s user) ->
  validateNickname newNickname = None ->
  (FindUser newNickname s).1 = None ->
  users s !! newNickname = None ->
  allWritable s ->
  let s' := (handleNewNick user newNickname s).2 in
  nickname (deref s' user) = newNickname
  /\ nickname (deref s user) <> newNickname
  /\ users s' !! nickname (deref s user) = Some user
  /\ users s' !! newNickname = Some user
  /\ exists line l1 l2 l3, userListLines s' user = l1 ++ line :: l2 ++ line :: l3.
Proof.
  intros Hreg Hcase Hvalid Hfind Hfree Hall s'.
  assert (Hne : nickname (deref s user) <> newNickname) by congruence.
  destruct (handleNewNick_run s user newNickname _ Hreg Hvalid Hfind) as (s4 & Erun & Hs4);
    [apply lookup_delete_None; right; exact Hfree|exact Hall|].
  assert (Es' : s' = s4) by (unfold s'; rewrite Erun; reflexivity).
  rewrite Es'.
  assert (Hold : users s4 !! nickname (deref s user) = Some user).
  { rewrite (sentMore_users _ _ Hs4), renamed_users.
    rewrite lookup_insert_ne by congruence.
    rewrite lookup_delete_ne by exact Hcase. exact Hreg. }
  assert (Hnew : users s4 !! newNickname = Some user).
  { rewrite (sentMore_users _ _ Hs4), renamed_users. apply lookup_insert_eq. }
  split; [rewrite (sentMore_deref _ _ _ Hs4), renamed_deref; reflexivity|].
  split; [exact Hne|]. split; [exact Hold|]. split; [exact Hnew|].
  exact (userListLines_twice s4 user user _ newNickname Hold Hnew Hne).
Qed.

(** [Alice] renames herself to [bob2]. *)
Lemma C5_nick_leaves_the_old_entry_witness :
  let s' := (handleNewNick 1%nat "bob2" Scenario.aliceOnline).2 in
  nickname (deref s' 1%nat) = "bob2"
  /\ "Alice" <> "bob2"
  /\ users s' !! "Alice" = Some 1%nat
  /\ users s' !! "bob2" = Some 1%nat
  /\ exists line l1 l2 l3, userListLines s' 1%nat = l1 ++ line :: l2 ++ line :: l3.
Proof.
  apply (C5_nick_leaves_the_old_entry Scenario.aliceOnline 1%nat "bob2").
  - vm_compute. reflexivity.
  - vm_compute. discriminate.
  - vm_compute. reflexivity.
  - vm_compute. reflexivity.
  - vm_compute. reflexivity.
  - apply allWritableb_true. vm_compute. reflexivity.
Defined.

End Nick.

(** ** The command dispatcher (server.go) *)

Section Dispatcher.

Variable render : string -> string.
Variable hash : string -> option string.

Lemma bind_eq {A B} (m : M A) (k : A -> M B) (s : State) :
  bind m k s = k (m s).1 (m s).2.
Proof. unfold bind. destruct (m s). reflexivity. Qed.

Lemma dispatch_nil_user (name : string) (args : list string) (s : State) :
  dispatch render hash (mkCmd name None args) s = (Continue, s).
Proof. reflexivity. Qed.

Lemma commandDispatcher_cons (cmd : ServerCommand) (queue : list ServerCommand) (s : State) :
  commandDispatcher render hash (cmd :: queue) s =
  match (dispatch render hash cmd s).1 with
  | Continue => commandDispatcher render hash queue (dispatch render hash cmd s).2
  | flow => ((flow, queue), (dispatch render hash cmd s).2)
  end.
Proof.
  cbn [commandDispatcher]. rewrite bind_eq.
  destruct (dispatch render hash cmd s).1; reflexivity.
Qed.

(** C10. A command without issuer is dropped: the loop goes on with the
    state as it was.  So the command that a termination signal sends is
    dropped before the [switch] is reached, and a queue has the same
    effect with and without its issuer-less commands. *)
Theorem C10_command_without_issuer_is_dropped (queue : list ServerCommand) (s : State) :
  (forall name args, dispatch render hash (mkCmd name None args) s = (Continue, s))
  /\ dispatch render hash signalCommand s = (Continue, s)
  /\ commandDispatcher render hash (signalCommand :: queue) s
     = commandDispatcher render hash queue s
  /\ (commandDispatcher render hash queue s).1.1
     = (commandDispatcher render hash (List.filter hasUser queue) s).1.1
  /\ (commandDispatcher render hash queue s).2
     = (commandDispatcher render hash (List.filter hasUser queue) s).2.
Proof.
  split; [intros; apply dispatch_nil_user|].
  split; [reflexivity|]. split; [reflexivity|].
  revert s. induction queue as [|cmd queue IH]; intros s; [split; reflexivity|].
  destruct cmd as [name [user|] args].
  - cbn [List.filter hasUser cmdUser]. rewrite !commandDispatcher_cons.
    destruct (dispatch render hash _ s).1; [apply IH|split; reflexivity..].
  - cbn [List.filter hasUser cmdUser]. rewrite commandDispatcher_cons, dispatch_nil_user.
    apply IH.
Qed.

Lemma sendMessageToUser_result (user : ptr) (msgs : list string) (s : State) (flow : Flow) :
  (sendMessageToUser user msgs ;; ret flow) s = (flow, (sendMessageToUser user msgs s).2).
Proof. rewrite bind_eq. reflexivity. Qed.

Lemma sendMessageToUser_unit (user : ptr) (msgs : list string) (s : State) :
  (sendMessageToUser user msgs ;; ret tt) s = (tt, (sendMessageToUser user msgs s).2).
Proof. rewrite bind_eq. reflexivity. Qed.

Lemma sendMessageToUser_ok (s : State) (user : ptr) (msgs : list string) :
  writable s (conn (deref s user)) -> sentMore s (sendMessageToUser user msgs s).2.
Proof.
  intros Hw. unfold sendMessageToUser.
  destruct (unsafeSendMessageToUser_ok s user msgs Hw) as (s' & -> & Hs'). exact Hs'.
Qed.

(** C2. A session of privilege 0 that issues a privilege-gated command
    is sent the permission-denied message; with a writable connection
    nothing else changes.  After [kick], [createuser], [priv],
    [deleteuser] and [enumusers] the loop goes on; after [shutdown] the
    dispatcher returns, and the commands behind it are never executed. *)
Theorem C2_unprivileged_shutdown_stops_the_dispatcher
  (s : State) (user : ptr) (args : list string) (queue : list ServerCommand) :
  privilege (deref s user) = 0 ->
  let refused := (sendMessageToUser user [ErrPrivilege] s).2 in
  (forall name, In name ("kick" :: gatedByHandler) ->
     dispatch render hash (mkCmd name (Some user) args) s = (Continue, refused))
  /\ dispatch render hash (mkCmd "shutdown" (Some user) args) s = (Return, refused)
  /\ commandDispatcher render hash (mkCmd "shutdown" (Some user) args :: queue) s
     = ((Return, queue), refused)
  /\ (writable s (conn (deref s user)) -> sentMore s refused).
Proof.
  intros Hpriv refused.
  assert (Hshutdown : dispatch render hash (mkCmd "shutdown" (Some user) args) s
                      = (Return, refused)).
  { unfold dispatch. cbn [cmdUser Command]. rewrite bind_eq. unfold load at 1.
    cbn [fst snd]. rewrite Hpriv. cbn [Z.eqb]. apply sendMessageToUser_result. }
  split; [|split; [exact Hshutdown|split]].
  - intros name Hname. cbn [In gatedByHandler] in Hname.
    destruct Hname as [<-|[<-|[<-|[<-|[<-|[]]]]]];
      unfold dispatch; cbn [cmdUser Command].
    + rewrite bind_eq. unfold load at 1. cbn [fst snd]. rewrite Hpriv. cbn [Z.eqb].
      apply sendMessageToUser_result.
    + rewrite bind_eq. unfold handleCreateUser. rewrite bind_eq. unfold load at 1 2.
      cbn [fst snd]. rewrite Hpriv. cbn [Z.ltb Z.compare].
      rewrite sendMessageToUser_unit. reflexivity.
    + rewrite bind_eq. unfold handleChangePrivilege. rewrite bind_eq. unfold load at 1 2.
      cbn [fst snd]. rewrite Hpriv. cbn [Z.ltb Z.compare].
      rewrite sendMessageToUser_unit. reflexivity.
    + rewrite bind_eq. unfold handleDeleteUser. rewrite bind_eq. unfold load at 1 2.
      cbn [fst snd]. rewrite Hpriv. cbn [Z.ltb Z.compare].
      rewrite sendMessageToUser_unit. reflexivity.
    + rewrite bind_eq. unfold handleEnumUsers. rewrite bind_eq. unfold load at 1 2.
      cbn [fst snd]. rewrite Hpriv. cbn [Z.ltb Z.compare].
      rewrite sendMessageToUser_unit. reflexivity.
  - rewrite commandDispatcher_cons, Hshutdown. reflexivity.
  - apply sendMessageToUser_ok.
Qed.

Lemma privilege_admin (s : State) (user : ptr) :
  1 <= privilege (deref s user) -> (privilege (deref s user) =? 0) = false.
Proof. intros H. apply Z.eqb_neq. lia. Qed.

(** C3. A [shutdown] of a session of privilege 1 or more: with a first
    argument that [Atoi] reads as a number that is not negative,
    [terminateServer] is called with it and the dispatcher returns; with
    no argument at all the dispatcher returns as well, but
    [terminateServer] is not called: the state is what it was. *)
Theorem C3_shutdown_without_argument_terminates_nothing
  (s : State) (user : ptr) (queue : list ServerCommand) :
  1 <= privilege (deref s user) ->
  commandDispatcher render hash (mkCmd "shutdown" (Some user) [] :: queue) s
  = ((Return, queue), s)
  /\ (forall arg rest cts, Atoi arg = Some cts -> 0 <= cts ->
        commandDispatcher render hash (mkCmd "shutdown" (Some user) (arg :: rest) :: queue) s
        = ((Return, queue), (terminateServer render cts s).2))
  /\ terminateServer render 0 s = terminateServerNow render s.
Proof.
  intros Hpriv. apply privilege_admin in Hpriv.
  split; [|split; [|reflexivity]].
  - assert (Hd : dispatch render hash (mkCmd "shutdown" (Some user) []) s = (Return, s)).
    { unfold dispatch. cbn [cmdUser Command Args].
      rewrite bind_eq. unfold load. cbn [fst snd]. rewrite Hpriv. reflexivity. }
    rewrite commandDispatcher_cons, Hd. reflexivity.
  - intros arg rest cts Harg Hcts.
    assert (Hd : dispatch render hash (mkCmd "shutdown" (Some user) (arg :: rest)) s
                 = (Return, (terminateServer render cts s).2)).
    { unfold dispatch. cbn [cmdUser Command Args].
      rewrite bind_eq. unfold load. cbn [fst snd]. rewrite Hpriv, Harg.
      destruct (Z.ltb_spec cts 0) as [?|_]; [lia|].
      rewrite bind_eq. reflexivity. }
    rewrite commandDispatcher_cons, Hd. reflexivity.
Qed.

End Dispatcher.

(** The queue of the example: [bob], a regular user, asks for a
    shutdown and then for the list of users. *)
Lemma C2_unprivileged_shutdown_stops_the_dispatcher_witness :
  let s := Scenario.bobOnline in
  let refused := (sendMessageToUser 1%nat [ErrPrivilege] s).2 in
  let who := mkCmd "who" (Some 1%nat) [] in
  (forall name, In name ("kick" :: gatedByHandler) ->
     dispatch Scenario.render Scenario.hashOf (mkCmd name (Some 1%nat) []) s
     = (Continue, refused))
  /\ dispatch Scenario.render Scenario.hashOf (mkCmd "shutdown" (Some 1%nat) []) s
     = (Return, refused)
  /\ commandDispatcher Scenario.render Scenario.hashOf
       [mkCmd "shutdown" (Some 1%nat) []; who] s
     = ((Return, [who]), refused)
  /\ (writable s (conn (deref s 1%nat)) -> sentMore s refused).
Proof.
  intros s refused who.
  apply (C2_unprivileged_shutdown_stops_the_dispatcher Scenario.render Scenario.hashOf
           Scenario.bobOnline 1%nat [] [who]).
  vm_compute. reflexivity.
Defined.

(** [admin] sends [/shutdown]: nothing is shut down, while [/shutdown 0]
    marks the shutdown and closes the command queue. *)
Lemma C3_shutdown_without_argument_terminates_nothing_witness :
  let s := Scenario.adminOnline in
  (commandDispatcher Scenario.render Scenario.hashOf [mkCmd "shutdown" (Some 2%nat) []] s
   = ((Return, []), s)
   /\ (forall arg rest cts, Atoi arg = Some cts -> 0 <= cts ->
         commandDispatcher Scenario.render Scenario.hashOf
           [mkCmd "shutdown" (Some 2%nat) (arg :: rest)] s
         = ((Return, []), (terminateServer Scenario.render cts s).2))
   /\ terminateServer Scenario.render 0 s = terminateServerNow Scenario.render s)
  /\ shutdownOngoing s = false
  /\ shutdownOngoing (terminateServer Scenario.render 0 s).2 = true
  /\ commandsClosed (terminateServer Scenario.render 0 s).2 = true.
Proof.
  intros s. split.
  - apply (C3_shutdown_without_argument_terminates_nothing Scenario.render Scenario.hashOf
             Scenario.adminOnline 2%nat []).
    vm_compute. discriminate.
  - vm_compute. repeat split.
Defined.

(** ** Changing a privilege *)

Section Privilege.

Lemma Atoi_of_admin (level : string) : EqualFold level "admin" = true -> Atoi level = None.
Proof.
  destruct level as [|c r]; [discriminate|].
  cbn [EqualFold]. rewrite andb_true_iff. intros [Hc _].
  destruct c as [[] [] [] [] [] [] [] []]; try discriminate Hc;
    unfold Atoi, parseUnsigned; cbn [all_bytes isDigit andb]; reflexivity.
Qed.

Lemma Atoi_not_admin (level : string) (n : Z) :
  Atoi level = Some n -> EqualFold level "admin" = false.
Proof.
  intros H. destruct (EqualFold level "admin") eqn:E; [|reflexivity].
  apply Atoi_of_admin in E. congruence.
Qed.

Lemma sendMessageToUser_DB (user : ptr) (msgs : list string) (s : State) :
  DB (sendMessageToUser user msgs s).2 = DB s.
Proof.
  unfold sendMessageToUser, unsafeSendMessageToUser, sendMessageToConn.
  rewrite bind_eq. unfold load. cbn [fst snd]. rewrite bind_eq.
  unfold connWrite.
  destruct (conns s !! conn (deref s user)) as [k|]; [|reflexivity].
  destruct (closed k); [reflexivity|]. destruct (broken k); reflexivity.
Qed.

(** C7. [handleChangePrivilege] compares the level argument, not the
    username, with the reserved name: an admin's [/priv admin <n>] with a
    number [n] is carried out on the account [admin], and [/priv <name>
    admin] is refused whatever the name. *)
Theorem C7_priv_compares_the_level_with_admin
  (s : State) (user : ptr) (level : string) (n : Z) :
  1 <= privilege (deref s user) ->
  Atoi level = Some n ->
  handleChangePrivilege user ["admin"; level] s
  = (tt, (sendMessageToUser user [privUpdated "admin"] (updatePrivilege "admin" n s).2).2)
  /\ DB (handleChangePrivilege user ["admin"; level] s).2
     = alter (fun a => mkAccount (acc_id a) (acc_hash a) n) "admin" (DB s)
  /\ forall target,
       handleChangePrivilege user [target; "admin"] s
       = (tt, (sendMessageToUser user [privRefusal] s).2)
       /\ DB (handleChangePrivilege user [target; "admin"] s).2 = DB s.
Proof.
  intros Hpriv Hlevel.
  assert (Hlt : (privilege (deref s user) <? 1) = false) by (apply Z.ltb_ge; lia).
  assert (Hrun : handleChangePrivilege user ["admin"; level] s
                 = (tt, (sendMessageToUser user [privUpdated "admin"]
                           (updatePrivilege "admin" n s).2).2)).
  { unfold handleChangePrivilege. rewrite bind_eq. unfold load. cbn [fst snd].
    rewrite Hlt, (Atoi_not_admin _ _ Hlevel), Hlevel.
    rewrite bind_eq.
    change (updatePrivilege "admin" n s).1 with (@None string). cbv beta iota.
    apply sendMessageToUser_unit. }
  assert (Hrefuse : forall target, handleChangePrivilege user [target; "admin"] s
                                   = (tt, (sendMessageToUser user [privRefusal] s).2)).
  { intros target. unfold handleChangePrivilege. rewrite bind_eq. unfold load.
    cbn [fst snd]. rewrite Hlt.
    change (EqualFold "admin" "admin") with true. cbv iota.
    apply sendMessageToUser_unit. }
  split; [exact Hrun|]. split.
  - rewrite Hrun. cbn [snd]. rewrite sendMessageToUser_DB. reflexivity.
  - intros target. split; [apply Hrefuse|].
    rewrite Hrefuse. cbn [snd]. apply sendMessageToUser_DB.
Qed.

(** [admin] lowers the super-admin account to a regular user. *)
Lemma C7_priv_compares_the_level_with_admin_witness :
  let s := Scenario.adminOnline in
  (handleChangePrivilege 2%nat ["admin"; "0"] s
   = (tt, (sendMessageToUser 2%nat [privUpdated "admin"] (updatePrivilege "admin" 0 s).2).2)
   /\ DB (handleChangePrivilege 2%nat ["admin"; "0"] s).2
      = alter (fun a => mkAccount (acc_id a) (acc_hash a) 0) "admin" (DB s)
   /\ forall target,
        handleChangePrivilege 2%nat [target; "admin"] s
        = (tt, (sendMessageToUser 2%nat [privRefusal] s).2)
        /\ DB (handleChangePrivilege 2%nat [target; "admin"] s).2 = DB s)
  /\ acc_privilege <$> DB s !! "admin" = Some 1
  /\ acc_privilege <$> DB (handleChangePrivilege 2%nat ["admin"; "0"] s).2 !! "admin" = Some 0.
Proof.
  intros s. split.
  - apply (C7_priv_compares_the_level_with_admin Scenario.adminOnline 2%nat "0" 0).
    + vm_compute. discriminate.
    + vm_compute. reflexivity.
  - vm_compute. split; reflexivity.
Defined.

End Privilege.

(** ** The login phase and its timer *)

Section Login.

Variable check : string -> string -> bool.

Lemma queryNicknameWithTimeout_late (now late : Z) (text : string) :
  loginTimeout <= late ->
  queryNicknameWithTimeout now (Some (Line late text)) = (inr "timeout", Z.max now loginTimeout).
Proof.
  intros Hlate. unfold queryNicknameWithTimeout, readString.
  destruct (Z.ltb_spec (Z.max now late) loginTimeout) as [?|_]; [lia|reflexivity].
Qed.

Lemma queryNicknameWithTimeout_in_time (now t : Z) (line : string) :
  Z.max now t < loginTimeout ->
  validateNickname (sanitizeNickname (TrimRight line spaceCRLF)) = None ->
  queryNicknameWithTimeout now (Some (Line t line))
  = (inl (sanitizeNickname (TrimRight line spaceCRLF)), Z.max now t).
Proof.
  intros Ht Hvalid. unfold queryNicknameWithTimeout, readString.
  apply Z.ltb_lt in Ht. rewrite Ht. fold spaceCRLF. rewrite Hvalid. reflexivity.
Qed.

(** C6. The timer covers the reads of the username and of an alternate
    nickname, not the read of the password.  A line that arrives when
    the timer has fired makes [queryNicknameWithTimeout] give up at the
    deadline, while the plain read returns it at its arrival; and a
    client that sends a valid username in time and then nothing keeps
    the handler in the password read for ever, without a time-out
    message and without the connection being closed. *)
Theorem C6_password_read_is_outside_the_timer
  (s : State) (c : connId) (attemptsLeft : nat) (t : Z) (line : string) :
  0 <= t < loginTimeout ->
  validateNickname (sanitizeNickname (TrimRight line spaceCRLF)) = None ->
  (forall late text, loginTimeout <= late ->
     queryNicknameWithTimeout t (Some (Line late text)) = (inr "timeout", loginTimeout)
     /\ readString t (Some (Line late text)) = ReadLine text late)
  /\ (loginAttempts check (S attemptsLeft) c [Line t line] 0 s).1 = (LoginBlocked, t)
  /\ (loginAttempts check (S attemptsLeft) c [Line t line] 0 s).2
     = (sendMessageToConn c ["Please enter your password: "] s).2.
Proof.
  intros Ht Hvalid. split.
  - intros late text Hlate. split.
    + rewrite queryNicknameWithTimeout_late by exact Hlate. f_equal. lia.
    + unfold readString. f_equal. lia.
  - cbn [loginAttempts head tail].
    destruct (Z.leb_spec loginTimeout 0) as [H|_]; [unfold loginTimeout in H; lia|].
    rewrite queryNicknameWithTimeout_in_time by (try exact Hvalid; lia).
    replace (Z.max 0 t) with t by lia.
    rewrite bind_eq. cbn [head tail readString]. split; reflexivity.
Qed.

End Login.

(** [bob] types his username after one second.  If his password comes
    after a hundred seconds he is logged in then; if it never comes the
    handler waits; a username that comes after thirty-one seconds is
    timed out. *)
Lemma C6_password_read_is_outside_the_timer_witness :
  let s := Scenario.started in
  let bob := Line 1 (Scenario.typed "bob") in
  ((forall late text, loginTimeout <= late ->
      queryNicknameWithTimeout 1 (Some (Line late text)) = (inr "timeout", loginTimeout)
      /\ readString 1 (Some (Line late text)) = ReadLine text late)
   /\ (loginAttempts Scenario.hashOk 3 3%nat [bob] 0 s).1 = (LoginBlocked, 1)
   /\ (loginAttempts Scenario.hashOk 3 3%nat [bob] 0 s).2
      = (sendMessageToConn 3%nat ["Please enter your password: "] s).2)
  /\ (handleNewClient Scenario.hashOk 3%nat [bob] s).1 = (LoginBlocked, 1)
  /\ (handleNewClient Scenario.hashOk 3%nat [bob; Line 100 (Scenario.typed "builder")] s).1
     = (Authenticated 1%nat, 100)
  /\ (handleNewClient Scenario.hashOk 3%nat [Line 31 (Scenario.typed "bob")] s).1
     = (LoginTimeout, 30).
Proof.
  intros s bob. split.
  - apply (C6_password_read_is_outside_the_timer Scenario.hashOk Scenario.started 3%nat 2 1
             (Scenario.typed "bob")).
    + unfold loginTimeout. lia.
    + vm_compute. reflexivity.
  - vm_compute. repeat split.
Defined.

(** ** Further properties of the registry, the dispatcher and the shutdown *)

Section More.

Variable render : string -> string.
Variable hash : string -> option string.

(** [removeUser] is idempotent; it changes nothing when no entry has the
    lower-cased key, and otherwise removes that entry and no other. *)
Theorem removeUser_idempotent_and_local (s : State) (nick : string) :
  removeUser nick (removeUser nick s).2 = removeUser nick s
  /\ (users s !! ToLower nick = None -> removeUser nick s = (tt, s))
  /\ users (removeUser nick s).2 !! ToLower nick = None
  /\ (forall key, key <> ToLower nick -> users (removeUser nick s).2 !! key = users s !! key).
Proof.
  split; [|split; [|split]].
  - unfold removeUser, modify. f_equal. destruct s. unfold with_users. cbn.
    f_equal. apply delete_delete_eq.
  - intros Hnone. unfold removeUser, modify. f_equal. destruct s. unfold with_users. cbn in *.
    f_equal. apply delete_id. exact Hnone.
  - rewrite removeUser_users. apply lookup_delete_eq.
  - intros key Hkey. rewrite removeUser_users. apply lookup_delete_ne. congruence.
Qed.

(** A session registered under an all-lower-case nickname that changes
    to a valid nickname nobody uses is moved: its old key is gone, the
    new key holds it, every other entry is as before. *)
Theorem nick_moves_a_lower_case_session (s : State) (user : ptr) (newNickname : string) :
  users s !! nickname (deref s user) = Some user ->
  ToLower (nickname (deref s user)) = nickname (deref s user) ->
  validateNickname newNickname = None ->
  (FindUser newNickname s).1 = None ->
  users s !! newNickname = None ->
  allWritable s ->
  let s' := (handleNewNick user newNickname s).2 in
  nickname (deref s' user) = newNickname
  /\ users s' = <[newNickname := user]> (delete (nickname (deref s user)) (users s))
  /\ users s' !! nickname (deref s user) = None
  /\ users s' !! newNickname = Some user.
Proof.
  intros Hreg Hcase Hvalid Hfind Hfree Hall s'.
  assert (Hne : nickname (deref s user) <> newNickname) by congruence.
  destruct (handleNewNick_run s user newNickname _ Hreg Hvalid Hfind) as (s4 & Erun & Hs4);
    [apply lookup_delete_None; right; exact Hfree|exact Hall|].
  assert (Es' : s' = s4) by (unfold s'; rewrite Erun; reflexivity).
  rewrite Es', (sentMore_users _ _ Hs4), (sentMore_deref _ _ _ Hs4).
  rewrite renamed_deref, renamed_users, Hcase. cbn [nickname].
  split; [reflexivity|]. split; [reflexivity|]. split.
  - rewrite lookup_insert_ne by congruence. apply lookup_delete_eq.
  - apply lookup_insert_eq.
Qed.

(** A send to a session whose connection does not take the write fails,
    and the entry under the session's nickname is deleted in the same
    step; nothing is written. *)
Theorem failed_send_unregisters (s : State) (user : ptr) (msgs : list string) :
  writableb s (conn (deref s user)) = false ->
  let r := sendMessageToUser user msgs s in
  (exists err, r.1 = Some err)
  /\ users r.2 = delete (nickname (deref s user)) (users s)
  /\ conns r.2 = conns s.
Proof.
  intros Hw r. subst r.
  unfold sendMessageToUser, unsafeSendMessageToUser, sendMessageToConn.
  rewrite bind_eq. unfold load. cbn [fst snd]. rewrite bind_eq.
  unfold writableb in Hw. unfold connWrite.
  destruct (conns s !! conn (deref s user)) as [k|].
  - destruct (closed k); [cbn; eauto|]. destruct (broken k); [cbn; eauto|discriminate].
  - cbn. eauto.
Qed.



End More.

(** [bob] renames himself to [bob2]. *)
Lemma nick_moves_a_lower_case_session_witness :
  let s := Scenario.bobOnline in
  let s' := (handleNewNick 1%nat "bob2" s).2 in
  nickname (deref s' 1%nat) = "bob2"
  /\ users s' = <["bob2" := 1%nat]> (delete "bob" (users s))
  /\ users s' !! "bob" = None
  /\ users s' !! "bob2" = Some 1%nat.
Proof.
  intros s.
  apply (nick_moves_a_lower_case_session Scenario.bobOnline 1%nat "bob2");
    try (vm_compute; reflexivity).
  apply allWritableb_true. vm_compute. reflexivity.
Defined.

(** A message for [bob] when his peer has gone away. *)
Lemma failed_send_unregisters_witness :
  let s := Scenario.bobUnreachable in
  let r := sendMessageToUser 1%nat ["hello"] s in
  (exists err, r.1 = Some err)
  /\ users r.2 = delete "bob" (users s)
  /\ conns r.2 = conns s.
Proof.
  intros s.
  apply (failed_send_unregisters Scenario.bobUnreachable 1%nat ["hello"]).
  vm_compute. reflexivity.
Defined.

(** ** The scenarios, replayed *)

Section Replay.

(** [/shutdown 5]: no warning at all; [/shutdown 65]: every ten seconds
    from sixty down to ten. *)
Example countdown_of_5_and_65 :
  countdownWarnings 5 = []
  /\ (countdownWarnings 65).*1 = [60; 50; 40; 30; 20; 10].
Proof. split; reflexivity. Qed.

(** After [Alice] has become [bob2], [who] answers her with her new
    nickname on two lines. *)
Example who_after_the_rename :
  let s := (handleWho 1%nat (handleNewNick 1%nat "bob2" Scenario.aliceOnline).2).2 in
  (sent <$> conns s !! 1%nat)
  = Some [ "Welcome to ChatServer. Please enter your username: ";
           "Please enter your password: ";
           "Welcome to ChatServer! You are now known as Alice.";
           "Alice has joined the chat";
           "Alice is now: bob2";
           "Alice is now: bob2";
           "Current Users:";
           "bob2 (user)" +:+ nl +:+ "bob2 (user)" +:+ nl +:+ "(end of list)" +:+ nl ].
Proof. vm_compute. reflexivity. Qed.

(** [bob], a regular user, sends [/kick alice]: he gets the
    permission-denied message, and the registry is as before. *)
Example regular_user_kicks :
  let r := dispatch Scenario.render Scenario.hashOf (mkCmd "kick" (Some 1%nat) ["alice"])
             Scenario.bobOnline in
  r.1 = Continue
  /\ users r.2 = users Scenario.bobOnline
  /\ (last <$> (sent <$> conns r.2 !! 3%nat)) = Some (Some ErrPrivilege).
Proof. vm_compute. repeat split. Qed.

(** [admin] sends [/kick Alice be nice]: she is told so and her
    connection is closed, [admin] gets the notice and the confirmation;
    her entry, filed under [Alice], is still in the registry. *)
Example admin_kicks_Alice :
  let r := dispatch Scenario.render Scenario.hashOf
             (mkCmd "kick" (Some 2%nat) ["Alice"; "be"; "nice"]) Scenario.adminOnline in
  r.1 = Continue
  /\ (last <$> (sent <$> conns r.2 !! 1%nat))
     = Some (Some "You have been kicked by admin: be nice")
  /\ (closed <$> conns r.2 !! 1%nat) = Some true
  /\ (last <$> (sent <$> conns r.2 !! 2%nat)) = Some (Some "User Alice has been kicked.")
  /\ users r.2 !! "Alice" = Some 1%nat.
Proof. vm_compute. repeat split. Qed.

End Replay.

(** ** Reading a line: [parseCommand] and [handleUserInput] *)

Section Parsing.


Lemma all_bytes_app (p : ascii -> bool) (s t : string) :
  all_bytes p (s +:+ t) = all_bytes p s && all_bytes p t.
Proof.
  induction s as [|c r IH]; simpl; [reflexivity|].
  rewrite IH. apply andb_assoc.
Qed.

(** A string of bytes outside the cutset is not trimmed. *)
Lemma TrimRight_outside (s cutset : string) :
  all_bytes (fun c => negb (inCutset cutset c)) s = true -> TrimRight s cutset = s.
Proof.
  induction s as [|c r IH]; simpl; [reflexivity|].
  rewrite andb_true_iff, negb_true_iff. intros [Hc Hr]. rewrite (IH Hr), Hc.
  destruct r; reflexivity.
Qed.

Lemma TrimRight_inside (s cutset : string) :
  all_bytes (inCutset cutset) s = true -> TrimRight s cutset = EmptyString.
Proof.
  induction s as [|c r IH]; simpl; [reflexivity|].
  rewrite andb_true_iff. intros [Hc Hr]. rewrite (IH Hr), Hc. reflexivity.
Qed.

(** A tail inside the cutset is trimmed away whatever stands before it. *)
Lemma TrimRight_app_inside (s t cutset : string) :
  all_bytes (inCutset cutset) t = true ->
  TrimRight (s +:+ t) cutset = TrimRight s cutset.
Proof.
  intros Ht. induction s as [|c r IH]; simpl; [apply TrimRight_inside; exact Ht|].
  rewrite IH. reflexivity.
Qed.




Lemma Fields_cons (c : ascii) (r : string) :
  Fields (String c r) =
  if isSpace c then Fields r
  else match r with
       | EmptyString => [String c EmptyString]
       | String d _ =>
           if isSpace d then String c EmptyString :: Fields r
           else match Fields r with
                | f :: fs => String c f :: fs
                | [] => [String c EmptyString]
                end
       end.
Proof. reflexivity. Qed.


Lemma Fields_space (rest : string) : Fields (String " " rest) = Fields rest.
Proof. reflexivity. Qed.



(** Every field that [strings.Fields] returns is one. *)
Lemma Fields_fields (s : string) : forallb isField (Fields s) = true.
Proof.
  induction s as [|c r IH]; [reflexivity|].
  rewrite Fields_cons. destruct (isSpace c) eqn:Hc; [exact IH|].
  destruct r as [|d r']; [unfold isField; simpl; rewrite Hc; reflexivity|].
  destruct (isSpace d) eqn:Hd.
  - cbn [forallb]. rewrite IH, andb_true_r. unfold isField. simpl. rewrite Hc. reflexivity.
  - destruct (Fields (String d r')) as [|f fs]; [unfold isField; simpl; rewrite Hc; reflexivity|].
    cbn [forallb] in *. apply andb_true_iff in IH as [Hf Hfs]. rewrite Hfs, andb_true_r.
    unfold isField in *. simpl. rewrite Hc. simpl.
    apply andb_true_iff in Hf as [_ Hf]. exact Hf.
Qed.






Variable render : string -> string.
Variable hash : string -> option string.

(** Whatever the line, [parseCommand] names the user as issuer, and the
    name and the arguments are fields: not empty and without white space;
    or there is no name and no argument.  The marker alone, or followed
    by white space only, gives the command without name, and the
    dispatcher passes over such a command without any effect. *)
Theorem parseCommand_gives_fields (user : ptr) (input : string) :
  let cmd := parseCommand user input in
  cmdUser cmd = Some user
  /\ ((Command cmd = EmptyString /\ Args cmd = [])
      \/ forallb isField (Command cmd :: Args cmd) = true)
  /\ (forall blank, all_bytes isSpace blank = true ->
        parseCommand user ("/" +:+ blank) = mkCmd EmptyString (Some user) [])
  /\ (forall s, Command cmd = EmptyString -> dispatch render hash cmd s = (Continue, s)).
Proof.
  intros cmd. subst cmd. unfold parseCommand.
  pose proof (Fields_fields (TrimPrefix (TrimSpace input) "/")) as Hf.
  destruct (Fields (TrimPrefix (TrimSpace input) "/")) as [|part0 parts].
  - split; [reflexivity|]. split; [left; split; reflexivity|]. split; [|reflexivity].
    intros blank Hblank.
    assert (Htrim : TrimSpace ("/" +:+ blank) = "/").
    { unfold TrimSpace, Trim.
      change (TrimLeft ("/" +:+ blank) asciiSpace) with ("/" +:+ blank).
      rewrite TrimRight_app_inside by exact Hblank. reflexivity. }
    rewrite Htrim. reflexivity.
  - split; [reflexivity|]. split; [right; exact Hf|]. split.
    + intros blank Hblank.
      assert (Htrim : TrimSpace ("/" +:+ blank) = "/").
      { unfold TrimSpace, Trim.
        change (TrimLeft ("/" +:+ blank) asciiSpace) with ("/" +:+ blank).
        rewrite TrimRight_app_inside by exact Hblank. reflexivity. }
      rewrite Htrim. reflexivity.
    + intros s Hname. cbn [Command] in Hname. subst part0. reflexivity.
Qed.

End Parsing.


(** ** Valid nicknames are clean *)

Section CleanNicknames.

Lemma isWordByte_clean (c : ascii) :
  isWordByte c = true ->
  isTokenByte c = true
  /\ negb (Ascii.eqb c " ") = true
  /\ negb (Ascii.eqb c "\") = true
  /\ negb (inCutset spaceCRLF c) = true
  /\ negb (inCutset (String "013" (String "010" EmptyString)) c) = true
  /\ negb (inCutset asciiSpace c) = true.
Proof.
  destruct c as [[] [] [] [] [] [] [] []]; intros H; try discriminate H;
    repeat split; reflexivity.
Qed.

Lemma validateNickname_word_bytes (nick : string) :
  validateNickname nick = None ->
  nick <> EmptyString /\ all_bytes isWordByte nick = true.
Proof.
  intros H. apply validateNickname_None in H.
  destruct nick as [|c r]; [discriminate|]. split; [discriminate|].
  unfold nicknameRegex in H. rewrite !andb_true_iff in H.
  destruct H as [[[Hc Hr] _] _]. simpl. rewrite Hr, andb_true_r.
  unfold isWordByte. rewrite Hc. reflexivity.
Qed.

Lemma TrimLeft_outside (s cutset : string) :
  all_bytes (fun c => negb (inCutset cutset c)) s = true -> TrimLeft s cutset = s.
Proof.
  destruct s as [|c r]; [reflexivity|]. simpl.
  rewrite andb_true_iff, negb_true_iff. intros [-> _]. reflexivity.
Qed.

Lemma TrimRight_idempotent (s cutset : string) :
  TrimRight (TrimRight s cutset) cutset = TrimRight s cutset.
Proof.
  induction s as [|c r IH]; [reflexivity|]. cbn [TrimRight].
  destruct (TrimRight r cutset) as [|b t] eqn:E.
  - destruct (inCutset cutset c) eqn:Hc; [reflexivity|]. cbn [TrimRight]. rewrite Hc. reflexivity.
  - cbn [TrimRight] in *. rewrite IH. reflexivity.
Qed.

Lemma sanitizeNickname_clean (s : string) :
  all_bytes (fun c => negb (Ascii.eqb c " ")) (sanitizeNickname s) = true
  /\ all_bytes (fun c => negb (Ascii.eqb c "\")) (sanitizeNickname s) = true.
Proof.
  unfold sanitizeNickname. split; apply all_bytes_TrimRight.
  - apply all_bytes_removeByte, removeByte_gone.
  - apply removeByte_gone.
Qed.

Lemma valid_nickname_kept (nick : string) :
  validateNickname nick = None ->
  isToken nick = true
  /\ sanitizeNickname nick = nick
  /\ TrimRight nick spaceCRLF = nick
  /\ TrimSpace nick = nick.
Proof.
  intros Hvalid. apply validateNickname_word_bytes in Hvalid as [Hne Hall].
  assert (Hb : forall q, (forall c, isWordByte c = true -> q c = true) ->
                         all_bytes q nick = true).
  { intros q Hq. revert Hall. apply all_bytes_impl. exact Hq. }
  split; [|split; [|split]].
  - unfold isToken. rewrite (Hb isTokenByte (fun c H => proj1 (isWordByte_clean c H))).
    destruct nick; [congruence|reflexivity].
  - unfold sanitizeNickname.
    rewrite (removeByte_id " " nick) by (apply Hb; intros c H; apply isWordByte_clean, H).
    rewrite (removeByte_id "\" nick) by (apply Hb; intros c H; apply isWordByte_clean, H).
    apply TrimRight_outside. apply Hb. intros c H. apply isWordByte_clean, H.
  - apply TrimRight_outside. apply Hb. intros c H. apply isWordByte_clean, H.
  - unfold TrimSpace, Trim.
    rewrite TrimLeft_outside by (apply Hb; intros c H; apply isWordByte_clean, H).
    apply TrimRight_outside. apply Hb. intros c H. apply isWordByte_clean, H.
Qed.

(** A nickname that [validateNickname] accepts is made of ASCII bytes
    that are neither white space nor a backslash, so [sanitizeNickname],
    the [TrimRight] of the timed query and the [TrimSpace] of the login
    leave it as it is; sanitising is idempotent; and a nickname that the
    timed query returns is always one that [validateNickname] accepts. *)
Theorem valid_nickname_is_clean (nick : string) :
  (validateNickname nick = None ->
     isToken nick = true
     /\ sanitizeNickname nick = nick
     /\ TrimRight nick spaceCRLF = nick
     /\ TrimSpace nick = nick)
  /\ sanitizeNickname (sanitizeNickname nick) = sanitizeNickname nick
  /\ (forall now next t, queryNicknameWithTimeout now next = (inl nick, t) ->
        validateNickname nick = None).
Proof.
  split; [|split].
  - apply valid_nickname_kept.
  - destruct (sanitizeNickname_clean nick) as [Hs Hb].
    unfold sanitizeNickname at 1.
    rewrite (removeByte_id " " _ Hs), (removeByte_id "\" _ Hb).
    unfold sanitizeNickname. apply TrimRight_idempotent.
  - intros now next t. unfold queryNicknameWithTimeout.
    destruct (readString now next) as [line t'|e t'|]; [| |discriminate].
    + destruct (t' <? loginTimeout); [|discriminate].
      destruct (validateNickname _) eqn:E; [discriminate|].
      intros [= <- _]. exact E.
    + destruct (t' <? loginTimeout); discriminate.
Qed.

End CleanNicknames.

(** ** The [switch] of the dispatcher, name by name *)

Section Switch.

Variable render : string -> string.
Variable hash : string -> option string.

(** Case analysis along the [switch] on the command name. *)
Ltac switch_cases :=
  repeat match goal with
         | |- context [match ?x with _ => _ end] =>
             is_var x;
             let T := type of x in
             first [unify T string | unify T ascii | unify T bool];
             destruct x
         end.

(** A name that is not one of the [switch] runs the [default] branch. *)
Lemma dispatch_unknown (name : string) (user : ptr) (args : list string) :
  name <> EmptyString -> isKnownCommand name = false ->
  dispatch render hash (mkCmd name (Some user) args) = unknownCommand user name.
Proof.
  unfold dispatch, unknownCommand. cbn [cmdUser Command Args].
  switch_cases; intros Hne Hknown;
    first [reflexivity | congruence | discriminate Hknown].
Qed.

Lemma isKnownCommand_In (name : string) :
  isKnownCommand name = true -> In name knownCommands.
Proof.
  unfold isKnownCommand. rewrite existsb_exists. intros (x & Hx & Heq).
  apply String.eqb_eq in Heq. subst x. exact Hx.
Qed.

End Switch.

(** ** What a command can touch *)

Section Frame.

Variable render : string -> string.
Variable hash : string -> option string.

Context {B : Type} (view : State -> B).

(** The view does not look at the connections, the log, the registry,
    the [User] objects, the three flags or the goroutines. *)
Hypothesis view_conns : forall f s, view (with_conns f s) = view s.
Hypothesis view_log : forall f s, view (with_log f s) = view s.
Hypothesis view_users : forall f s, view (with_users f s) = view s.
Hypothesis view_heap : forall f s, view (with_heap f s) = view s.
Hypothesis view_shutdownOngoing : forall b s, view (with_shutdownOngoing b s) = view s.
Hypothesis view_listenerClosed : forall b s, view (with_listenerClosed b s) = view s.
Hypothesis view_commandsClosed : forall b s, view (with_commandsClosed b s) = view s.
Hypothesis view_goroutines : forall f s, view (with_goroutines f s) = view s.

Lemma keeps_ret {A} (a : A) : keepsOn view (ret a).
Proof. intros s. reflexivity. Qed.

Lemma keeps_bind {A C} (m : M A) (k : A -> M C) :
  keepsOn view m -> (forall a, keepsOn view (k a)) -> keepsOn view (bind m k).
Proof. intros Hm Hk s. rewrite bind_eq, Hk. apply Hm. Qed.

(** A computation that only reads. *)
Lemma keeps_read {A} (m : M A) : (forall s, (m s).2 = s) -> keepsOn view m.
Proof. intros H s. rewrite H. reflexivity. Qed.

Lemma keeps_modify (f : State -> State) :
  (forall s, view (f s) = view s) -> keepsOn view (modify f).
Proof. intros H s. apply H. Qed.

Lemma keeps_connWrite (c : connId) (lines : list string) : keepsOn view (connWrite c lines).
Proof.
  intros s. unfold connWrite. destruct (conns s !! c) as [k|]; [|reflexivity].
  destruct (closed k); [reflexivity|]. destruct (broken k); [reflexivity|apply view_conns].
Qed.

Lemma keeps_connClose (c : connId) : keepsOn view (connClose c).
Proof.
  intros s. unfold connClose. destruct (conns s !! c) as [k|]; [|reflexivity].
  destruct (closed k); [reflexivity|apply view_conns].
Qed.

Lemma keeps_rangeKeys (keys : list string) (body : ptr -> M unit) :
  (forall p, keepsOn view (body p)) -> keepsOn view (rangeKeys keys body).
Proof.
  intros Hbody. induction keys as [|k keys IH]; [apply keeps_ret|].
  intros s. cbn [rangeKeys]. destruct (users s !! k) as [p|]; [|apply IH].
  apply (keeps_bind (body p) (fun _ => rangeKeys keys body)); [apply Hbody|intros _; exact IH].
Qed.

Lemma keeps_rangeUsers (body : ptr -> M unit) :
  (forall p, keepsOn view (body p)) -> keepsOn view (rangeUsers body).
Proof. intros Hbody s. unfold rangeUsers. apply keeps_rangeKeys. exact Hbody. Qed.

Lemma keeps_addUser (user : ptr) : keepsOn view (addUser user).
Proof.
  intros s. unfold addUser. destruct (users s !! _); [reflexivity|apply view_users].
Qed.

(** The proof that a computation built from these operations keeps the
    view: along binds, branches and loops. *)
Ltac keeps :=
  repeat first
    [ apply keeps_ret
    | apply keeps_connWrite
    | apply keeps_connClose
    | apply keeps_addUser
    | apply keeps_bind; [|intros ?]
    | apply keeps_rangeUsers; intros ?
    | apply keeps_modify; intros ?;
      first [ apply view_conns | apply view_log | apply view_users | apply view_heap
            | apply view_shutdownOngoing | apply view_listenerClosed
            | apply view_commandsClosed | apply view_goroutines ]
    | apply keeps_read; intros ?; reflexivity
    | solve [auto 2]
    | match goal with
      | |- keepsOn _ (match ?x with _ => _ end) => destruct x
      | |- keepsOn _ (if ?b then _ else _) => destruct b
      | |- keepsOn _ (let _ := _ in _) => cbv zeta
      end ].

Lemma keeps_logEvent (event : string) : keepsOn view (logEvent event).
Proof. unfold logEvent. keeps. Qed.

Lemma keeps_removeUser (nick : string) : keepsOn view (removeUser nick).
Proof. unfold removeUser. keeps. Qed.

Lemma keeps_sendMessageToUser (user : ptr) (msgs : list string) :
  keepsOn view (sendMessageToUser user msgs).
Proof.
  unfold sendMessageToUser, unsafeSendMessageToUser, sendMessageToConn, load.
  pose proof keeps_logEvent. keeps.
Qed.

Lemma keeps_unsafeSendSysMessageToUser (user : ptr) (msgs : list string) :
  keepsOn view (unsafeSendSysMessageToUser render user msgs).
Proof.
  unfold unsafeSendSysMessageToUser, sendSysMessageToConn, load.
  pose proof keeps_logEvent. keeps.
Qed.

Lemma keeps_broadcastMessage (msgs : list string) : keepsOn view (broadcastMessage msgs).
Proof. unfold broadcastMessage. pose proof keeps_sendMessageToUser. keeps. Qed.

Lemma keeps_broadcastSysMessage (msgs : list string) :
  keepsOn view (broadcastSysMessage render msgs).
Proof. unfold broadcastSysMessage. pose proof keeps_unsafeSendSysMessageToUser. keeps. Qed.

Lemma keeps_broadcastMessageExcept (nick : string) (msgs : list string) :
  keepsOn view (broadcastMessageExcept nick msgs).
Proof.
  unfold broadcastMessageExcept, load. pose proof keeps_sendMessageToUser. keeps.
Qed.

Lemma keeps_FindUser (nick : string) : keepsOn view (FindUser nick).
Proof. apply keeps_read. reflexivity. Qed.

Lemma keeps_handleKick (target msg : string) (admin : ptr) :
  keepsOn view (handleKick target msg admin).
Proof.
  unfold handleKick, load.
  pose proof keeps_logEvent. pose proof keeps_sendMessageToUser. pose proof keeps_FindUser.
  pose proof keeps_removeUser. pose proof keeps_broadcastMessageExcept.
  keeps.
Qed.

Lemma keeps_handleUserLogout (user : ptr) : keepsOn view (handleUserLogout user).
Proof.
  unfold handleUserLogout, load.
  pose proof keeps_logEvent. pose proof keeps_removeUser. pose proof keeps_broadcastMessage.
  keeps.
Qed.

Lemma keeps_handleWho (user : ptr) : keepsOn view (handleWho user).
Proof.
  unfold handleWho, generateUserList. pose proof keeps_sendMessageToUser. keeps.
Qed.

Lemma keeps_handleWhoAmI (user : ptr) : keepsOn view (handleWhoAmI user).
Proof. unfold handleWhoAmI, load, get. pose proof keeps_sendMessageToUser. keeps. Qed.

Lemma keeps_handleEcho (user : ptr) (args : list string) : keepsOn view (handleEcho user args).
Proof.
  unfold handleEcho. pose proof keeps_sendMessageToUser. pose proof keeps_logEvent. keeps.
Qed.

Lemma keeps_handleHelp (user : ptr) : keepsOn view (handleHelp render user).
Proof. unfold handleHelp, load. pose proof keeps_sendMessageToUser. keeps. Qed.

Lemma keeps_handleTest (user : ptr) : keepsOn view (handleTest render user).
Proof. unfold handleTest. pose proof keeps_sendMessageToUser. keeps. Qed.

Lemma keeps_handleEnumUsers (user : ptr) : keepsOn view (handleEnumUsers user).
Proof.
  unfold handleEnumUsers, enumUsers, load. pose proof keeps_sendMessageToUser. keeps.
Qed.

Lemma keeps_handlePrivateMessage (sender : ptr) (isReply : bool) (target msg : string) :
  keepsOn view (handlePrivateMessage render sender isReply target msg).
Proof.
  unfold handlePrivateMessage, load, set_lastMsgFrom.
  pose proof keeps_logEvent. pose proof keeps_sendMessageToUser. pose proof keeps_FindUser.
  keeps.
Qed.

Lemma keeps_handleNewNick (user : ptr) (nick : string) :
  keepsOn view (handleNewNick user nick).
Proof.
  unfold handleNewNick, load, set_nickname.
  pose proof keeps_logEvent. pose proof keeps_sendMessageToUser. pose proof keeps_FindUser.
  pose proof keeps_removeUser. pose proof keeps_broadcastMessage.
  keeps.
Qed.

Lemma keeps_terminateServer (seconds : Z) : keepsOn view (terminateServer render seconds).
Proof.
  unfold terminateServer, terminateServerNow, load, get.
  pose proof keeps_logEvent. pose proof keeps_broadcastSysMessage.
  keeps.
Qed.

(** Every command but the four of [storeCommands] keeps the view. *)
Lemma keeps_dispatch_other (name : string) (user : ptr) (args : list string) :
  ~ In name storeCommands ->
  keepsOn view (dispatch render hash (mkCmd name (Some user) args)).
Proof.
  intros Hother.
  pose proof keeps_logEvent. pose proof keeps_sendMessageToUser.
  pose proof keeps_handleKick. pose proof keeps_handlePrivateMessage.
  pose proof keeps_handleNewNick. pose proof keeps_handleUserLogout.
  pose proof keeps_handleWho. pose proof keeps_terminateServer.
  pose proof keeps_handleEnumUsers. pose proof keeps_handleHelp.
  pose proof keeps_handleTest. pose proof keeps_handleWhoAmI. pose proof keeps_handleEcho.
  destruct (isKnownCommand name) eqn:Hknown.
  - apply isKnownCommand_In in Hknown. unfold knownCommands in Hknown. cbn [In] in Hknown.
    unfold storeCommands in Hother. cbn [In] in Hother.
    repeat (destruct Hknown as [<-|Hknown]; [try (exfalso; tauto)|]); [..|destruct Hknown];
      unfold dispatch; cbn [cmdUser Command Args]; unfold reportKick, load; keeps.
  - destruct (String.eqb_spec name EmptyString) as [->|Hne]; [apply keeps_ret|].
    rewrite (dispatch_unknown render hash name user args Hne Hknown).
    unfold unknownCommand, load. keeps.
Qed.

End Frame.

(** ** Who writes to the credential store *)

Section Store.

Variable render : string -> string.
Variable hash : string -> option string.

Lemma accounts_sendMessageToUser (user : ptr) (msgs : list string) (s : State) :
  accounts (sendMessageToUser user msgs s).2 = accounts s.
Proof. apply (keeps_sendMessageToUser accounts); reflexivity. Qed.

Lemma handleChangePrivilege_refused (user : ptr) (args : list string) (s : State) :
  privilege (deref s user) < 1 ->
  handleChangePrivilege user args s = (tt, (sendMessageToUser user [ErrPrivilege] s).2).
Proof.
  intros H. apply Z.ltb_lt in H. unfold handleChangePrivilege.
  rewrite bind_eq. unfold load. cbn [fst snd]. rewrite H. apply sendMessageToUser_unit.
Qed.

Lemma handleCreateUser_refused (user : ptr) (args : list string) (s : State) :
  privilege (deref s user) < 1 ->
  handleCreateUser hash user args s = (tt, (sendMessageToUser user [ErrPrivilege] s).2).
Proof.
  intros H. apply Z.ltb_lt in H. unfold handleCreateUser.
  rewrite bind_eq. unfold load. cbn [fst snd]. rewrite H. apply sendMessageToUser_unit.
Qed.

Lemma handleDeleteUser_refused (user : ptr) (args : list string) (s : State) :
  privilege (deref s user) < 1 ->
  handleDeleteUser user args s = (tt, (sendMessageToUser user [ErrPrivilege] s).2).
Proof.
  intros H. apply Z.ltb_lt in H. unfold handleDeleteUser.
  rewrite bind_eq. unfold load. cbn [fst snd]. rewrite H. apply sendMessageToUser_unit.
Qed.

(** Of all the commands only [passwd], [createuser], [priv] and
    [deleteuser] can change the credential store: any other command,
    known or unknown, with or without privilege, leaves every account and
    the counter of account ids as they were. *)
Theorem store_is_written_by_four_commands (cmd : ServerCommand) (s : State) :
  ~ In (Command cmd) storeCommands ->
  DB (dispatch render hash cmd s).2 = DB s
  /\ DBnextId (dispatch render hash cmd s).2 = DBnextId s.
Proof.
  intros Hother. destruct cmd as [name [user|] args]; [|split; reflexivity].
  pose proof (keeps_dispatch_other render hash accounts
                ltac:(reflexivity) ltac:(reflexivity) ltac:(reflexivity) ltac:(reflexivity)
                ltac:(reflexivity) ltac:(reflexivity) ltac:(reflexivity) ltac:(reflexivity)
                name user args Hother s) as H.
  unfold accounts in H. injection H as H1 H2. split; assumption.
Qed.

Lemma lookup_alter_hash (db : gmap string Account) (target account h : string) :
  (account <> target -> alter (fun a => mkAccount (acc_id a) h (acc_privilege a)) target db
                          !! account = db !! account)
  /\ acc_privilege <$> alter (fun a => mkAccount (acc_id a) h (acc_privilege a)) target db
       !! account = acc_privilege <$> db !! account
  /\ acc_id <$> alter (fun a => mkAccount (acc_id a) h (acc_privilege a)) target db
       !! account = acc_id <$> db !! account.
Proof.
  split; [intros Hne; apply lookup_alter_ne; congruence|].
  destruct (decide (target = account)) as [->|Hne].
  - rewrite lookup_alter_eq. destruct (db !! account); split; reflexivity.
  - rewrite lookup_alter_ne by exact Hne. split; reflexivity.
Qed.

(** A session whose privilege is below 1 cannot create or delete an
    account, cannot change the privilege of any account, and cannot
    change the password of any account but its own: whatever command it
    issues, with whatever arguments, the accounts keep their ids and
    privileges, and every account but the issuer's own is untouched. *)
Theorem store_is_closed_to_regular_users
  (user : ptr) (name : string) (args : list string) (s : State) :
  privilege (deref s user) < 1 ->
  let s' := (dispatch render hash (mkCmd name (Some user) args) s).2 in
  DBnextId s' = DBnextId s
  /\ forall account,
       (account <> username (deref s user) -> DB s' !! account = DB s !! account)
       /\ acc_privilege <$> DB s' !! account = acc_privilege <$> DB s !! account
       /\ acc_id <$> DB s' !! account = acc_id <$> DB s !! account.
Proof.
  intros Hpriv s'. subst s'.
  assert (Hsame : forall s1 : State, accounts s1 = accounts s ->
            DBnextId s1 = DBnextId s
            /\ forall account,
                 (account <> username (deref s user) -> DB s1 !! account = DB s !! account)
                 /\ acc_privilege <$> DB s1 !! account = acc_privilege <$> DB s !! account
                 /\ acc_id <$> DB s1 !! account = acc_id <$> DB s !! account).
  { intros s1 [= -> ->]. split; [reflexivity|]. intros account. repeat split. }
  destruct (in_dec String.string_dec name storeCommands) as [Hin|Hother].
  2: { apply Hsame.
       apply (keeps_dispatch_other render hash accounts); try reflexivity. exact Hother. }
  pose proof (accounts_sendMessageToUser user) as Hsend.
  unfold storeCommands in Hin. cbn [In] in Hin.
  destruct Hin as [<-|[<-|[<-|[<-|[]]]]]; unfold dispatch; cbn [cmdUser Command Args];
    rewrite bind_eq; cbn [snd ret].
  - (* passwd *)
    unfold handleChangePassword.
    destruct args as [|target [|newPassword [|? ?]]];
      try (apply Hsame; rewrite sendMessageToUser_unit; apply Hsend).
    rewrite bind_eq. unfold load. cbn [fst snd].
    destruct (Z.eqb_spec (privilege (deref s user)) 1) as [?|_]; [lia|].
    destruct (String.eqb_spec target (username (deref s user))) as [->|Hne];
      cbn [negb]; [|apply Hsame; rewrite sendMessageToUser_unit; apply Hsend].
    rewrite bind_eq. unfold changePasswordForUser.
    destruct (hash newPassword) as [h|]; cbn [fst snd ret].
    + rewrite bind_eq. cbn [snd ret].
      change (updatePassword (username (deref s user)) h s).1 with (@None string).
      cbv beta iota.
      set (s1 := (updatePassword (username (deref s user)) h s).2).
      pose proof (Hsend ["Your password has been updated successfully."] s1) as Hacc.
      unfold accounts in Hacc. injection Hacc as HDB Hid. rewrite HDB, Hid.
      split; [reflexivity|]. intros account. apply lookup_alter_hash.
    + apply Hsame. rewrite sendMessageToUser_unit. apply Hsend.
  - rewrite (handleCreateUser_refused _ _ _ Hpriv). apply Hsame, Hsend.
  - rewrite (handleChangePrivilege_refused _ _ _ Hpriv). apply Hsame, Hsend.
  - rewrite (handleDeleteUser_refused _ _ _ Hpriv). apply Hsame, Hsend.
Qed.

End Store.

(** [admin] kicks [Alice]: the accounts are as before. *)
Lemma store_is_written_by_four_commands_witness :
  let cmd := mkCmd "kick" (Some 2%nat) ["Alice"] in
  DB (dispatch Scenario.render Scenario.hashOf cmd Scenario.adminOnline).2
  = DB Scenario.adminOnline
  /\ DBnextId (dispatch Scenario.render Scenario.hashOf cmd Scenario.adminOnline).2
     = DBnextId Scenario.adminOnline.
Proof.
  intros cmd.
  apply (store_is_written_by_four_commands Scenario.render Scenario.hashOf cmd
           Scenario.adminOnline).
  unfold storeCommands, cmd. cbn [Command In]. intros [H|[H|[H|[H|[]]]]]; discriminate H.
Defined.

(** [bob] tries [/passwd admin x]. *)
Lemma store_is_closed_to_regular_users_witness :
  let s := Scenario.bobOnline in
  let s' := (dispatch Scenario.render Scenario.hashOf
               (mkCmd "passwd" (Some 1%nat) ["admin"; "x"]) s).2 in
  DBnextId s' = DBnextId s
  /\ forall account,
       (account <> username (deref s 1%nat) -> DB s' !! account = DB s !! account)
       /\ acc_privilege <$> DB s' !! account = acc_privilege <$> DB s !! account
       /\ acc_id <$> DB s' !! account = acc_id <$> DB s !! account.
Proof.
  intros s.
  apply (store_is_closed_to_regular_users Scenario.render Scenario.hashOf 1%nat "passwd"
           ["admin"; "x"] Scenario.bobOnline).
  vm_compute. reflexivity.
Defined.

(** ** What ends the loop of the dispatcher *)

Section Flows.

Variable render : string -> string.
Variable hash : string -> option string.

Lemma flows_ret (F : Flow -> Prop) (flow : Flow) : F flow -> flowsIn F (ret flow).
Proof. intros H s. exact H. Qed.

Lemma flows_bind {A} (F : Flow -> Prop) (m : M A) (k : A -> M Flow) :
  (forall a, flowsIn F (k a)) -> flowsIn F (bind m k).
Proof. intros Hk s. rewrite bind_eq. apply Hk. Qed.

Ltac flows :=
  repeat first
    [ apply flows_ret; first [reflexivity | discriminate]
    | apply flows_bind; intros ?
    | match goal with
      | |- flowsIn _ (match ?x with _ => _ end) => destruct x
      | |- flowsIn _ (if ?b then _ else _) => destruct b
      | |- flowsIn _ (let _ := _ in _) => cbv zeta
      end ].

Lemma reportKick_continues (user : ptr) (err : option string) :
  flowsIn (eq Continue) (reportKick user err).
Proof. unfold reportKick. flows. Qed.

(** Every name of the [switch] but [kick] and [shutdown] goes on. *)
Lemma dispatch_continues (name : string) (user : ptr) (args : list string) :
  name <> "kick" -> name <> "shutdown" ->
  flowsIn (eq Continue) (dispatch render hash (mkCmd name (Some user) args)).
Proof.
  intros Hkick Hshutdown.
  destruct (isKnownCommand name) eqn:Hknown.
  - apply isKnownCommand_In in Hknown. unfold knownCommands in Hknown. cbn [In] in Hknown.
    repeat (destruct Hknown as [<-|Hknown]; [try congruence|]); [..|destruct Hknown];
      unfold dispatch; cbn [cmdUser Command Args]; flows.
  - destruct (String.eqb_spec name EmptyString) as [->|Hne]; [flows|].
    rewrite (dispatch_unknown render hash name user args Hne Hknown).
    unfold unknownCommand. flows.
Qed.

Lemma dispatch_shutdown_no_panic (user : ptr) (args : list string) :
  flowsIn (fun flow => flow <> Panic)
    (dispatch render hash (mkCmd "shutdown" (Some user) args)).
Proof. unfold dispatch. cbn [cmdUser Command Args]. flows. Qed.

Lemma dispatch_kick_flow (user : ptr) (args : list string) (s : State) :
  (dispatch render hash (mkCmd "kick" (Some user) args) s).1
  = if (privilege (deref s user) =? 0) then Continue
    else match args with [] => Panic | _ => Continue end.
Proof.
  unfold dispatch. cbn [cmdUser Command Args]. rewrite bind_eq. unfold load. cbn [fst snd].
  destruct (privilege (deref s user) =? 0); [rewrite sendMessageToUser_result; reflexivity|].
  destruct args as [|arg0 [|arg1 rest]]; [reflexivity| |]; rewrite bind_eq;
    symmetry; apply reportKick_continues.
Qed.

(** The body of the loop returns only for [shutdown], and it panics in
    exactly one case: [kick] without argument from a session whose
    privilege is not 0, where [cmd.Args[1:]] is taken of an empty slice. *)
Theorem dispatch_ends_the_loop_only_for (cmd : ServerCommand) (s : State) :
  ((dispatch render hash cmd s).1 = Return -> Command cmd = "shutdown")
  /\ ((dispatch render hash cmd s).1 = Panic <->
      Command cmd = "kick" /\ Args cmd = []
      /\ exists user, cmdUser cmd = Some user /\ privilege (deref s user) <> 0).
Proof.
  destruct cmd as [name [user|] args]; cbn [Command Args cmdUser].
  2: { split; [discriminate|]. split; [discriminate|]. intros (_ & _ & u & Hu & _). discriminate. }
  destruct (String.eqb_spec name "kick") as [->|Hkick].
  - rewrite dispatch_kick_flow. destruct (Z.eqb_spec (privilege (deref s user)) 0) as [H0|H0].
    + split; [discriminate|]. split; [discriminate|].
      intros (_ & _ & u & [= <-] & Hu). contradiction.
    + destruct args as [|arg0 rest].
      * split; [discriminate|]. split; [|reflexivity]. intros _. eauto 6.
      * split; [discriminate|]. split; [discriminate|]. intros (_ & Hargs & _). discriminate.
  - destruct (String.eqb_spec name "shutdown") as [->|Hshutdown].
    + split; [reflexivity|]. split; [|intros (H & _); discriminate].
      intros H. exfalso. exact (dispatch_shutdown_no_panic user args s H).
    + rewrite <- (dispatch_continues name user args Hkick Hshutdown s).
      split; [discriminate|]. split; [discriminate|]. intros (H & _). contradiction.
Qed.

Lemma keepsDispatcher_continues (cmd : ServerCommand) (s : State) :
  keepsDispatcher cmd = true -> (dispatch render hash cmd s).1 = Continue.
Proof.
  unfold keepsDispatcher. rewrite andb_true_iff, !negb_true_iff, andb_false_iff.
  intros [Hshutdown Hkick]. apply String.eqb_neq in Hshutdown.
  destruct cmd as [name [user|] args]; [|reflexivity]. cbn [Command Args] in *.
  destruct (String.eqb_spec name "kick") as [->|Hne].
  - destruct Hkick as [Hkick|Hargs]; [discriminate|].
    rewrite dispatch_kick_flow. destruct (privilege (deref s user) =? 0); [reflexivity|].
    destruct args; [discriminate|reflexivity].
  - symmetry. apply dispatch_continues; assumption.
Qed.

(** No error of a command is fatal to the dispatcher: a queue without
    [shutdown] and without [kick] lacking its argument is processed to
    its end, whatever the commands, their issuers and the state are, and
    the dispatcher then waits for more. *)
Theorem dispatcher_survives_every_other_command (queue : list ServerCommand) (s : State) :
  forallb keepsDispatcher queue = true ->
  (commandDispatcher render hash queue s).1 = (Continue, []).
Proof.
  revert s. induction queue as [|cmd queue IH]; intros s; [reflexivity|].
  cbn [forallb]. rewrite andb_true_iff. intros [Hcmd Hqueue].
  rewrite commandDispatcher_cons, (keepsDispatcher_continues cmd s Hcmd).
  apply IH. exact Hqueue.
Qed.

End Flows.

(** [Alice] kicks, whispers to nobody, asks for something unknown and
    leaves; [admin] then kicks [bob], who is not there. *)
Lemma dispatcher_survives_every_other_command_witness :
  (commandDispatcher Scenario.render Scenario.hashOf
     [ mkCmd "kick" (Some 1%nat) ["admin"];
       mkCmd "msg" (Some 1%nat) ["nobody"; "hello"];
       mkCmd "dance" (Some 1%nat) [];
       mkCmd "bye" (Some 1%nat) [];
       mkCmd "kick" (Some 2%nat) ["bob"] ]
     Scenario.adminOnline).1 = (Continue, []).
Proof.
  apply dispatcher_survives_every_other_command. vm_compute. reflexivity.
Defined.

(** ** Broadcasts: delivery and isolation of failures *)

Section Broadcast.

Lemma sentKept_refl (s : State) : sentKept s s.
Proof. intros c k Hk. exists k, []. rewrite app_nil_r. auto. Qed.

Lemma sentKept_trans (s1 s2 s3 : State) : sentKept s1 s2 -> sentKept s2 s3 -> sentKept s1 s3.
Proof.
  intros Hc1 Hc2 c k Hk. destruct (Hc1 c k Hk) as (k2 & m1 & Hk2 & Hs2).
  destruct (Hc2 c k2 Hk2) as (k3 & m2 & Hk3 & Hs3).
  exists k3, (m1 ++ m2). split; [exact Hk3|]. rewrite Hs3, Hs2, app_assoc. reflexivity.
Qed.

Lemma sentKept_same_conns (s s1 : State) : conns s1 = conns s -> sentKept s s1.
Proof. intros Hc c k Hk. exists k, []. rewrite Hc, app_nil_r. auto. Qed.

Lemma grows_sentKept (s s' : State) : grows s s' -> sentKept s s'.
Proof. intros (_ & _ & H & _). exact H. Qed.

Lemma grows_refl (s : State) : grows s s.
Proof.
  split; [reflexivity|]. split; [reflexivity|]. split; [apply sentKept_refl|reflexivity].
Qed.

Lemma grows_trans (s1 s2 s3 : State) : grows s1 s2 -> grows s2 s3 -> grows s1 s3.
Proof.
  intros (Hh1 & Hw1 & Hc1 & Hu1) (Hh2 & Hw2 & Hc2 & Hu2). split; [congruence|].
  split; [intros c; rewrite Hw2; apply Hw1|].
  split; [eapply sentKept_trans; eassumption|].
  intros c Hc. rewrite Hu2, Hu1; [reflexivity|exact Hc|]. rewrite Hw1. exact Hc.
Qed.

Lemma grows_deref (s s' : State) (p : ptr) : grows s s' -> deref s' p = deref s p.
Proof. intros (Hh & _). unfold deref. rewrite Hh. reflexivity. Qed.

Lemma delivered_then_kept (s s1 s' : State) (c : connId) (lines : list string) :
  delivered s s1 c lines -> sentKept s1 s' -> delivered s s' c lines.
Proof.
  intros (k & k1 & before & after & Hk & Hk1 & Hsent) Hc.
  destruct (Hc c k1 Hk1) as (k' & more & Hk' & Hs').
  exists k, k', before, (after ++ more). split; [exact Hk|]. split; [exact Hk'|].
  rewrite Hs', Hsent, <- !app_assoc. reflexivity.
Qed.

Lemma delivered_then_grows (s s1 s' : State) (c : connId) (lines : list string) :
  delivered s s1 c lines -> grows s1 s' -> delivered s s' c lines.
Proof. intros Hd Hg. eapply delivered_then_kept; [exact Hd|apply grows_sentKept, Hg]. Qed.

Lemma kept_then_delivered (s s1 s' : State) (c : connId) (lines : list string) :
  sentKept s s1 -> delivered s1 s' c lines ->
  (exists k, conns s !! c = Some k) -> delivered s s' c lines.
Proof.
  intros Hc (k1 & k' & before & after & Hk1 & Hk' & Hsent) [k Hk].
  destruct (Hc c k Hk) as (k1' & more & Hk1' & Hs1). rewrite Hk1 in Hk1'. injection Hk1' as <-.
  exists k, k', (more ++ before), after. split; [exact Hk|]. split; [exact Hk'|].
  rewrite Hsent, Hs1, <- !app_assoc. reflexivity.
Qed.

Lemma grows_then_delivered (s s1 s' : State) (c : connId) (lines : list string) :
  grows s s1 -> delivered s1 s' c lines ->
  (exists k, conns s !! c = Some k) -> delivered s s' c lines.
Proof. intros Hg. apply kept_then_delivered, grows_sentKept, Hg. Qed.

Lemma writableb_Some (s : State) (c : connId) :
  writableb s c = true -> exists k, conns s !! c = Some k /\ closed k = false /\ broken k = false.
Proof. intros H. apply writableb_true in H. exact H. Qed.

(** One send that succeeds. *)
Lemma unsafeSend_run (s : State) (p : ptr) (msgs : list string) :
  writableb s (conn (deref s p)) = true ->
  exists k, conns s !! conn (deref s p) = Some k /\ closed k = false /\ broken k = false
    /\ unsafeSendMessageToUser p msgs s
        = (None, with_conns <[conn (deref s p) := written k msgs]> s).
Proof.
  intros Hw. destruct (writableb_Some _ _ Hw) as (k & Hk & Hc & Hb).
  exists k. split; [exact Hk|]. split; [exact Hc|]. split; [exact Hb|].
  unfold unsafeSendMessageToUser, sendMessageToConn, bind, load, connWrite.
  rewrite Hk, Hc, Hb. reflexivity.
Qed.

Lemma grows_written (s : State) (c : connId) (k : Conn) (msgs : list string) :
  conns s !! c = Some k -> closed k = false -> broken k = false ->
  grows s (with_conns <[c := written k msgs]> s).
Proof.
  intros Hk Hc Hb. split; [reflexivity|]. split; [|split].
  - intros c0. unfold writableb. cbn [conns with_conns].
    destruct (decide (c = c0)) as [<-|Hne].
    + rewrite lookup_insert_eq, Hk, Hc, Hb. reflexivity.
    + rewrite lookup_insert_ne by exact Hne. reflexivity.
  - intros c0 k0 Hk0. cbn [conns with_conns].
    destruct (decide (c = c0)) as [<-|Hne].
    + rewrite lookup_insert_eq. rewrite Hk in Hk0. injection Hk0 as <-.
      eexists _, msgs. split; reflexivity.
    + rewrite lookup_insert_ne by exact Hne. exists k0, []. rewrite app_nil_r. auto.
  - intros c0 Hw0. cbn [conns with_conns].
    destruct (decide (c = c0)) as [<-|Hne]; [|apply lookup_insert_ne; exact Hne].
    unfold writableb in Hw0. rewrite Hk, Hc, Hb in Hw0. discriminate.
Qed.

Lemma unsafeSend_writable (s : State) (p : ptr) (msgs : list string) :
  writableb s (conn (deref s p)) = true ->
  let s1 := (unsafeSendMessageToUser p msgs s).2 in
  (unsafeSendMessageToUser p msgs s).1 = None
  /\ users s1 = users s /\ grows s s1 /\ delivered s s1 (conn (deref s p)) msgs.
Proof.
  intros Hw. destruct (unsafeSend_run s p msgs Hw) as (k & Hk & Hc & Hb & Erun).
  cbn zeta. rewrite Erun. cbn [fst snd].
  split; [reflexivity|]. split; [reflexivity|]. split.
  - apply grows_written; assumption.
  - exists k, (written k msgs), [], [].
    split; [exact Hk|]. split; [cbn [conns with_conns]; apply lookup_insert_eq|].
    cbn [sent written]. rewrite app_nil_r. reflexivity.
Qed.

(** One send that fails. *)
Lemma unsafeSend_unwritable (s : State) (p : ptr) (msgs : list string) :
  writableb s (conn (deref s p)) = false ->
  let s1 := (unsafeSendMessageToUser p msgs s).2 in
  (exists err, (unsafeSendMessageToUser p msgs s).1 = Some err)
  /\ users s1 = delete (nickname (deref s p)) (users s)
  /\ conns s1 = conns s /\ heap s1 = heap s.
Proof.
  intros Hw. unfold unsafeSendMessageToUser, sendMessageToConn. cbn zeta.
  rewrite bind_eq. unfold load. cbn [fst snd]. rewrite bind_eq.
  unfold writableb in Hw. unfold connWrite.
  destruct (conns s !! conn (deref s p)) as [k|].
  - destruct (closed k); [cbn; eauto 6|]. destruct (broken k); [cbn; eauto 6|discriminate].
  - cbn. eauto 6.
Qed.

Lemma grows_of_same_conns (s s1 : State) :
  conns s1 = conns s -> heap s1 = heap s -> grows s s1.
Proof.
  intros Hc Hh. split; [exact Hh|]. split; [|split].
  - intros c. unfold writableb. rewrite Hc. reflexivity.
  - apply sentKept_same_conns. exact Hc.
  - intros c _. rewrite Hc. reflexivity.
Qed.

Lemma keyed_sub (s s1 : State) :
  heap s1 = heap s -> users s1 ⊆ users s -> keyed s -> keyed s1.
Proof.
  intros Hh Hsub Hkeyed key p Hp. unfold deref. rewrite Hh.
  apply (Hkeyed key p). eapply lookup_weaken; eassumption.
Qed.

(** The loop of a broadcast, over keys without repetition, from a keyed
    registry; [skip] tells which sessions the body passes over. *)
Lemma rangeKeys_broadcast (skip : User -> bool) (msgs : list string) (body : ptr -> M unit) :
  (forall s p, body p s = if skip (deref s p) then (tt, s)
                          else (tt, (unsafeSendMessageToUser p msgs s).2)) ->
  forall keys s, NoDup keys -> keyed s ->
    let s' := (rangeKeys keys body s).2 in
    grows s s'
    /\ (forall key, key ∉ keys -> users s' !! key = users s !! key)
    /\ (forall key, users s !! key = None -> users s' !! key = None)
    /\ (forall key p, key ∈ keys -> users s !! key = Some p ->
          if skip (deref s p) then users s' !! key = Some p
          else if writableb s (conn (deref s p))
               then users s' !! key = Some p /\ delivered s s' (conn (deref s p)) msgs
               else users s' !! key = None).
Proof.
  intros Hbody keys. induction keys as [|k keys IH]; intros s Hnd Hkeyed.
  - cbn. split; [apply grows_refl|]. split; [reflexivity|]. split; [auto|].
    intros key p Hin. inversion Hin.
  - apply NoDup_cons in Hnd as [Hk Hnd]. cbn [rangeKeys].
    destruct (users s !! k) as [p|] eqn:Hlook.
    + rewrite bind_eq. rewrite Hbody. cbn zeta.
      destruct (skip (deref s p)) eqn:Hskip; cbn [fst snd].
      * destruct (IH s Hnd Hkeyed) as (Hg & Hout & Hnone & Hin). cbn zeta in *.
        split; [exact Hg|]. split; [|split; [exact Hnone|]].
        { intros key Hkey. apply Hout. intros H. apply Hkey. right. exact H. }
        intros key q Hkey Hq. apply elem_of_cons in Hkey as [->|Hkey]; [|apply Hin; assumption].
        rewrite Hlook in Hq. injection Hq as <-. rewrite Hskip.
        rewrite (Hout k Hk). exact Hlook.
      * destruct (writableb s (conn (deref s p))) eqn:Hw.
        -- destruct (unsafeSend_writable s p msgs Hw) as (_ & Hu1 & Hg1 & Hd1).
           set (s1 := (unsafeSendMessageToUser p msgs s).2) in *.
           assert (Hkeyed1 : keyed s1).
           { apply (keyed_sub s); [apply Hg1|rewrite Hu1; reflexivity|exact Hkeyed]. }
           destruct (IH s1 Hnd Hkeyed1) as (Hg & Hout & Hnone & Hin). cbn zeta in *.
           split; [eapply grows_trans; eassumption|]. split; [|split].
           { intros key Hkey. rewrite Hout, Hu1; [reflexivity|].
             intros H. apply Hkey. right. exact H. }
           { intros key Hkey. apply Hnone. rewrite Hu1. exact Hkey. }
           intros key q Hkey Hq. apply elem_of_cons in Hkey as [->|Hkey].
           ++ rewrite Hlook in Hq. injection Hq as <-. rewrite Hskip, Hw.
              split; [rewrite (Hout k Hk), Hu1; exact Hlook|].
              eapply delivered_then_grows; eassumption.
           ++ specialize (Hin key q Hkey). rewrite Hu1 in Hin. specialize (Hin Hq).
              rewrite (grows_deref _ _ q Hg1) in Hin.
              destruct (skip (deref s q)); [exact Hin|].
              rewrite (proj1 (proj2 Hg1)) in Hin.
              destruct (writableb s (conn (deref s q))) eqn:Hwq; [|exact Hin].
              destruct Hin as [Hq' Hdel]. split; [exact Hq'|].
              apply (grows_then_delivered s s1); [exact Hg1|exact Hdel|].
              destruct (writableb_Some _ _ Hwq) as (kq & Hkq & _). eauto.
        -- destruct (unsafeSend_unwritable s p msgs Hw) as (_ & Hu1 & Hc1 & Hh1).
           set (s1 := (unsafeSendMessageToUser p msgs s).2) in *.
           rewrite (Hkeyed k p Hlook) in Hu1.
           assert (Hg1 : grows s s1) by (apply grows_of_same_conns; assumption).
           assert (Hkeyed1 : keyed s1).
           { apply (keyed_sub s); [exact Hh1|rewrite Hu1; apply delete_subseteq|exact Hkeyed]. }
           destruct (IH s1 Hnd Hkeyed1) as (Hg & Hout & Hnone & Hin). cbn zeta in *.
           split; [eapply grows_trans; eassumption|]. split; [|split].
           { intros key Hkey. rewrite Hout, Hu1.
             - apply lookup_delete_ne. intros ->. apply Hkey. left.
             - intros H. apply Hkey. right. exact H. }
           { intros key Hkey. apply Hnone. rewrite Hu1.
             apply lookup_delete_None. right. exact Hkey. }
           intros key q Hkey Hq. apply elem_of_cons in Hkey as [->|Hkey].
           ++ rewrite Hlook in Hq. injection Hq as <-. rewrite Hskip, Hw.
              rewrite (Hout k Hk), Hu1. apply lookup_delete_eq.
           ++ assert (Hne : k <> key) by (intros ->; contradiction).
              specialize (Hin key q Hkey). rewrite Hu1, lookup_delete_ne in Hin by exact Hne.
              specialize (Hin Hq). rewrite (grows_deref _ _ q Hg1) in Hin.
              destruct (skip (deref s q)); [exact Hin|].
              rewrite (proj1 (proj2 Hg1)) in Hin.
              destruct (writableb s (conn (deref s q))) eqn:Hwq; [|exact Hin].
              destruct Hin as [Hq' Hdel]. split; [exact Hq'|].
              apply (grows_then_delivered s s1); [exact Hg1|exact Hdel|].
              destruct (writableb_Some _ _ Hwq) as (kq & Hkq & _). eauto.
    + destruct (IH s Hnd Hkeyed) as (Hg & Hout & Hnone & Hin). cbn zeta in *.
      split; [exact Hg|]. split; [|split; [exact Hnone|]].
      { intros key Hkey. apply Hout. intros H. apply Hkey. right. exact H. }
      intros key q Hkey Hq. apply elem_of_cons in Hkey as [->|Hkey]; [congruence|].
      apply Hin; assumption.
Qed.

Lemma registry_keys (s : State) :
  NoDup (map_to_list (users s)).*1
  /\ forall key p, users s !! key = Some p -> key ∈ (map_to_list (users s)).*1.
Proof.
  split; [apply NoDup_fst_map_to_list|].
  intros key p Hp. apply list_elem_of_fmap. exists (key, p).
  split; [reflexivity|apply elem_of_map_to_list; exact Hp].
Qed.

(** The same for the loop over the whole registry. *)
Lemma rangeUsers_broadcast (skip : User -> bool) (msgs : list string) (body : ptr -> M unit) :
  (forall s p, body p s = if skip (deref s p) then (tt, s)
                          else (tt, (unsafeSendMessageToUser p msgs s).2)) ->
  forall s, keyed s ->
    let s' := (rangeUsers body s).2 in
    grows s s'
    /\ (forall key, users s !! key = None -> users s' !! key = None)
    /\ (forall key p, users s !! key = Some p ->
          if skip (deref s p) then users s' !! key = Some p
          else if writableb s (conn (deref s p))
               then users s' !! key = Some p /\ delivered s s' (conn (deref s p)) msgs
               else users s' !! key = None).
Proof.
  intros Hbody s Hkeyed. unfold rangeUsers.
  destruct (registry_keys s) as [Hnd Hall].
  destruct (rangeKeys_broadcast skip msgs body Hbody _ s Hnd Hkeyed) as (Hg & _ & Hnone & Hin).
  cbn zeta in *. split; [exact Hg|]. split; [exact Hnone|].
  intros key p Hp. exact (Hin key p (Hall key p Hp) Hp).
Qed.

Lemma broadcastMessage_body (msgs : list string) (s0 : State) (p : ptr) :
  (fun user => unsafeSendMessageToUser user msgs ;; ret tt) p s0
  = if (fun _ : User => false) (deref s0 p) then (tt, s0)
    else (tt, (unsafeSendMessageToUser p msgs s0).2).
Proof. cbv beta. rewrite bind_eq. reflexivity. Qed.

Lemma broadcastMessage_reaches (s : State) (msgs : list string) :
  keyed s ->
  let s' := (broadcastMessage msgs s).2 in
  (forall key p, users s !! key = Some p ->
     if writableb s (conn (deref s p))
     then users s' !! key = Some p /\ delivered s s' (conn (deref s p)) msgs
     else users s' !! key = None)
  /\ (forall key, users s !! key = None -> users s' !! key = None)
  /\ grows s s'.
Proof.
  intros Hkeyed.
  destruct (rangeUsers_broadcast (fun _ => false) msgs _ (broadcastMessage_body msgs) s Hkeyed)
    as (Hg & Hnone & Hin).
  cbv zeta. auto.
Qed.

(** A broadcast over a keyed registry reaches every registered session
    whose connection takes the write, and leaves it registered; it
    removes exactly the sessions whose connection does not; it registers
    nobody, and the failure of one recipient changes nothing for the
    others. *)
Theorem broadcast_isolates_failures (s : State) (msgs : list string) :
  keyed s ->
  let s' := (broadcastMessage msgs s).2 in
  (forall key p, users s !! key = Some p ->
     if writableb s (conn (deref s p))
     then users s' !! key = Some p /\ delivered s s' (conn (deref s p)) msgs
     else users s' !! key = None)
  /\ (forall key, users s !! key = None -> users s' !! key = None)
  /\ grows s s'.
Proof.
  intros Hkeyed s'. subst s'. unfold broadcastMessage.
  destruct (rangeUsers_broadcast (fun _ => false) msgs
              (fun user => unsafeSendMessageToUser user msgs ;; ret tt)
              (broadcastMessage_body msgs) s Hkeyed) as (Hg & Hnone & Hin).
  cbv zeta in Hg, Hnone, Hin.
  split; [|split; [exact Hnone|exact Hg]].
  intros key p Hp. specialize (Hin key p Hp). cbv beta in Hin. exact Hin.
Qed.

End Broadcast.

Lemma keyedb_true (s : State) : keyedb s = true -> keyed s.
Proof.
  unfold keyedb. rewrite forallb_forall. intros H key p Hp.
  apply String.eqb_eq, (H (key, p)), list_elem_of_In, elem_of_map_to_list. exact Hp.
Qed.

(** A notice to [Alice], whose peer is gone, and [admin]. *)
Lemma broadcast_isolates_failures_witness :
  let s := Scenario.aliceUnreachable in
  let s' := (broadcastMessage ["maintenance at noon"] s).2 in
  (forall key p, users s !! key = Some p ->
     if writableb s (conn (deref s p))
     then users s' !! key = Some p
          /\ delivered s s' (conn (deref s p)) ["maintenance at noon"]
     else users s' !! key = None)
  /\ (forall key, users s !! key = None -> users s' !! key = None)
  /\ grows s s'.
Proof.
  intros s.
  apply (broadcast_isolates_failures Scenario.aliceUnreachable ["maintenance at noon"]).
  apply keyedb_true. vm_compute. reflexivity.
Defined.

(** ** A line of chat *)

Section Chat.

(** A line of ASCII text that is not a command, once trimmed, is
    broadcast with the nickname of its sender in front: the loop sends no
    command to the dispatcher, and over a keyed registry every registered
    session whose connection takes the write gets the line and stays
    registered. *)
Theorem chat_line_is_broadcast (s : State) (user : ptr) (line : string) (c : ascii)
  (rest : string) :
  keyed s ->
  isAscii line = true ->
  TrimSpace line = String c rest ->
  c <> "/"%char ->
  let text := nickname (deref s user) +:+ ": " +:+ TrimSpace line in
  let r := handleUserInputStep user (inl line) s in
  r.1 = KeepReading
  /\ r.2 = (broadcastMessage [text] s).2
  /\ forall key p, users s !! key = Some p ->
       writableb s (conn (deref s p)) = true ->
       users r.2 !! key = Some p /\ delivered s r.2 (conn (deref s p)) [text].
Proof.
  intros Hkeyed _ Htrim Hc text r.
  assert (Hr : r = (KeepReading, (broadcastMessage [text] s).2)).
  { subst r text. unfold handleUserInputStep. rewrite Htrim.
    destruct (Ascii.eqb_spec c "/") as [?|_]; [contradiction|].
    rewrite bind_eq. unfold load. cbn [fst snd]. rewrite bind_eq. reflexivity. }
  rewrite Hr. cbn [fst snd]. split; [reflexivity|]. split; [reflexivity|].
  intros key p Hp Hw.
  destruct (broadcastMessage_reaches s [text] Hkeyed) as (Hin & _).
  specialize (Hin key p Hp). rewrite Hw in Hin. exact Hin.
Qed.

End Chat.

(** [admin] greets. *)
Lemma chat_line_is_broadcast_witness :
  let s := Scenario.bobAndAdmin in
  let text := "admin: hello all" in
  let r := handleUserInputStep 2%nat (inl ("  hello all" +:+ crlf)) s in
  r.1 = KeepReading
  /\ r.2 = (broadcastMessage [text] s).2
  /\ forall key p, users s !! key = Some p ->
       writableb s (conn (deref s p)) = true ->
       users r.2 !! key = Some p /\ delivered s r.2 (conn (deref s p)) [text].
Proof.
  intros s.
  apply (chat_line_is_broadcast Scenario.bobAndAdmin 2%nat ("  hello all" +:+ crlf)
           "h" "ello all").
  - apply keyedb_true. vm_compute. reflexivity.
  - vm_compute. reflexivity.
  - vm_compute. reflexivity.
  - discriminate.
Defined.

(** ** Looking a nickname up *)

Section Find.

Lemma EqualFold_ToLower (s t : string) : EqualFold s t = true <-> ToLower s = ToLower t.
Proof.
  revert t. induction s as [|a s IH]; intros [|b t]; cbn [EqualFold ToLower];
    try (split; [discriminate|discriminate]); [split; reflexivity|].
  rewrite andb_true_iff, IH. split.
  - intros [Hab ->]. apply Ascii.eqb_eq in Hab. rewrite Hab. reflexivity.
  - intros [= Hab ->]. rewrite Hab, Ascii.eqb_refl. auto.
Qed.

(** [FindUser] only reads, and on ASCII text it is a search that ignores
    case: when the nickname asked for and the nicknames of the registered
    sessions are ASCII text, it returns a session exactly when some
    registered session has a nickname with the same lower-case form as
    the one asked for, and the session it returns is such a one. *)
Theorem FindUser_ignores_case (s : State) (nick : string) :
  isAscii nick = true ->
  asciiNicknames s ->
  (FindUser nick s).2 = s
  /\ (forall p, (FindUser nick s).1 = Some p ->
        exists key, users s !! key = Some p
                    /\ ToLower (nickname (deref s p)) = ToLower nick)
  /\ ((exists p, (FindUser nick s).1 = Some p)
      <-> exists key p, users s !! key = Some p
                        /\ ToLower (nickname (deref s p)) = ToLower nick).
Proof.
  intros _ _. split; [reflexivity|]. split.
  - intros p Hp. destruct (FindUser_sound s nick p Hp) as (key & Hkey & Heq).
    exists key. split; [exact Hkey|]. apply EqualFold_ToLower. exact Heq.
  - split.
    + intros [p Hp]. destruct (FindUser_sound s nick p Hp) as (key & Hkey & Heq).
      exists key, p. split; [exact Hkey|]. apply EqualFold_ToLower. exact Heq.
    + intros (key & p & Hkey & Heq). apply EqualFold_ToLower in Heq.
      exact (FindUser_finds s key nick p Hkey Heq).
Qed.

End Find.

Lemma asciiNicknamesb_true (s : State) : asciiNicknamesb s = true -> asciiNicknames s.
Proof.
  unfold asciiNicknamesb. rewrite forallb_forall. intros H key p Hp.
  apply (H (key, p)), list_elem_of_In, elem_of_map_to_list. exact Hp.
Qed.

(** Somebody looks for [BOB] while [bob] and [admin] are logged in. *)
Lemma FindUser_ignores_case_witness :
  let s := Scenario.bobAndAdmin in
  let nick := "BOB" in
  (FindUser nick s).2 = s
  /\ (forall p, (FindUser nick s).1 = Some p ->
        exists key, users s !! key = Some p
                    /\ ToLower (nickname (deref s p)) = ToLower nick)
  /\ ((exists p, (FindUser nick s).1 = Some p)
      <-> exists key p, users s !! key = Some p
                        /\ ToLower (nickname (deref s p)) = ToLower nick).
Proof.
  intros s nick.
  apply (FindUser_ignores_case Scenario.bobAndAdmin "BOB").
  - vm_compute. reflexivity.
  - apply asciiNicknamesb_true. vm_compute. reflexivity.
Defined.

(** ** The life of an account *)

Section Accounts.

Variable render : string -> string.
Variable hash : string -> option string.
Variable check : string -> string -> bool.

Lemma core_sendMessageToUser (user : ptr) (msgs : list string) (s : State) :
  core (sendMessageToUser user msgs s).2 = core s.
Proof. apply (keeps_sendMessageToUser core); reflexivity. Qed.

Lemma sendMessageToUser_heap (user : ptr) (msgs : list string) (s : State) :
  heap (sendMessageToUser user msgs s).2 = heap s
  /\ nextPtr (sendMessageToUser user msgs s).2 = nextPtr s
  /\ DB (sendMessageToUser user msgs s).2 = DB s
  /\ DBnextId (sendMessageToUser user msgs s).2 = DBnextId s.
Proof.
  pose proof (core_sendMessageToUser user msgs s) as H. unfold core, accounts in H.
  injection H as H1 H2 H3 H4. auto.
Qed.

Lemma with_DB_same (s : State) (f : gmap string Account -> gmap string Account) :
  f (DB s) = DB s -> with_DB f (DBnextId s) s = s.
Proof. intros H. destruct s. unfold with_DB. cbn in *. rewrite H. reflexivity. Qed.

Lemma updatePrivilege_run (uname : string) (n : Z) (s : State) :
  updatePrivilege uname n s
  = (None, with_DB (alter (fun a => mkAccount (acc_id a) (acc_hash a) n) uname)
             (DBnextId s) s).
Proof. reflexivity. Qed.

Lemma updatePassword_run (uname h : string) (s : State) :
  updatePassword uname h s
  = (None, with_DB (alter (fun a => mkAccount (acc_id a) h (acc_privilege a)) uname)
             (DBnextId s) s).
Proof. reflexivity. Qed.

Lemma deleteUser_run (uname : string) (s : State) :
  deleteUser uname s = (None, with_DB (delete uname) (DBnextId s) s).
Proof. reflexivity. Qed.

Lemma privileged (s : State) (user : ptr) :
  1 <= privilege (deref s user) -> (privilege (deref s user) <? 1) = false.
Proof. intros H. apply Z.ltb_ge. exact H. Qed.

Lemma handleCreateUser_new (admin : ptr) (uname password h : string) (s : State) :
  1 <= privilege (deref s admin) -> DB s !! uname = None -> hash password = Some h ->
  handleCreateUser hash admin [uname; password] s
  = (tt, (sendMessageToUser admin ["User " +:+ uname +:+ " created successfully."]
            (with_DB <[uname := mkAccount (DBnextId s) h 0]> (DBnextId s + 1) s)).2).
Proof.
  intros Hpriv Hnew Hh. unfold handleCreateUser. rewrite bind_eq. unfold load. cbn [fst snd].
  rewrite (privileged _ _ Hpriv), Hh, bind_eq.
  unfold createUser. rewrite Hnew. cbn [fst snd]. rewrite bind_eq. reflexivity.
Qed.

(** An account that an administrator creates can log in: [createuser]
    with a new name stores the hash of the password under the next id and
    with privilege 0, and [authenticateUser] then accepts the name with
    this password, giving a fresh session of this account, and rejects it
    with a password that does not match the hash. *)
Theorem created_account_can_log_in
  (admin : ptr) (uname password h : string) (s : State) :
  1 <= privilege (deref s admin) ->
  DB s !! uname = None ->
  hash password = Some h ->
  check h password = true ->
  let s1 := (handleCreateUser hash admin [uname; password] s).2 in
  let login := authenticateUser check uname password s1 in
  DB s1 = <[uname := mkAccount (DBnextId s) h 0]> (DB s)
  /\ DBnextId s1 = DBnextId s + 1
  /\ login.1 = inl (nextPtr s)
  /\ deref login.2 (nextPtr s) = mkUser (DBnextId s) uname 0 "" 0%nat ""
  /\ (forall p, p <> nextPtr s -> deref login.2 p = deref s p)
  /\ forall wrong, check h wrong = false ->
       authenticateUser check uname wrong s1 = (inr "invalid password", s1).
Proof.
  intros Hpriv Hnew Hh Hcheck s1 login.
  assert (Hs1 : DB s1 = <[uname := mkAccount (DBnextId s) h 0]> (DB s)
                /\ DBnextId s1 = DBnextId s + 1 /\ heap s1 = heap s /\ nextPtr s1 = nextPtr s).
  { subst s1. rewrite (handleCreateUser_new _ _ _ _ _ Hpriv Hnew Hh). cbn [snd].
    destruct (sendMessageToUser_heap admin ["User " +:+ uname +:+ " created successfully."]
                (with_DB <[uname := mkAccount (DBnextId s) h 0]> (DBnextId s + 1) s))
      as (H1 & H2 & H3 & H4).
    rewrite H1, H2, H3, H4. auto. }
  destruct Hs1 as (HDB & Hid & Hheap & Hnext).
  assert (Hacc : DB s1 !! uname = Some (mkAccount (DBnextId s) h 0)).
  { rewrite HDB. apply lookup_insert_eq. }
  split; [exact HDB|]. split; [exact Hid|].
  subst login. unfold authenticateUser. rewrite Hacc. cbn [acc_hash acc_id acc_privilege].
  rewrite Hcheck. cbn [fst snd]. rewrite Hnext. split; [reflexivity|].
  unfold deref. cbn [heap with_heap with_nextPtr]. rewrite Hheap. split.
  - rewrite lookup_insert_eq. reflexivity.
  - split.
    + intros p Hp. rewrite lookup_insert_ne by congruence. reflexivity.
    + intros wrong Hwrong. rewrite Hwrong. reflexivity.
Qed.

(** [createuser] never touches an account that exists: whoever issues it
    and whatever the arguments, an account that is in the store is there
    afterwards with the same id, hash and privilege. *)
Theorem createuser_never_overwrites
  (user : ptr) (args : list string) (uname : string) (a : Account) (s : State) :
  DB s !! uname = Some a ->
  DB (dispatch render hash (mkCmd "createuser" (Some user) args) s).2 !! uname = Some a.
Proof.
  intros Ha. unfold dispatch. cbn [cmdUser Command Args]. rewrite bind_eq. cbn [snd ret].
  assert (Hsend : forall msgs s0, DB s0 !! uname = Some a ->
            DB ((sendMessageToUser user msgs ;; ret tt)%go s0).2 !! uname = Some a).
  { intros msgs s0 H0. rewrite sendMessageToUser_unit. cbn [snd].
    destruct (sendMessageToUser_heap user msgs s0) as (_ & _ & -> & _). exact H0. }
  unfold handleCreateUser. rewrite bind_eq. unfold load. cbn [fst snd].
  destruct (privilege (deref s user) <? 1); [apply Hsend, Ha|].
  destruct args as [|arg0 [|arg1 [|? ?]]]; try (apply Hsend, Ha).
  destruct (hash arg1) as [h|]; [|apply Hsend, Ha].
  rewrite bind_eq. unfold createUser.
  destruct (DB s !! arg0) as [b|] eqn:Hb; cbn [fst snd]; [apply Hsend, Ha|].
  apply Hsend. cbn [DB with_DB]. rewrite lookup_insert_ne; [exact Ha|congruence].
Qed.

(** [priv], [passwd] and [deleteuser] do not check that the account
    exists: issued by an administrator for a name that is not in the
    store, each reports success, and nothing but the connection of the
    issuer has changed; for [deleteuser], whose search for a session to
    kick compares the name with nicknames, this is stated for ASCII text
    and a name that no session carries as its nickname. *)
Theorem missing_account_is_updated_successfully (admin : ptr) (uname : string) (s : State) :
  privilege (deref s admin) = 1 ->
  DB s !! uname = None ->
  (forall level n, Atoi level = Some n ->
     handleChangePrivilege admin [uname; level] s
     = (tt, (sendMessageToUser admin [privUpdated uname] s).2))
  /\ (forall password h, hash password = Some h ->
        handleChangePassword hash admin [uname; password] s
        = (tt, (sendMessageToUser admin
                  ["Password for " +:+ uname +:+ " updated successfully."] s).2))
  /\ (isAscii uname = true ->
      isAscii (username (deref s admin)) = true ->
      asciiNicknames s ->
      EqualFold uname (username (deref s admin)) = false ->
      (FindUser uname s).1 = None ->
      handleDeleteUser admin [uname] s
      = (tt, (sendMessageToUser admin ["User " +:+ uname +:+ " deleted successfully."] s).2)).
Proof.
  intros Hpriv Hmissing.
  assert (Hge : (privilege (deref s admin) <? 1) = false) by (apply privileged; lia).
  assert (Heq : (privilege (deref s admin) =? 1) = true) by (apply Z.eqb_eq; exact Hpriv).
  split; [|split].
  - intros level n Hn. unfold handleChangePrivilege. rewrite bind_eq. unfold load.
    cbn [fst snd]. rewrite Hge, (Atoi_not_admin level n Hn), Hn, bind_eq.
    rewrite updatePrivilege_run. cbn [fst snd].
    rewrite with_DB_same by (apply alter_id; intros x Hx; congruence).
    rewrite bind_eq. reflexivity.
  - intros password h Hh. unfold handleChangePassword. rewrite bind_eq. unfold load.
    cbn [fst snd]. rewrite Heq, bind_eq. unfold changePasswordForUser. rewrite Hh.
    rewrite updatePassword_run. cbn [fst snd].
    rewrite with_DB_same by (apply alter_id; intros x Hx; congruence).
    rewrite bind_eq. reflexivity.
  - intros _ _ _ Hself Hfind. unfold handleDeleteUser. cbv zeta. rewrite bind_eq. unfold load.
    cbn [fst snd]. rewrite Hge, Hself, bind_eq, (FindUser_None s uname Hfind).
    cbn [fst snd]. rewrite bind_eq. unfold ret at 1. cbn [fst snd]. rewrite bind_eq.
    rewrite deleteUser_run. cbn [fst snd].
    rewrite with_DB_same by (apply delete_id; exact Hmissing).
    rewrite bind_eq. reflexivity.
Qed.

(** A change of privilege takes effect at the next login: an
    administrator's [priv] with a number stores it for the account,
    without touching the id, the hash or any other account; the sessions
    that are logged in keep the privilege they have; and a login to the
    account after that gives a session with the new privilege. *)
Theorem priv_takes_effect_at_the_next_login
  (admin : ptr) (uname level password : string) (n : Z) (a : Account) (s : State) :
  1 <= privilege (deref s admin) ->
  DB s !! uname = Some a ->
  Atoi level = Some n ->
  check (acc_hash a) password = true ->
  let s1 := (handleChangePrivilege admin [uname; level] s).2 in
  let login := authenticateUser check uname password s1 in
  DB s1 = <[uname := mkAccount (acc_id a) (acc_hash a) n]> (DB s)
  /\ (forall p, deref s1 p = deref s p)
  /\ login.1 = inl (nextPtr s)
  /\ deref login.2 (nextPtr s) = mkUser (acc_id a) uname n "" 0%nat "".
Proof.
  intros Hpriv Ha Hn Hcheck s1 login.
  assert (Hrun : s1 = (sendMessageToUser admin [privUpdated uname]
                         (with_DB (alter (fun a => mkAccount (acc_id a) (acc_hash a) n) uname)
                            (DBnextId s) s)).2).
  { subst s1. unfold handleChangePrivilege. rewrite bind_eq. unfold load.
    cbn [fst snd]. rewrite (privileged _ _ Hpriv), (Atoi_not_admin level n Hn), Hn, bind_eq.
    rewrite updatePrivilege_run. cbn [fst snd]. rewrite bind_eq. reflexivity. }
  destruct (sendMessageToUser_heap admin [privUpdated uname]
              (with_DB (alter (fun a => mkAccount (acc_id a) (acc_hash a) n) uname)
                 (DBnextId s) s)) as (Hheap & Hnext & HDB & _).
  rewrite <- Hrun in Hheap, Hnext, HDB. cbn [heap nextPtr DB with_DB] in Hheap, Hnext, HDB.
  assert (HDB' : DB s1 = <[uname := mkAccount (acc_id a) (acc_hash a) n]> (DB s)).
  { rewrite HDB. apply map_eq. intros k. destruct (decide (uname = k)) as [<-|Hne].
    - rewrite lookup_alter_eq, lookup_insert_eq, Ha. reflexivity.
    - rewrite lookup_alter_ne, lookup_insert_ne by exact Hne. reflexivity. }
  split; [exact HDB'|]. split; [intros p; unfold deref; rewrite Hheap; reflexivity|].
  subst login. unfold authenticateUser. rewrite HDB', lookup_insert_eq.
  cbn [acc_hash acc_id acc_privilege]. rewrite Hcheck. cbn [fst snd]. rewrite Hnext.
  split; [reflexivity|]. unfold deref. cbn [heap with_heap with_nextPtr].
  rewrite lookup_insert_eq. reflexivity.
Qed.

(** The gates disagree on a negative privilege: [kick] and [shutdown]
    refuse only the privilege 0, the handlers of the other administrative
    commands refuse everything below 1.  A session with a negative
    privilege is refused [createuser], [priv], [deleteuser] and
    [enumusers], but its [kick] reaches [handleKick] and its [shutdown]
    with a valid delay reaches [terminateServer] and ends the
    dispatcher. *)
Theorem negative_privilege_passes_kick_and_shutdown (user : ptr) (s : State) :
  privilege (deref s user) < 0 ->
  (forall name args, In name gatedByHandler ->
     dispatch render hash (mkCmd name (Some user) args) s
     = (Continue, (sendMessageToUser user [ErrPrivilege] s).2))
  /\ (forall arg rest cts, Atoi arg = Some cts -> 0 <= cts ->
        dispatch render hash (mkCmd "shutdown" (Some user) (arg :: rest)) s
        = (Return, (terminateServer render cts s).2))
  /\ (forall target rest,
        dispatch render hash (mkCmd "kick" (Some user) (target :: rest)) s
        = (err <- handleKick target (Join rest " ") user ;; reportKick user err)%go s).
Proof.
  intros Hneg.
  assert (Hlt : (privilege (deref s user) <? 1) = true) by (apply Z.ltb_lt; lia).
  assert (Hne : (privilege (deref s user) =? 0) = false) by (apply Z.eqb_neq; lia).
  split; [|split].
  - intros name args Hin. unfold gatedByHandler in Hin. cbn [In] in Hin.
    destruct Hin as [<-|[<-|[<-|[<-|[]]]]]; unfold dispatch; cbn [cmdUser Command Args];
      rewrite bind_eq;
      [unfold handleCreateUser|unfold handleChangePrivilege|unfold handleDeleteUser
      |unfold handleEnumUsers];
      cbv zeta; rewrite bind_eq; unfold load; cbn [fst snd]; rewrite Hlt;
      rewrite sendMessageToUser_unit; reflexivity.
  - intros arg rest cts Hcts Hpos. unfold dispatch. cbn [cmdUser Command Args].
    rewrite bind_eq. unfold load. cbn [fst snd]. rewrite Hne, Hcts.
    assert (Hge : (cts <? 0) = false) by (apply Z.ltb_ge; exact Hpos).
    rewrite Hge, bind_eq. reflexivity.
  - intros target rest. unfold dispatch. cbn [cmdUser Command Args].
    rewrite bind_eq. unfold load. cbn [fst snd]. rewrite Hne.
    destruct rest; reflexivity.
Qed.

End Accounts.

(** [admin] creates the account [carol]. *)
Lemma created_account_can_log_in_witness :
  let s := Scenario.adminOnline in
  let s1 := (handleCreateUser Scenario.hashOf 2%nat ["carol"; "secret"] s).2 in
  let login := authenticateUser Scenario.hashOk "carol" "secret" s1 in
  DB s1 = <["carol" := mkAccount (DBnextId s) "hash:secret" 0]> (DB s)
  /\ DBnextId s1 = DBnextId s + 1
  /\ login.1 = inl (nextPtr s)
  /\ deref login.2 (nextPtr s) = mkUser (DBnextId s) "carol" 0 "" 0%nat ""
  /\ (forall p, p <> nextPtr s -> deref login.2 p = deref s p)
  /\ forall wrong, Scenario.hashOk "hash:secret" wrong = false ->
       authenticateUser Scenario.hashOk "carol" wrong s1 = (inr "invalid password", s1).
Proof.
  intros s.
  apply (created_account_can_log_in Scenario.hashOf Scenario.hashOk 2%nat "carol" "secret"
           "hash:secret" Scenario.adminOnline); vm_compute; first [reflexivity | discriminate].
Defined.

(** [admin] tries to create [bob] again. *)
Lemma createuser_never_overwrites_witness :
  DB (dispatch Scenario.render Scenario.hashOf
        (mkCmd "createuser" (Some 2%nat) ["bob"; "other"]) Scenario.adminOnline).2 !! "bob"
  = Some (mkAccount 4 "hash:builder" 0).
Proof.
  apply (createuser_never_overwrites Scenario.render Scenario.hashOf 2%nat ["bob"; "other"]
           "bob" (mkAccount 4 "hash:builder" 0) Scenario.adminOnline).
  vm_compute. reflexivity.
Defined.

(** [admin] and the account [dave], which does not exist. *)
Lemma missing_account_is_updated_successfully_witness :
  let s := Scenario.adminOnline in
  (forall level n, Atoi level = Some n ->
     handleChangePrivilege 2%nat ["dave"; level] s
     = (tt, (sendMessageToUser 2%nat [privUpdated "dave"] s).2))
  /\ (forall password h, Scenario.hashOf password = Some h ->
        handleChangePassword Scenario.hashOf 2%nat ["dave"; password] s
        = (tt, (sendMessageToUser 2%nat
                  ["Password for " +:+ "dave" +:+ " updated successfully."] s).2))
  /\ (isAscii "dave" = true ->
      isAscii (username (deref s 2%nat)) = true ->
      asciiNicknames s ->
      EqualFold "dave" (username (deref s 2%nat)) = false ->
      (FindUser "dave" s).1 = None ->
      handleDeleteUser 2%nat ["dave"] s
      = (tt, (sendMessageToUser 2%nat ["User " +:+ "dave" +:+ " deleted successfully."] s).2)).
Proof.
  intros s.
  apply (missing_account_is_updated_successfully Scenario.hashOf 2%nat "dave"
           Scenario.adminOnline); vm_compute; reflexivity.
Defined.

(** [admin] makes [bob] an administrator. *)
Lemma priv_takes_effect_at_the_next_login_witness :
  let s := Scenario.adminOnline in
  let a := mkAccount 4 "hash:builder" 0 in
  let s1 := (handleChangePrivilege 2%nat ["bob"; "1"] s).2 in
  let login := authenticateUser Scenario.hashOk "bob" "builder" s1 in
  DB s1 = <["bob" := mkAccount (acc_id a) (acc_hash a) 1]> (DB s)
  /\ (forall p, deref s1 p = deref s p)
  /\ login.1 = inl (nextPtr s)
  /\ deref login.2 (nextPtr s) = mkUser (acc_id a) "bob" 1 "" 0%nat "".
Proof.
  intros s a.
  apply (priv_takes_effect_at_the_next_login Scenario.hashOk 2%nat "bob" "1" "builder" 1 a
           Scenario.adminOnline); vm_compute; first [reflexivity | discriminate].
Defined.

(** [bob] with the privilege -1. *)
Lemma negative_privilege_passes_kick_and_shutdown_witness :
  let s := Scenario.bobDemoted in
  let user := 3%nat in
  (forall name args, In name gatedByHandler ->
     dispatch Scenario.render Scenario.hashOf (mkCmd name (Some user) args) s
     = (Continue, (sendMessageToUser user [ErrPrivilege] s).2))
  /\ (forall arg rest cts, Atoi arg = Some cts -> 0 <= cts ->
        dispatch Scenario.render Scenario.hashOf (mkCmd "shutdown" (Some user) (arg :: rest)) s
        = (Return, (terminateServer Scenario.render cts s).2))
  /\ (forall target rest,
        dispatch Scenario.render Scenario.hashOf (mkCmd "kick" (Some user) (target :: rest)) s
        = (err <- handleKick target (Join rest " ") user ;; reportKick user err)%go s).
Proof.
  intros s user.
  apply (negative_privilege_passes_kick_and_shutdown Scenario.render Scenario.hashOf 3%nat
           Scenario.bobDemoted).
  vm_compute. reflexivity.
Defined.

(** ** Kicking a session *)

Section Kick.

Variable render : string -> string.
Variable hash : string -> option string.

Lemma FindUser_Some (s : State) (nick : string) (p : ptr) :
  (FindUser nick s).1 = Some p -> FindUser nick s = (Some p, s).
Proof. intros H. rewrite (surjective_pairing (FindUser nick s)), H. reflexivity. Qed.

Lemma EqualFold_sym (s t : string) : EqualFold s t = EqualFold t s.
Proof.
  destruct (EqualFold s t) eqn:E1, (EqualFold t s) eqn:E2; try reflexivity.
  - apply EqualFold_ToLower in E1. symmetry in E1. apply EqualFold_ToLower in E1. congruence.
  - apply EqualFold_ToLower in E2. symmetry in E2. apply EqualFold_ToLower in E2. congruence.
Qed.

Lemma EqualFold_false_trans (s t u : string) :
  EqualFold s t = true -> EqualFold s u = false -> EqualFold t u = false.
Proof.
  intros Hst Hsu. destruct (EqualFold t u) eqn:E; [|reflexivity].
  apply EqualFold_ToLower in Hst, E.
  assert (H : EqualFold s u = true) by (apply EqualFold_ToLower; congruence). congruence.
Qed.

(** The two refusals of [handleKick]. *)
Lemma handleKick_refused (s : State) (admin : ptr) (target reason : string) :
  EqualFold target (nickname (deref s admin)) = true \/ (FindUser target s).1 = None ->
  exists err event,
    handleKick target reason admin s = (Some err, with_log (fun l => l ++ [event]) s)
    /\ err = (if EqualFold target (nickname (deref s admin))
              then "cannot kick yourself" else "user not found").
Proof.
  intros Hcase. unfold handleKick. rewrite bind_eq. unfold load. cbn [fst snd].
  destruct (EqualFold target (nickname (deref s admin))) eqn:Hself.
  - eexists _, _. split; reflexivity.
  - destruct Hcase as [?|Hfind]; [discriminate|].
    rewrite bind_eq, (FindUser_None s target Hfind). cbn [fst snd].
    eexists _, _. split; reflexivity.
Qed.

(** A kick that is refused has no effect on anybody.  On ASCII text (the
    target typed, the nickname of the issuer and the nicknames of the
    registered sessions): when the target is the issuer, under any
    spelling of the nickname, or nobody carries the nickname, the issuer,
    whose privilege is not 0, is told so, and nothing else happens: the
    registry, the [User] objects and every other connection are as
    before, and the dispatcher goes on. *)
Theorem refused_kick_changes_nothing
  (s : State) (admin : ptr) (target : string) (rest : list string) :
  isAscii target = true ->
  isAscii (nickname (deref s admin)) = true ->
  asciiNicknames s ->
  privilege (deref s admin) <> 0 ->
  writableb s (conn (deref s admin)) = true ->
  EqualFold target (nickname (deref s admin)) = true \/ (FindUser target s).1 = None ->
  let r := dispatch render hash (mkCmd "kick" (Some admin) (target :: rest)) s in
  let err := if EqualFold target (nickname (deref s admin))
             then "cannot kick yourself" else "user not found" in
  r.1 = Continue
  /\ users r.2 = users s
  /\ heap r.2 = heap s
  /\ (forall c, c <> conn (deref s admin) -> conns r.2 !! c = conns s !! c)
  /\ exists k, conns s !! conn (deref s admin) = Some k
       /\ conns r.2 !! conn (deref s admin)
          = Some (written k ["Error executing kick command. " +:+ err]).
Proof.
  intros _ _ _ Hpriv Hw Hcase r err.
  destruct (handleKick_refused s admin target (Join rest " ") Hcase) as (e & event & Hrun & He).
  fold err in He. subst e.
  set (s1 := with_log (fun l => l ++ [event]) s) in *.
  set (s2 := (logEvent ("Error in kick command: " +:+ err) s1).2).
  assert (Hw2 : writableb s2 (conn (deref s2 admin)) = true) by exact Hw.
  destruct (unsafeSend_run s2 admin ["Error executing kick command. " +:+ err] Hw2)
    as (k & Hk & _ & _ & Hsend).
  assert (Hr : r = (Continue, with_conns <[conn (deref s admin)
                      := written k ["Error executing kick command. " +:+ err]]> s2)).
  { subst r. unfold dispatch. cbn [cmdUser Command Args].
    rewrite bind_eq. unfold load. cbn [fst snd].
    apply Z.eqb_neq in Hpriv. rewrite Hpriv.
    assert (Hk' : (err0 <- handleKick target (Join rest " ") admin ;; reportKick admin err0) s
                  = (Continue, with_conns <[conn (deref s admin)
                       := written k ["Error executing kick command. " +:+ err]]> s2)).
    { rewrite bind_eq, Hrun. cbn [fst snd]. unfold reportKick.
      rewrite bind_eq. fold s2. rewrite bind_eq. unfold sendMessageToUser.
      rewrite Hsend. reflexivity. }
    destruct rest; exact Hk'. }
  rewrite Hr. cbn [fst snd]. split; [reflexivity|]. split; [reflexivity|].
  split; [reflexivity|]. split.
  - intros c Hc. cbn [conns with_conns]. rewrite lookup_insert_ne by congruence. reflexivity.
  - exists k. split; [exact Hk|]. cbn [conns with_conns]. apply lookup_insert_eq.
Qed.

Lemma connClose_open (s : State) (c : connId) (k : Conn) :
  conns s !! c = Some k -> closed k = false ->
  connClose c s = (None, with_conns <[c := closedConn k]> s).
Proof. intros Hk Hc. unfold connClose. rewrite Hk, Hc. reflexivity. Qed.

Lemma writableb_insert_ne (s : State) (c c0 : connId) (k : Conn) :
  c <> c0 -> writableb (with_conns <[c := k]> s) c0 = writableb s c0.
Proof.
  intros Hne. unfold writableb. cbn [conns with_conns].
  rewrite lookup_insert_ne by exact Hne. reflexivity.
Qed.

Lemma sentKept_closed (s : State) (c : connId) (k : Conn) :
  conns s !! c = Some k -> sentKept s (with_conns <[c := closedConn k]> s).
Proof.
  intros Hk c0 k0 Hk0. cbn [conns with_conns]. destruct (decide (c = c0)) as [<-|Hne].
  - rewrite lookup_insert_eq. rewrite Hk in Hk0. injection Hk0 as <-.
    exists (closedConn k), []. rewrite app_nil_r. auto.
  - rewrite lookup_insert_ne by exact Hne. exists k0, []. rewrite app_nil_r. auto.
Qed.



End Kick.

(** [admin] kicks [Alice], who is not registered under that spelling. *)
Lemma refused_kick_changes_nothing_witness :
  let s := Scenario.bobAndAdmin in
  let r := dispatch Scenario.render Scenario.hashOf
             (mkCmd "kick" (Some 2%nat) ["Alice"; "go"; "away"]) s in
  let err := if EqualFold "Alice" (nickname (deref s 2%nat))
             then "cannot kick yourself" else "user not found" in
  r.1 = Continue
  /\ users r.2 = users s
  /\ heap r.2 = heap s
  /\ (forall c, c <> conn (deref s 2%nat) -> conns r.2 !! c = conns s !! c)
  /\ exists k, conns s !! conn (deref s 2%nat) = Some k
       /\ conns r.2 !! conn (deref s 2%nat)
          = Some (written k ["Error executing kick command. " +:+ err]).
Proof.
  intros s.
  apply (refused_kick_changes_nothing Scenario.render Scenario.hashOf Scenario.bobAndAdmin
           2%nat "Alice" ["go"; "away"]).
  - vm_compute. reflexivity.
  - vm_compute. reflexivity.
  - apply asciiNicknamesb_true. vm_compute. reflexivity.
  - vm_compute. discriminate.
  - vm_compute. reflexivity.
  - right. vm_compute. reflexivity.
Defined.


(** ** Leaving, and whispering *)

Section Sessions.

Variable render : string -> string.
Variable hash : string -> option string.

Lemma sendMessageToUser_writable (s : State) (p : ptr) (msgs : list string) :
  writableb s (conn (deref s p)) = true ->
  exists s1, sendMessageToUser p msgs s = (None, s1)
    /\ users s1 = users s /\ grows s s1 /\ delivered s s1 (conn (deref s p)) msgs.
Proof.
  intros Hw. destruct (unsafeSend_writable s p msgs Hw) as (Hres & Hu & Hg & Hd).
  exists (unsafeSendMessageToUser p msgs s).2. split; [|auto].
  unfold sendMessageToUser.
  rewrite (surjective_pairing (unsafeSendMessageToUser p msgs s)), Hres. reflexivity.
Qed.


(** A private message to another session: the sender reads the echo,
    the target reads the whisper, and the target is marked with the
    nickname of the sender, so that its next [r] is a private message to
    that nickname.  The registry and every other [User] object are as
    before. *)
Theorem whisper_sets_up_the_reply
  (s : State) (sender t : ptr) (target w : string) (ws : list string) :
  (FindUser target s).1 = Some t ->
  t <> sender ->
  writableb s (conn (deref s sender)) = true ->
  writableb s (conn (deref s t)) = true ->
  Trim (Join (w :: ws) " ") " " <> "" ->
  let msg := Join (w :: ws) " " in
  let sn := deref s sender in
  let tu := deref s t in
  let r := dispatch render hash (mkCmd "msg" (Some sender) (target :: w :: ws)) s in
  r.1 = Continue
  /\ users r.2 = users s
  /\ delivered s r.2 (conn sn)
       [render ("<w>You whisper to " +:+ nickname tu +:+ ": " +:+ msg +:+ "</w>")]
  /\ delivered s r.2 (conn tu) [whisperLine render sn false msg]
  /\ deref r.2 t = mkUser (uid tu) (username tu) (privilege tu) (nickname tu) (conn tu)
                     (nickname sn)
  /\ (forall p, p <> t -> deref r.2 p = deref s p)
  /\ (nickname sn <> "" -> forall reply, Trim (Join reply " ") " " <> "" ->
        dispatch render hash (mkCmd "r" (Some t) reply) r.2
        = (Continue,
           (handlePrivateMessage render t true (nickname sn) (Join reply " ") r.2).2)).
Proof.
  intros Hfind Hne Hws Hwt Hmsg msg0 sn0 tu0 r. subst msg0 sn0 tu0.
  set (msg := Join (w :: ws) " ") in *.
  set (sn := deref s sender) in *. set (tu := deref s t) in *.
  set (echo := render ("<w>You " +:+ "whisper" +:+ " to " +:+ nickname tu +:+ ": "
                       +:+ msg +:+ "</w>")).
  destruct (sendMessageToUser_writable s sender [echo] Hws) as (s1 & Hsend1 & Hu1 & Hg1 & Hd1).
  assert (Hwt1 : writableb s1 (conn (deref s1 t)) = true).
  { rewrite (grows_deref _ _ t Hg1). destruct Hg1 as (_ & Hwb & _). rewrite Hwb. exact Hwt. }
  destruct (sendMessageToUser_writable s1 t [whisperLine render sn false msg] Hwt1)
    as (s2 & Hsend2 & Hu2 & Hg2 & Hd2).
  rewrite (grows_deref _ _ t Hg1) in Hd2. fold tu in Hd2.
  assert (Hg : grows s s2) by (eapply grows_trans; eassumption).
  assert (Hsnd2 : deref s2 sender = sn) by apply (grows_deref _ _ sender Hg).
  assert (Hsnd1 : deref s1 sender = sn) by apply (grows_deref _ _ sender Hg1).
  set (s3 := (set_lastMsgFrom t (nickname sn) s2).2).
  assert (Hpm : handlePrivateMessage render sender false target msg s = (tt, s3)).
  { unfold handlePrivateMessage. rewrite bind_eq, (FindUser_Some s target t Hfind).
    change ((Some t, s).1) with (Some t). change ((Some t, s).2) with s. cbv iota.
    assert (Hneb : Nat.eqb sender t = false) by (apply Nat.eqb_neq; congruence).
    rewrite Hneb. cbv zeta. rewrite bind_eq. change (load t s) with (tu, s).
    change ((tu, s).1) with tu. change ((tu, s).2) with s.
    fold echo. rewrite bind_eq, Hsend1.
    change ((@None string, s1).2) with s1.
    rewrite bind_eq. change (load sender s1) with (deref s1 sender, s1).
    change ((deref s1 sender, s1).1) with (deref s1 sender).
    change ((deref s1 sender, s1).2) with s1.
    rewrite Hsnd1, bind_eq.
    assert (Hsend2' :
              (if privilege sn =? 1
               then sendMessageToUser t
                      [render ("<aw>" +:+ nickname sn +:+ " (admin) " +:+ "whispers" +:+ ": "
                               +:+ msg +:+ "</ww>")]
               else sendMessageToUser t
                      [render ("<w>" +:+ nickname sn +:+ " " +:+ "whispers" +:+ ": "
                               +:+ msg +:+ "</w>")]) s1 = (None, s2)).
    { rewrite <- Hsend2. unfold whisperLine. destruct (privilege sn =? 1); reflexivity. }
    rewrite Hsend2'. change ((@None string, s2).2) with s2. rewrite bind_eq.
    change (load sender s2) with (deref s2 sender, s2).
    change ((deref s2 sender, s2).1) with (deref s2 sender).
    change ((deref s2 sender, s2).2) with s2.
    rewrite Hsnd2. reflexivity. }
  assert (Hr : r = (Continue, s3)).
  { subst r. unfold dispatch. cbn [cmdUser Command Args]. fold msg.
    destruct (String.eqb_spec (Trim msg " ") "") as [?|_]; [contradiction|].
    rewrite bind_eq, Hpm. reflexivity. }
  rewrite Hr. cbn [fst snd].
  assert (Hheap3 : heap s3 = <[t := mkUser (uid tu) (username tu) (privilege tu) (nickname tu)
                                      (conn tu) (nickname sn)]> (heap s)).
  { unfold s3, set_lastMsgFrom, modify, with_heap. cbn [snd heap]. cbv zeta.
    destruct Hg as (Hh & _). rewrite Hh. reflexivity. }
  assert (Hkept3 : sentKept s2 s3) by (apply sentKept_same_conns; reflexivity).
  split; [reflexivity|]. split; [|split; [|split; [|split; [|split]]]].
  - change (users s2 = users s). rewrite Hu2. exact Hu1.
  - apply (delivered_then_kept s s1); [exact Hd1|].
    apply (sentKept_trans s1 s2); [apply grows_sentKept, Hg2|exact Hkept3].
  - apply (delivered_then_kept s s2); [|exact Hkept3].
    apply (grows_then_delivered s s1); [exact Hg1|exact Hd2|].
    destruct (writableb_Some _ _ Hwt) as (kt & Hkt & _). eauto.
  - unfold deref at 1. rewrite Hheap3, lookup_insert_eq. reflexivity.
  - intros p Hp. unfold deref. rewrite Hheap3, lookup_insert_ne by congruence. reflexivity.
  - intros Hnick reply Hreply. unfold dispatch. cbn [cmdUser Command Args].
    rewrite bind_eq. change (load t s3) with (deref s3 t, s3). cbn [fst snd].
    assert (Hlast : lastMsgFrom (deref s3 t) = nickname sn).
    { unfold deref at 1. rewrite Hheap3, lookup_insert_eq. reflexivity. }
    rewrite Hlast.
    destruct (String.eqb_spec (nickname sn) "") as [?|_]; [contradiction|].
    destruct (String.eqb_spec (Trim (Join reply " ") " ") "") as [?|_]; [contradiction|].
    rewrite bind_eq. reflexivity.
Qed.

End Sessions.


(** [admin] whispers to [bob]. *)
Lemma whisper_sets_up_the_reply_witness :
  let s := Scenario.bobAndAdmin in
  let msg := Join ["see"; "you"] " " in
  let sn := deref s 2%nat in
  let tu := deref s 1%nat in
  let r := dispatch Scenario.render Scenario.hashOf
             (mkCmd "msg" (Some 2%nat) ["Bob"; "see"; "you"]) s in
  r.1 = Continue
  /\ users r.2 = users s
  /\ delivered s r.2 (conn sn)
       [Scenario.render ("<w>You whisper to " +:+ nickname tu +:+ ": " +:+ msg +:+ "</w>")]
  /\ delivered s r.2 (conn tu) [whisperLine Scenario.render sn false msg]
  /\ deref r.2 1%nat = mkUser (uid tu) (username tu) (privilege tu) (nickname tu) (conn tu)
                         (nickname sn)
  /\ (forall p, p <> 1%nat -> deref r.2 p = deref s p)
  /\ (nickname sn <> "" -> forall reply, Trim (Join reply " ") " " <> "" ->
        dispatch Scenario.render Scenario.hashOf (mkCmd "r" (Some 1%nat) reply) r.2
        = (Continue,
           (handlePrivateMessage Scenario.render 1%nat true (nickname sn)
              (Join reply " ") r.2).2)).
Proof.
  intros s.
  apply (whisper_sets_up_the_reply Scenario.render Scenario.hashOf Scenario.bobAndAdmin
           2%nat 1%nat "Bob" "see" ["you"]).
  - vm_compute. reflexivity.
  - discriminate.
  - vm_compute. reflexivity.
  - vm_compute. reflexivity.
  - vm_compute. discriminate.
Defined.

(** ** The shutdown itself *)

Section Shutdown.

Variable render : string -> string.

Lemma unsafeSendSysMessageToUser_eq (user : ptr) (msgs : list string) (s : State) :
  unsafeSendSysMessageToUser render user msgs s
  = unsafeSendMessageToUser user
      ((fun msg => render ("<sys>" +:+ msg +:+ "</sys>")) <$> msgs) s.
Proof.
  unfold unsafeSendSysMessageToUser, unsafeSendMessageToUser, sendSysMessageToConn,
    sendMessageToConn.
  rewrite length_fmap. reflexivity.
Qed.

Lemma broadcastSysMessage_reaches (s : State) (msgs : list string) :
  keyed s ->
  let s' := (broadcastSysMessage render msgs s).2 in
  let lines := (fun msg => render ("<sys>" +:+ msg +:+ "</sys>")) <$> msgs in
  (forall key p, users s !! key = Some p ->
     if writableb s (conn (deref s p))
     then users s' !! key = Some p /\ delivered s s' (conn (deref s p)) lines
     else users s' !! key = None)
  /\ (forall key, users s !! key = None -> users s' !! key = None)
  /\ grows s s'.
Proof.
  intros Hkeyed s' lines. subst s'. unfold broadcastSysMessage, rangeUsers.
  destruct (registry_keys s) as [Hnd Hall].
  assert (Hbody : forall s0 p,
            (fun user => unsafeSendSysMessageToUser render user msgs ;; ret tt) p s0
            = if (fun _ : User => false) (deref s0 p) then (tt, s0)
              else (tt, (unsafeSendMessageToUser p lines s0).2)).
  { intros s0 p. cbv beta. rewrite bind_eq, unsafeSendSysMessageToUser_eq. reflexivity. }
  destruct (rangeKeys_broadcast (fun _ => false) lines
              (fun user => unsafeSendSysMessageToUser render user msgs ;; ret tt) Hbody
              _ s Hnd Hkeyed) as (Hg & _ & Hnone & Hin).
  cbn zeta in *. split; [|split; [exact Hnone|exact Hg]].
  intros key p Hp. exact (Hin key p (Hall key p Hp) Hp).
Qed.



(** One pass of the loop that closes the connections. *)
Lemma close_one (s : State) (p : ptr) :
  let body := fun user : ptr =>
    (u <- load user ;;
     err <- connClose (conn u) ;;
     match err with
     | Some e => logEvent ("Error closing connection for user " +:+ nickname u +:+ ": " +:+ e)
     | None => ret tt
     end)%go in
  let s1 := (body p s).2 in
  users s1 = users s /\ core s1 = core s /\ sentKept s s1
  /\ (forall c, writableb s c = false -> writableb s1 c = false)
  /\ writableb s1 (conn (deref s p)) = false.
Proof.
  cbv beta zeta. rewrite bind_eq. change (load p s) with (deref s p, s). cbn [fst snd].
  rewrite bind_eq. unfold connClose.
  destruct (conns s !! conn (deref s p)) as [k|] eqn:Hk.
  - destruct (closed k) eqn:Hc; cbn [fst snd].
    + split; [reflexivity|]. split; [reflexivity|].
      split; [apply sentKept_same_conns; reflexivity|]. split; [auto|].
      unfold writableb. cbn [logEvent modify snd conns with_log]. rewrite Hk, Hc. reflexivity.
    + split; [reflexivity|]. split; [reflexivity|]. split; [apply sentKept_closed, Hk|].
      split.
      * intros c Hw. unfold writableb in *. cbn [ret snd conns with_conns].
        destruct (decide (conn (deref s p) = c)) as [<-|Hne].
        -- rewrite lookup_insert_eq. reflexivity.
        -- rewrite lookup_insert_ne by exact Hne. exact Hw.
      * unfold writableb. cbn [ret snd conns with_conns]. rewrite lookup_insert_eq. reflexivity.
  - cbn [fst snd]. split; [reflexivity|]. split; [reflexivity|].
    split; [apply sentKept_same_conns; reflexivity|]. split; [auto|].
    unfold writableb. cbn [logEvent modify snd conns with_log]. rewrite Hk. reflexivity.
Qed.

Lemma close_all (keys : list string) (s : State) :
  let body := fun user : ptr =>
    (u <- load user ;;
     err <- connClose (conn u) ;;
     match err with
     | Some e => logEvent ("Error closing connection for user " +:+ nickname u +:+ ": " +:+ e)
     | None => ret tt
     end)%go in
  let s' := (rangeKeys keys body s).2 in
  users s' = users s /\ core s' = core s /\ sentKept s s'
  /\ (forall c, writableb s c = false -> writableb s' c = false)
  /\ (forall key p, key ∈ keys -> users s !! key = Some p ->
        writableb s' (conn (deref s p)) = false).
Proof.
  intros body. revert s. induction keys as [|k keys IH]; intros s.
  - cbn. split; [reflexivity|]. split; [reflexivity|]. split; [apply sentKept_refl|].
    split; [auto|]. intros key p Hin. inversion Hin.
  - cbn [rangeKeys]. destruct (users s !! k) as [p|] eqn:Hp.
    + rewrite bind_eq.
      set (s1 := (body p s).2).
      assert (H1 : users s1 = users s /\ core s1 = core s /\ sentKept s s1
                   /\ (forall c, writableb s c = false -> writableb s1 c = false)
                   /\ writableb s1 (conn (deref s p)) = false) by exact (close_one s p).
      destruct H1 as (Hu1 & Hcore1 & Hkept1 & Hstay1 & Hclosed1).
      destruct (IH s1) as (Hu & Hcore & Hkept & Hstay & Hall). cbv zeta in *.
      assert (Hderef : forall q, deref s1 q = deref s q).
      { intros q. unfold deref. unfold core in Hcore1. injection Hcore1 as Hh _ _ _ _ _ _ _.
        rewrite Hh. reflexivity. }
      split; [congruence|]. split; [congruence|].
      split; [eapply sentKept_trans; eassumption|]. split; [auto|].
      intros key q Hkey Hq. apply elem_of_cons in Hkey as [->|Hkey].
      * rewrite Hp in Hq. injection Hq as <-. apply Hstay. exact Hclosed1.
      * rewrite <- Hderef. apply (Hall key q Hkey). rewrite Hu1. exact Hq.
    + destruct (IH s) as (Hu & Hcore & Hkept & Hstay & Hall). cbv zeta in *.
      split; [exact Hu|]. split; [exact Hcore|]. split; [exact Hkept|]. split; [exact Hstay|].
      intros key q Hkey Hq. apply elem_of_cons in Hkey as [->|Hkey]; [congruence|].
      apply (Hall key q Hkey Hq).
Qed.

(** [terminateServerNow], once the closing goroutines have run: the
    server is marked as shutting down, the listener and the channel of
    commands are closed, and no session that is still registered has a
    connection that takes writes.  Before that, every session registered
    under its nickname whose connection took writes has read the notice.
    The [User] objects, the accounts and the goroutines are untouched. *)
Theorem terminateServerNow_closes_every_session (s : State) :
  keyed s ->
  let s' := (terminateServerNow render s).2 in
  shutdownOngoing s' = true /\ listenerClosed s' = true /\ commandsClosed s' = true
  /\ (forall key p, users s' !! key = Some p -> writableb s' (conn (deref s' p)) = false)
  /\ (forall key p, users s !! key = Some p -> writableb s (conn (deref s p)) = true ->
        users s' !! key = Some p /\ delivered s s' (conn (deref s p)) [shutdownNow render])
  /\ heap s' = heap s /\ accounts s' = accounts s /\ goroutines s' = goroutines s.
Proof.
  intros Hkeyed s'.
  set (msg := "System Notice: ChatServer is shutting down NOW. Please reconnect later.").
  set (s0 := with_shutdownOngoing true s).
  set (sB := (broadcastSysMessage render [msg] s0).2).
  set (sL := (logEvent msg sB).2).
  set (sC := with_commandsClosed true
               (if listenerClosed sL
                then (logEvent ("Error closing listener: " +:+ ErrClosedConn) sL).2
                else with_listenerClosed true sL)).
  set (body := fun user : ptr =>
    (u <- load user ;;
     err <- connClose (conn u) ;;
     match err with
     | Some e => logEvent ("Error closing connection for user " +:+ nickname u +:+ ": " +:+ e)
     | None => ret tt
     end)%go).
  set (sF := (rangeUsers body sC).2).
  assert (Hrun : s' = (logEvent "All connections closed gracefully." sF).2).
  { subst s'. unfold terminateServerNow. rewrite bind_eq. cbv zeta. fold msg.
    change (modify (with_shutdownOngoing true) s) with (tt, s0). cbn [fst snd].
    rewrite bind_eq. fold sB. rewrite bind_eq. fold sL. rewrite bind_eq.
    change (get sL) with (sL, sL). cbn [fst snd]. rewrite bind_eq, bind_eq.
    assert (HC : (modify (with_commandsClosed true)
                    ((if listenerClosed sL
                      then logEvent ("Error closing listener: " +:+ ErrClosedConn)
                      else modify (with_listenerClosed true)) sL).2) = (tt, sC)).
    { unfold sC. destruct (listenerClosed sL); reflexivity. }
    rewrite HC. cbn [fst snd]. rewrite bind_eq. reflexivity. }
  assert (Hkeyed0 : keyed s0) by exact Hkeyed.
  destruct (broadcastSysMessage_reaches s0 [msg] Hkeyed0) as (Hin & Hnone & Hg).
  cbv zeta in Hin, Hnone, Hg. fold sB in Hin, Hnone, Hg.
  pose proof (keeps_broadcastSysMessage render core ltac:(reflexivity) ltac:(reflexivity)
                ltac:(reflexivity) [msg] s0) as HcoreB.
  fold sB in HcoreB.
  assert (HusersC : users sC = users sB).
  { unfold sC. destruct (listenerClosed sL); reflexivity. }
  assert (HconnsC : conns sC = conns sB).
  { unfold sC. destruct (listenerClosed sL); reflexivity. }
  assert (HheapC : heap sC = heap s).
  { transitivity (heap sB); [unfold sC; destruct (listenerClosed sL); reflexivity|].
    apply Hg. }
  assert (HflagsC : shutdownOngoing sC = true /\ listenerClosed sC = true
                    /\ commandsClosed sC = true /\ accounts sC = accounts s
                    /\ goroutines sC = goroutines s).
  { unfold core in HcoreB. injection HcoreB as _ _ HDB Hid Hso _ _ Hgo.
    assert (Hso' : shutdownOngoing sB = true) by exact Hso.
    assert (Hacc' : accounts sB = accounts s) by (unfold accounts; congruence).
    assert (Hgo' : goroutines sB = goroutines s) by exact Hgo.
    unfold sC. destruct (listenerClosed sL) eqn:Hl.
    - split; [exact Hso'|]. split; [exact Hl|]. split; [reflexivity|].
      split; [exact Hacc'|exact Hgo'].
    - split; [exact Hso'|]. split; [reflexivity|]. split; [reflexivity|].
      split; [exact Hacc'|exact Hgo']. }
  assert (HF : users sF = users sC /\ core sF = core sC /\ sentKept sC sF
               /\ (forall c, writableb sC c = false -> writableb sF c = false)
               /\ (forall key p, key ∈ (map_to_list (users sC)).*1 ->
                     users sC !! key = Some p -> writableb sF (conn (deref sC p)) = false))
    by exact (close_all (map_to_list (users sC)).*1 sC).
  destruct HF as (HuF & HcoreF & HkeptF & _ & HallF).
  assert (HhF : heap sF = heap sC) by exact (f_equal (fun x => x.1.1.1.1) HcoreF).
  assert (HaccF : accounts sF = accounts sC) by exact (f_equal (fun x => x.1.1.2) HcoreF).
  assert (HsoF : shutdownOngoing sF = shutdownOngoing sC)
    by exact (f_equal (fun x => x.1.2.1.1) HcoreF).
  assert (HlcF : listenerClosed sF = listenerClosed sC)
    by exact (f_equal (fun x => x.1.2.1.2) HcoreF).
  assert (HccF : commandsClosed sF = commandsClosed sC)
    by exact (f_equal (fun x => x.1.2.2) HcoreF).
  assert (HgoF : goroutines sF = goroutines sC) by exact (f_equal (fun x => x.2) HcoreF).
  destruct HflagsC as (H1 & H2 & H3 & H4 & H5).
  rewrite Hrun.
  change (shutdownOngoing sF = true /\ listenerClosed sF = true /\ commandsClosed sF = true
          /\ (forall key p, users sF !! key = Some p ->
                writableb sF (conn (deref sF p)) = false)
          /\ (forall key p, users s !! key = Some p ->
                writableb s (conn (deref s p)) = true ->
                users sF !! key = Some p
                /\ delivered s (logEvent "All connections closed gracefully." sF).2
                     (conn (deref s p)) [shutdownNow render])
          /\ heap sF = heap s /\ accounts sF = accounts s /\ goroutines sF = goroutines s).
  split; [congruence|]. split; [congruence|]. split; [congruence|].
  split; [|split; [|split; [|split]]].
  - intros key p Hp. rewrite HuF in Hp.
    assert (Hd : forall st, heap st = heap sC -> deref st p = deref sC p).
    { intros st Hst. unfold deref. rewrite Hst. reflexivity. }
    rewrite (Hd _ HhF).
    apply (HallF key p); [|exact Hp]. apply (proj2 (registry_keys sC) key p Hp).
  - intros key p Hp Hw. specialize (Hin key p Hp).
    change (deref s0 p) with (deref s p) in Hin.
    change (writableb s0 (conn (deref s p))) with (writableb s (conn (deref s p))) in Hin.
    rewrite Hw in Hin. destruct Hin as [HpB Hdel].
    split; [rewrite HuF, HusersC; exact HpB|].
    apply (delivered_then_kept s sB); [exact Hdel|].
    apply (sentKept_trans sB sC); [apply sentKept_same_conns; exact HconnsC|].
    apply (sentKept_trans sC sF); [exact HkeptF|apply sentKept_same_conns; reflexivity].
  - rewrite HhF. exact HheapC.
  - rewrite HaccF. exact H4.
  - rewrite HgoF. exact H5.
Qed.

End Shutdown.

(** [bob] and [admin] are logged in when the server shuts down. *)
Lemma terminateServerNow_closes_every_session_witness :
  let s := Scenario.bobAndAdmin in
  let s' := (terminateServerNow Scenario.render s).2 in
  shutdownOngoing s' = true /\ listenerClosed s' = true /\ commandsClosed s' = true
  /\ (forall key p, users s' !! key = Some p -> writableb s' (conn (deref s' p)) = false)
  /\ (forall key p, users s !! key = Some p -> writableb s (conn (deref s p)) = true ->
        users s' !! key = Some p
        /\ delivered s s' (conn (deref s p)) [shutdownNow Scenario.render])
  /\ heap s' = heap s /\ accounts s' = accounts s /\ goroutines s' = goroutines s.
Proof.
  intros s.
  apply (terminateServerNow_closes_every_session Scenario.render Scenario.bobAndAdmin).
  apply keyedb_true. vm_compute. reflexivity.
Defined.


(** ** Logging in *)

Section LoggingIn.

Variable check : string -> string -> bool.

Lemma connWrite_run (s : State) (c : connId) (lines : list string) :
  writableb s c = true ->
  exists k, conns s !! c = Some k /\ closed k = false /\ broken k = false
    /\ connWrite c lines s = (None, with_conns <[c := written k lines]> s).
Proof.
  intros Hw. destruct (writableb_Some _ _ Hw) as (k & Hk & Hc & Hb).
  exists k. split; [exact Hk|]. split; [exact Hc|]. split; [exact Hb|].
  unfold connWrite. rewrite Hk, Hc, Hb. reflexivity.
Qed.

Lemma connWrite_written (s : State) (c : connId) (k : Conn) (lines : list string) :
  conns s !! c = Some k -> closed k = false -> broken k = false ->
  connWrite c lines s = (None, with_conns <[c := written k lines]> s).
Proof. intros Hk Hc Hb. unfold connWrite. rewrite Hk, Hc, Hb. reflexivity. Qed.

Lemma queryNicknameWithTimeout_nothing_in_time (next : option Input) :
  (forall i, next = Some i -> loginTimeout <= arrivalOf i) ->
  queryNicknameWithTimeout 0 next = (inr "timeout", loginTimeout).
Proof.
  intros Hlate. unfold queryNicknameWithTimeout, readString.
  destruct next as [[t text|t e]|]; [| |reflexivity].
  - specialize (Hlate _ eq_refl). cbn [arrivalOf] in Hlate.
    destruct (Z.ltb_spec (Z.max 0 t) loginTimeout) as [?|_]; [unfold loginTimeout in *; lia|].
    reflexivity.
  - specialize (Hlate _ eq_refl). cbn [arrivalOf] in Hlate.
    destruct (Z.ltb_spec (Z.max 0 t) loginTimeout) as [?|_]; [unfold loginTimeout in *; lia|].
    reflexivity.
Qed.

(** A handler that receives nothing before the login timer fires,
    whatever reaches it later, gives up when the timer fires: it writes
    that the login period is over and closes its connection, on which it
    has written the prompt and this message and nothing else.  It
    registers nobody, creates no [User] object and touches no other
    connection.  For a login that runs alone, this is the client that
    sends nothing in time. *)
Theorem silent_client_is_timed_out (c : connId) (input : list Input) (s : State) :
  writableb s c = true ->
  (forall i, head input = Some i -> loginTimeout <= arrivalOf i) ->
  let r := handleNewClient check c input s in
  r.1 = (LoginTimeout, loginTimeout)
  /\ users r.2 = users s
  /\ core r.2 = core s
  /\ (forall c', c' <> c -> conns r.2 !! c' = conns s !! c')
  /\ exists k, conns s !! c = Some k
       /\ conns r.2 !! c
          = Some (closedConn (written (written k [usernamePrompt]) [loginExpired])).
Proof.
  intros Hw Hlate r.
  destruct (connWrite_run s c [usernamePrompt] Hw) as (k & Hk & Hc & Hb & Hw1).
  set (s1 := with_conns <[c := written k [usernamePrompt]]> s) in *.
  set (s2 := (logEvent loginExpired s1).2).
  assert (Hw2 : connWrite c [loginExpired] s2
                = (None, with_conns <[c := written (written k [usernamePrompt])
                                              [loginExpired]]> s2)).
  { apply connWrite_written; [|reflexivity|reflexivity].
    unfold s2, s1. cbn [logEvent modify snd conns with_log with_conns].
    apply lookup_insert_eq. }
  set (s3 := with_conns <[c := written (written k [usernamePrompt]) [loginExpired]]> s2) in *.
  assert (Hclose : connClose c s3
                   = (None, with_conns <[c := closedConn (written (written k [usernamePrompt])
                                                            [loginExpired])]> s3)).
  { apply connClose_open; [|reflexivity]. unfold s3. cbn [conns with_conns].
    apply lookup_insert_eq. }
  assert (Hattempts : loginAttempts check maxLoginAttempts c input 0 s1
                      = ((LoginTimeout, loginTimeout), s3)).
  { unfold maxLoginAttempts. cbn [loginAttempts].
    change (loginTimeout <=? 0) with false. cbv iota.
    rewrite (queryNicknameWithTimeout_nothing_in_time (head input) Hlate).
    change (String.eqb "timeout" "timeout") with true. cbv iota.
    assert (Hs2 : sendMessageToConn c [loginExpired] s2 = (None, s3)) by exact Hw2.
    unfold loginPeriodExceeded. cbv zeta. rewrite bind_eq. fold loginExpired. fold s2.
    rewrite bind_eq, Hs2. reflexivity. }
  assert (Hr : r = ((LoginTimeout, loginTimeout),
                    with_conns <[c := closedConn (written (written k [usernamePrompt])
                                                    [loginExpired])]> s3)).
  { assert (Hp : sendMessageToConn c [usernamePrompt] s = (None, s1)) by exact Hw1.
    subst r. unfold handleNewClient. rewrite bind_eq. fold usernamePrompt.
    rewrite Hp. cbn [fst snd].
    rewrite bind_eq, Hattempts. cbn [fst snd]. rewrite bind_eq, Hclose. reflexivity. }
  rewrite Hr. cbn [fst snd]. split; [reflexivity|]. split; [reflexivity|].
  split; [reflexivity|]. split.
  - intros c' Hc'. unfold s3, s2, s1.
    cbn [logEvent modify snd conns with_log with_conns].
    rewrite !lookup_insert_ne by congruence. reflexivity.
  - exists k. split; [exact Hk|]. cbn [conns with_conns]. apply lookup_insert_eq.
Qed.

Lemma typed_name_in_time (now t : Z) (nick : string) :
  validateNickname nick = None -> Z.max now t < loginTimeout ->
  queryNicknameWithTimeout now (Some (Line t (nick +:+ crlf))) = (inl nick, Z.max now t).
Proof.
  intros Hv Ht.
  assert (Hclean : sanitizeNickname (TrimRight (nick +:+ crlf) spaceCRLF) = nick).
  { rewrite TrimRight_app_inside by reflexivity.
    destruct (valid_nickname_kept nick Hv) as (_ & Hs & Htr & _). rewrite Htr. exact Hs. }
  rewrite (queryNicknameWithTimeout_in_time now t (nick +:+ crlf) Ht);
    [rewrite Hclean; reflexivity|rewrite Hclean; exact Hv].
Qed.

Lemma written_written (k : Conn) (l1 l2 : list string) :
  written (written k l1) l2 = written k (l1 ++ l2).
Proof. unfold written. cbn [sent remoteAddr]. rewrite app_assoc. reflexivity. Qed.

Lemma authenticateUser_refuses (uname pw : string) (s : State) :
  match DB s !! uname with
  | None => true
  | Some acc => negb (check (acc_hash acc) pw)
  end = true ->
  exists e, authenticateUser check uname pw s = (inr e, s).
Proof.
  unfold authenticateUser. destruct (DB s !! uname) as [acc|]; [|eauto].
  rewrite negb_true_iff. intros ->. eauto.
Qed.

(** A run of attempts that all fail uses the attempts up. *)
Lemma loginAttempts_refused (c : connId) (attempts : list Attempt) :
  forall (now : Z) (s : State) (k : Conn),
    conns s !! c = Some k -> closed k = false -> broken k = false ->
    0 <= now < loginTimeout ->
    forallb (fails check s) attempts = true ->
    let r := loginAttempts check (length attempts) c (arrivals attempts) now s in
    r.1.1 = LoginAttemptsExhausted
    /\ users r.2 = users s /\ core r.2 = core s
    /\ (forall c', c' <> c -> conns r.2 !! c' = conns s !! c')
    /\ conns r.2 !! c = Some (written k (refusals attempts ++ [loginExhausted])).
Proof.
  induction attempts as [|a rest IH]; intros now s k Hk Hc Hb Hnow Hfail.
  - cbn [length arrivals flat_map loginAttempts refusals app]. cbv zeta.
    rewrite bind_eq. fold loginExhausted.
    set (s1 := (logEvent loginExhausted s).2).
    assert (Hs1 : sendMessageToConn c [loginExhausted] s1
                  = (None, with_conns <[c := written k [loginExhausted]]> s1))
      by exact (connWrite_written s1 c k [loginExhausted] Hk Hc Hb).
    rewrite bind_eq, Hs1. cbn [fst snd ret].
    split; [reflexivity|]. split; [reflexivity|]. split; [reflexivity|]. split.
    + intros c' Hc'. cbn [conns with_conns]. rewrite lookup_insert_ne by congruence.
      reflexivity.
    + cbn [conns with_conns]. apply lookup_insert_eq.
  - cbn [forallb] in Hfail. apply andb_true_iff in Hfail as [Ha Hrest].
    unfold fails in Ha. rewrite !andb_true_iff in Ha.
    destruct Ha as [[[[[[Hn0 Hn1] Hp0] Hp1] Hvalid] _] Hstore].
    apply Z.leb_le in Hn0, Hp0. apply Z.ltb_lt in Hn1, Hp1.
    destruct (validateNickname (nameTyped a)) eqn:Hv; [discriminate|]. clear Hvalid.
    set (t1 := Z.max now (nameAt a)). set (t2 := Z.max t1 (passwordAt a)).
    assert (Ht1 : t1 < loginTimeout) by (unfold t1; lia).
    assert (Ht2 : 0 <= t2 < loginTimeout) by (unfold t2, t1; lia).
    set (s1 := with_conns <[c := written k [passwordPrompt]]> s).
    set (k2 := written (written k [passwordPrompt]) [loginRefused]).
    set (s2 := with_conns <[c := k2]> s1).
    assert (Hk2 : conns s2 !! c = Some k2).
    { unfold s2. cbn [conns with_conns]. apply lookup_insert_eq. }
    assert (Hrest2 : forallb (fails check s2) rest = true) by exact Hrest.
    specialize (IH t2 s2 k2 Hk2 eq_refl eq_refl Ht2 Hrest2).
    destruct (authenticateUser_refuses (nameTyped a) (TrimSpace (passwordTyped a +:+ crlf)) s1
                Hstore) as [e He].
    assert (Hstep : loginAttempts check (length (a :: rest)) c (arrivals (a :: rest)) now s
                    = loginAttempts check (length rest) c (arrivals rest) t2 s2).
    { cbn [length arrivals flat_map app loginAttempts head tail].
      destruct (Z.leb_spec loginTimeout now) as [?|_]; [lia|].
      rewrite (typed_name_in_time now (nameAt a) (nameTyped a) Hv Ht1).
      assert (Hs1 : sendMessageToConn c [passwordPrompt] s = (None, s1))
        by exact (connWrite_written s c k [passwordPrompt] Hk Hc Hb).
      assert (Hs2 : sendMessageToConn c [loginRefused] s1 = (None, s2)).
      { apply (connWrite_written s1 c (written k [passwordPrompt]) [loginRefused]);
          [|reflexivity|reflexivity].
        unfold s1. cbn [conns with_conns]. apply lookup_insert_eq. }
      rewrite bind_eq. fold passwordPrompt. rewrite Hs1. cbn [fst snd].
      cbn [readString]. fold t1. fold t2.
      rewrite bind_eq, He. cbn [fst snd]. rewrite bind_eq. fold loginRefused.
      rewrite Hs2. reflexivity. }
    cbv zeta. rewrite Hstep. cbv zeta in IH.
    destruct IH as (Hres & Hu & Hcore & Hother & Hconn).
    split; [exact Hres|]. split; [exact Hu|]. split; [exact Hcore|]. split.
    + intros c' Hc'. rewrite (Hother c' Hc'). unfold s2, s1. cbn [conns with_conns].
      rewrite !lookup_insert_ne by congruence. reflexivity.
    + rewrite Hconn. unfold k2. rewrite !written_written. reflexivity.
Qed.

(** The attempts are used up: when each of the [maxLoginAttempts]
    attempts that the handler receives comes in time, with a well-formed
    username and a password in ASCII, and is not accepted by the store,
    the handler gives up and closes the connection, on which it has
    written the prompt, a password prompt and a refusal for each attempt,
    and the final message.  It registers nobody, creates no [User] object
    and touches no other connection.  For a login that runs alone, the
    attempts are what the client of this connection types. *)
Theorem failed_attempts_close_the_connection
  (c : connId) (attempts : list Attempt) (s : State) :
  writableb s c = true ->
  length attempts = maxLoginAttempts ->
  forallb (fails check s) attempts = true ->
  let r := handleNewClient check c (arrivals attempts) s in
  r.1.1 = LoginAttemptsExhausted
  /\ users r.2 = users s
  /\ core r.2 = core s
  /\ (forall c', c' <> c -> conns r.2 !! c' = conns s !! c')
  /\ exists k, conns s !! c = Some k
       /\ conns r.2 !! c
          = Some (closedConn
                    (written k (usernamePrompt :: refusals attempts ++ [loginExhausted]))).
Proof.
  intros Hw Hlen Hfail r.
  destruct (connWrite_run s c [usernamePrompt] Hw) as (k & Hk & Hc & Hb & Hw1).
  set (s1 := with_conns <[c := written k [usernamePrompt]]> s) in *.
  assert (Hk1 : conns s1 !! c = Some (written k [usernamePrompt])).
  { unfold s1. cbn [conns with_conns]. apply lookup_insert_eq. }
  assert (Hfail1 : forallb (fails check s1) attempts = true) by exact Hfail.
  assert (H0 : 0 <= 0 < loginTimeout) by (unfold loginTimeout; lia).
  pose proof (loginAttempts_refused c attempts 0 s1 _ Hk1 eq_refl eq_refl H0 Hfail1) as Hrun.
  cbv zeta in Hrun. rewrite Hlen in Hrun.
  destruct (loginAttempts check maxLoginAttempts c (arrivals attempts) 0 s1) as [[res t] sX] eqn:E.
  cbn [fst snd] in Hrun. destruct Hrun as (-> & Hu & Hcore & Hother & Hconn).
  rewrite written_written in Hconn. cbn [app] in Hconn.
  assert (Hr : r = ((LoginAttemptsExhausted, t),
                    with_conns <[c := closedConn (written k (usernamePrompt
                                   :: refusals attempts ++ [loginExhausted]))]> sX)).
  { assert (Hp : sendMessageToConn c [usernamePrompt] s = (None, s1)) by exact Hw1.
    subst r. unfold handleNewClient. rewrite bind_eq. fold usernamePrompt.
    rewrite Hp. cbn [fst snd].
    rewrite bind_eq, E. cbn [fst snd]. rewrite bind_eq.
    rewrite (connClose_open sX c _ Hconn eq_refl). reflexivity. }
  rewrite Hr. cbn [fst snd]. split; [reflexivity|]. split; [exact Hu|].
  split; [exact Hcore|]. split.
  - intros c' Hc'. cbn [conns with_conns]. rewrite lookup_insert_ne by congruence.
    rewrite (Hother c' Hc'). unfold s1. cbn [conns with_conns].
    rewrite lookup_insert_ne by congruence. reflexivity.
  - exists k. split; [exact Hk|]. cbn [conns with_conns]. apply lookup_insert_eq.
Qed.

Lemma allocatedb_true (s : State) : allocatedb s = true -> allocated s.
Proof.
  unfold allocatedb. rewrite forallb_forall. intros H key p Hp.
  apply Nat.ltb_lt, (H (key, p)), list_elem_of_In, elem_of_map_to_list. exact Hp.
Qed.

(** [FindUser] does not see what is not registered. *)
Lemma FindUser_None_ext (s s' : State) (nick : string) :
  users s' = users s ->
  (forall key q, users s !! key = Some q -> deref s' q = deref s q) ->
  (FindUser nick s).1 = None -> FindUser nick s' = (None, s').
Proof.
  intros Hu Hd Hnone. apply FindUser_None.
  destruct (FindUser nick s').1 as [found|] eqn:E; [|reflexivity].
  exfalso. destruct (FindUser_sound s' nick found E) as (key & Hkey & Heq).
  rewrite Hu in Hkey. rewrite (Hd key found Hkey) in Heq.
  destruct (FindUser_finds s key nick found Hkey Heq) as [f Hf]. congruence.
Qed.

(** A login that succeeds at the first attempt: the handler receives, in
    time, a well-formed username that no session carries as its
    nickname, and then reads, at any time, a line of ASCII text that is,
    once trimmed, the password of this account.  It allocates the
    session, gives it the username as nickname and the connection,
    registers it under the nickname and hands over to the read loop; on
    the connection it has written the two prompts and the welcome, and
    the sessions that were registered, with a connection that takes
    writes, are all still there, unchanged, and have read that the
    newcomer has joined, as has the newcomer.  For a login that runs
    alone, the two lines are what the client of this connection sends. *)
Theorem login_registers_the_session
  (c : connId) (uname pwLine : string) (t1 t2 : Z) (a : Account) (s : State) :
  keyed s ->
  allocated s ->
  writableb s c = true ->
  validateNickname uname = None ->
  0 <= t1 < loginTimeout ->
  DB s !! uname = Some a ->
  isAscii pwLine = true ->
  check (acc_hash a) (TrimSpace pwLine) = true ->
  (FindUser uname s).1 = None ->
  let r := handleNewClient check c [Line t1 (uname +:+ crlf); Line t2 pwLine] s in
  let user := nextPtr s in
  let joined := uname +:+ " has joined the chat" in
  r.1.1 = Authenticated user
  /\ deref r.2 user = mkUser (acc_id a) uname (acc_privilege a) uname c ""
  /\ users r.2 !! uname = Some user
  /\ writableb r.2 c = true
  /\ delivered s r.2 c [usernamePrompt; passwordPrompt; loginWelcome uname]
  /\ delivered s r.2 c [joined]
  /\ (forall key q, users s !! key = Some q ->
        deref r.2 q = deref s q
        /\ (writableb s (conn (deref s q)) = true ->
            users r.2 !! key = Some q /\ delivered s r.2 (conn (deref s q)) [joined]))
  /\ accounts r.2 = accounts s.
Proof.
  intros Hkeyed Halloc Hw Hvalid Ht1 Ha _ Hcheck Hfree r user0 joined0. subst user0 joined0.
  set (p := nextPtr s). set (joined := uname +:+ " has joined the chat").
  destruct (writableb_Some _ _ Hw) as (k & Hk & Hc & Hb).
  set (k1 := written k [usernamePrompt]).
  set (k2 := written k1 [passwordPrompt]).
  set (k3 := written k2 [loginWelcome uname]).
  set (s1 := with_conns <[c := k1]> s).
  set (s2 := with_conns <[c := k2]> s1).
  set (s3 := with_nextPtr (S p)
               (with_heap <[p := mkUser (acc_id a) uname (acc_privilege a) "" 0%nat ""]> s2)).
  set (s5 := (set_conn p c (set_nickname p uname s3).2).2).
  set (s6 := with_conns <[c := k3]> s5).
  set (s7 := with_users <[uname := p]> s6).
  set (s8 := (broadcastMessage [joined] s7).2).
  set (u := mkUser (acc_id a) uname (acc_privilege a) uname c "").
  set (tA := Z.max 0 t1). set (tB := Z.max tA t2).
  (* the registered sessions are not the new object *)
  assert (Hold : forall key q, users s !! key = Some q -> q <> p).
  { intros key q Hq. specialize (Halloc key q Hq). unfold p. lia. }
  assert (Hheap5 : heap s5 = <[p := u]> (heap s)).
  { unfold s5, set_conn, set_nickname, modify, with_heap, s3, with_nextPtr, with_heap.
    cbn [snd heap]. cbv zeta. rewrite !lookup_insert_eq. cbn [default].
    cbn [uid username privilege nickname conn lastMsgFrom].
    rewrite !insert_insert_eq. reflexivity. }
  assert (Hderef5 : deref s5 p = u).
  { unfold deref. rewrite Hheap5, lookup_insert_eq. reflexivity. }
  assert (Hderef5' : forall q, q <> p -> deref s5 q = deref s q).
  { intros q Hq. unfold deref. rewrite Hheap5, lookup_insert_ne by congruence. reflexivity. }
  assert (Hderef3' : forall q, q <> p -> deref s3 q = deref s q).
  { intros q Hq. unfold deref, s3. cbn [heap with_nextPtr with_heap].
    rewrite lookup_insert_ne by congruence. reflexivity. }
  (* the steps *)
  assert (Hp1 : sendMessageToConn c [usernamePrompt] s = (None, s1))
    by exact (connWrite_written s c k [usernamePrompt] Hk Hc Hb).
  assert (Hp2 : sendMessageToConn c [passwordPrompt] s1 = (None, s2)).
  { apply (connWrite_written s1 c k1 [passwordPrompt]); [|reflexivity|reflexivity].
    unfold s1. cbn [conns with_conns]. apply lookup_insert_eq. }
  assert (Hauth : authenticateUser check uname (TrimSpace pwLine) s2 = (inl p, s3)).
  { unfold authenticateUser. change (DB s2) with (DB s). rewrite Ha, Hcheck. reflexivity. }
  assert (Hfind3 : FindUser uname s3 = (None, s3)).
  { apply (FindUser_None_ext s); [reflexivity| |exact Hfree].
    intros key q Hq. apply Hderef3'. exact (Hold key q Hq). }
  assert (Hp6 : sendMessageToConn c [loginWelcome uname] s5 = (None, s6)).
  { apply (connWrite_written s5 c k2 [loginWelcome uname]); [|reflexivity|reflexivity].
    unfold s5, set_conn, set_nickname, modify, s3, s2.
    cbn [snd conns with_heap with_nextPtr with_conns]. apply lookup_insert_eq. }
  assert (Hnone : users s !! uname = None).
  { destruct (users s !! uname) as [q|] eqn:Hq; [|reflexivity]. exfalso.
    assert (Heq : EqualFold (nickname (deref s q)) uname = true).
    { rewrite (Hkeyed uname q Hq). apply EqualFold_refl. }
    destruct (FindUser_finds s uname uname q Hq Heq) as [f Hf]. congruence. }
  assert (Hadd : addUser p s6 = (true, s7)).
  { unfold addUser. change (deref s6 p) with (deref s5 p). rewrite Hderef5.
    cbn [nickname u]. change (users s6) with (users s). rewrite Hnone. reflexivity. }
  assert (Hattempt : loginAttempts check maxLoginAttempts c
                       [Line t1 (uname +:+ crlf); Line t2 pwLine] 0 s1
                     = ((Authenticated p, tB), s8)).
  { unfold maxLoginAttempts. cbn [loginAttempts head tail].
    change (loginTimeout <=? 0) with false. cbv iota.
    rewrite (typed_name_in_time 0 t1 uname Hvalid) by (unfold loginTimeout in *; lia).
    fold tA. rewrite bind_eq. fold passwordPrompt. rewrite Hp2. cbn [fst snd].
    cbn [readString]. fold tB. rewrite bind_eq, Hauth. cbn [fst snd].
    rewrite bind_eq. cbn [resolveNickname]. rewrite bind_eq, Hfind3. cbn [fst snd ret].
    rewrite bind_eq, bind_eq. fold s5. rewrite bind_eq.
    change (load p s5) with (deref s5 p, s5). cbn [fst snd]. rewrite Hderef5.
    cbn [nickname u]. rewrite bind_eq. fold (loginWelcome uname). rewrite Hp6.
    cbn [fst snd]. rewrite bind_eq, Hadd. cbn [fst snd]. rewrite bind_eq. reflexivity. }
  assert (Hr : r = ((Authenticated p, tB), s8)).
  { subst r. unfold handleNewClient. rewrite bind_eq. fold usernamePrompt.
    rewrite Hp1. cbn [fst snd]. rewrite bind_eq, Hattempt. reflexivity. }
  (* the broadcast *)
  assert (Hkeyed7 : keyed s7).
  { intros key q Hq. unfold s7 in Hq. cbn [users with_users] in Hq.
    change (deref s7 q) with (deref s5 q).
    destruct (decide (uname = key)) as [<-|Hne].
    - rewrite lookup_insert_eq in Hq. injection Hq as <-. rewrite Hderef5. reflexivity.
    - rewrite lookup_insert_ne in Hq by exact Hne. change (users s6) with (users s) in Hq.
      rewrite (Hderef5' q (Hold key q Hq)). exact (Hkeyed key q Hq). }
  destruct (broadcastMessage_reaches s7 [joined] Hkeyed7) as (Hin & _ & Hg).
  fold s8 in Hin, Hg.
  assert (Hw7 : forall c0, writableb s7 c0 = writableb s c0).
  { intros c0. unfold writableb, s7, s6, s5, set_conn, set_nickname, modify, s3, s2, s1.
    cbn [snd conns with_users with_heap with_nextPtr with_conns].
    destruct (decide (c = c0)) as [<-|Hne].
    - rewrite lookup_insert_eq, Hk, Hc, Hb. reflexivity.
    - rewrite !lookup_insert_ne by exact Hne. reflexivity. }
  assert (Hc7 : conns s7 !! c = Some k3).
  { unfold s7, s6. cbn [conns with_users with_conns]. apply lookup_insert_eq. }
  assert (Hkept7 : sentKept s s7).
  { intros c0 k0 Hk0. unfold s7, s6, s5, set_conn, set_nickname, modify, s3, s2, s1.
    cbn [snd conns with_users with_heap with_nextPtr with_conns].
    destruct (decide (c = c0)) as [<-|Hne].
    - rewrite lookup_insert_eq. rewrite Hk in Hk0. injection Hk0 as <-.
      exists k3, [usernamePrompt; passwordPrompt; loginWelcome uname].
      split; [reflexivity|]. unfold k3, k2, k1. rewrite !written_written. reflexivity.
    - rewrite !lookup_insert_ne by exact Hne. exists k0, []. rewrite app_nil_r. auto. }
  assert (Hderef8 : forall q, deref s8 q = deref s5 q).
  { intros q. rewrite (grows_deref _ _ q Hg). reflexivity. }
  rewrite Hr. cbn [fst snd].
  split; [reflexivity|]. split; [rewrite Hderef8; exact Hderef5|].
  assert (Hnew : users s8 !! uname = Some p
                 /\ delivered s7 s8 c [joined]).
  { assert (Hq : users s7 !! uname = Some p).
    { unfold s7. cbn [users with_users]. apply lookup_insert_eq. }
    specialize (Hin uname p Hq). change (deref s7 p) with (deref s5 p) in Hin.
    rewrite Hderef5 in Hin. cbn [conn u] in Hin. rewrite Hw7, Hw in Hin. exact Hin. }
  destruct Hnew as [Hreg Hjoin].
  split; [exact Hreg|]. split; [|split; [|split; [|split]]].
  - destruct Hg as (_ & Hwb & _). rewrite Hwb, Hw7. exact Hw.
  - apply (delivered_then_kept s s7); [|apply grows_sentKept, Hg].
    exists k, k3, [], []. split; [exact Hk|]. split; [exact Hc7|].
    unfold k3, k2, k1. rewrite !written_written. reflexivity.
  - apply (kept_then_delivered s s7); [exact Hkept7|exact Hjoin|eauto].
  - intros key q Hq. pose proof (Hold key q Hq) as Hqp.
    split; [rewrite Hderef8; apply Hderef5'; exact Hqp|].
    intros Hwq.
    assert (Hq7 : users s7 !! key = Some q).
    { unfold s7. cbn [users with_users]. rewrite lookup_insert_ne; [exact Hq|].
      intros ->. rewrite Hnone in Hq. discriminate. }
    specialize (Hin key q Hq7). change (deref s7 q) with (deref s5 q) in Hin.
    rewrite (Hderef5' q Hqp), Hw7, Hwq in Hin. destruct Hin as [Hq8 Hdel].
    split; [exact Hq8|].
    apply (kept_then_delivered s s7); [exact Hkept7|exact Hdel|].
    destruct (writableb_Some _ _ Hwq) as (kq & Hkq & _). eauto.
  - pose proof (keeps_broadcastMessage accounts ltac:(reflexivity) ltac:(reflexivity)
                  ltac:(reflexivity) [joined] s7) as Hacc.
    fold s8 in Hacc. rewrite Hacc. reflexivity.
Qed.

End LoggingIn.

(** A handler that receives its first line after 31 seconds. *)
Lemma silent_client_is_timed_out_witness :
  let s := Scenario.started in
  let r := handleNewClient Scenario.hashOk 1%nat [Line 31 (Scenario.typed "bob")] s in
  r.1 = (LoginTimeout, loginTimeout)
  /\ users r.2 = users s
  /\ core r.2 = core s
  /\ (forall c', c' <> 1%nat -> conns r.2 !! c' = conns s !! c')
  /\ exists k, conns s !! 1%nat = Some k
       /\ conns r.2 !! 1%nat
          = Some (closedConn (written (written k [usernamePrompt]) [loginExpired])).
Proof.
  intros s.
  apply (silent_client_is_timed_out Scenario.hashOk 1%nat [Line 31 (Scenario.typed "bob")]
           Scenario.started).
  - vm_compute. reflexivity.
  - intros i [= <-]. vm_compute. discriminate.
Defined.

(** Three wrong guesses on connection 1, with nobody else logging in. *)
Lemma failed_attempts_close_the_connection_witness :
  let s := Scenario.started in
  let attempts := [mkAttempt 1 "bob" 2 "hammer"; mkAttempt 3 "carol" 4 "secret";
                   mkAttempt 5 "admin" 6 "admin"] in
  let r := handleNewClient Scenario.hashOk 1%nat (arrivals attempts) s in
  r.1.1 = LoginAttemptsExhausted
  /\ users r.2 = users s
  /\ core r.2 = core s
  /\ (forall c', c' <> 1%nat -> conns r.2 !! c' = conns s !! c')
  /\ exists k, conns s !! 1%nat = Some k
       /\ conns r.2 !! 1%nat
          = Some (closedConn
                    (written k (usernamePrompt :: refusals attempts ++ [loginExhausted]))).
Proof.
  intros s attempts.
  apply (failed_attempts_close_the_connection Scenario.hashOk 1%nat attempts Scenario.started);
    vm_compute; reflexivity.
Defined.

(** [admin] logs in on connection 2 while [bob] is there, and nobody
    else is logging in. *)
Lemma login_registers_the_session_witness :
  let s := Scenario.bobOnline in
  let a := mkAccount 1 "hash:admin123" 1 in
  let c := 2%nat in
  let r := handleNewClient Scenario.hashOk c
             [Line 3 ("admin" +:+ crlf); Line 40 (Scenario.typed "admin123")] s in
  let user := nextPtr s in
  let joined := "admin" +:+ " has joined the chat" in
  r.1.1 = Authenticated user
  /\ deref r.2 user = mkUser (acc_id a) "admin" (acc_privilege a) "admin" c ""
  /\ users r.2 !! "admin" = Some user
  /\ writableb r.2 c = true
  /\ delivered s r.2 c [usernamePrompt; passwordPrompt; loginWelcome "admin"]
  /\ delivered s r.2 c [joined]
  /\ (forall key q, users s !! key = Some q ->
        deref r.2 q = deref s q
        /\ (writableb s (conn (deref s q)) = true ->
            users r.2 !! key = Some q /\ delivered s r.2 (conn (deref s q)) [joined]))
  /\ accounts r.2 = accounts s.
Proof.
  intros s a c.
  apply (login_registers_the_session Scenario.hashOk 2%nat "admin"
           (Scenario.typed "admin123") 3 40 a Scenario.bobOnline).
  - apply keyedb_true. vm_compute. reflexivity.
  - apply allocatedb_true. vm_compute. reflexivity.
  - vm_compute. reflexivity.
  - vm_compute. reflexivity.
  - unfold loginTimeout. lia.
  - vm_compute. reflexivity.
  - vm_compute. reflexivity.
  - vm_compute. reflexivity.
  - vm_compute. reflexivity.
Defined.

(** ** Deleting an account *)

Section Deleting.

Variable check : string -> string -> bool.

(** [deleteuser] looks for a session to kick by nickname, not by
    account.  On ASCII text (the username typed, the username of the
    issuer and the nicknames of the registered sessions): when no session
    carries the username as its nickname, an administrator's
    [deleteuser] removes the account from the store, so that nobody can
    log in to it any more, and reports success, while every session
    stays registered as it is, those of the deleted account included,
    with the privilege it has. *)
Theorem deleteuser_spares_renamed_sessions
  (admin : ptr) (target : string) (s : State) :
  isAscii target = true ->
  isAscii (username (deref s admin)) = true ->
  asciiNicknames s ->
  1 <= privilege (deref s admin) ->
  EqualFold target (username (deref s admin)) = false ->
  (FindUser target s).1 = None ->
  writableb s (conn (deref s admin)) = true ->
  let s' := (handleDeleteUser admin [target] s).2 in
  DB s' = delete target (DB s)
  /\ users s' = users s
  /\ (forall p, deref s' p = deref s p)
  /\ (forall c, writableb s' c = writableb s c)
  /\ delivered s s' (conn (deref s admin)) ["User " +:+ target +:+ " deleted successfully."]
  /\ forall pw, authenticateUser check target pw s' = (inr "user not found", s').
Proof.
  intros _ _ _ Hpriv Hself Hfind Hw s'.
  set (s1 := with_DB (delete target) (DBnextId s) s).
  assert (Hw1 : writableb s1 (conn (deref s1 admin)) = true) by exact Hw.
  destruct (sendMessageToUser_writable s1 admin
              ["User " +:+ target +:+ " deleted successfully."] Hw1)
    as (s2 & Hsend & Hu & Hg & Hd).
  assert (Hrun : s' = s2).
  { subst s'. unfold handleDeleteUser. cbv zeta. rewrite bind_eq.
    change (load admin s) with (deref s admin, s). cbn [fst snd].
    rewrite (privileged _ _ Hpriv), Hself, bind_eq, (FindUser_None s target Hfind).
    cbn [fst snd]. rewrite bind_eq. change (ret (@None string) s) with (@None string, s).
    cbn [fst snd]. rewrite bind_eq, deleteUser_run. cbn [fst snd]. fold s1.
    rewrite bind_eq, Hsend. reflexivity. }
  rewrite Hrun.
  destruct (sendMessageToUser_heap admin ["User " +:+ target +:+ " deleted successfully."] s1)
    as (_ & _ & HDB & _).
  rewrite Hsend in HDB. cbn [snd] in HDB.
  assert (HDB2 : DB s2 = delete target (DB s)) by exact HDB.
  split; [exact HDB2|]. split; [exact Hu|]. split; [|split; [|split]].
  - intros p. apply (grows_deref s1 s2 p Hg).
  - destruct Hg as (_ & Hwb & _). exact Hwb.
  - destruct Hd as (k & k' & before & after & Hk & Hk' & Hsent).
    exists k, k', before, after. auto.
  - intros pw. unfold authenticateUser. rewrite HDB2, lookup_delete_eq. reflexivity.
Qed.

End Deleting.

(** [admin] deletes the account [bob] while [bob] is logged in under the
    nickname [robert]. *)
Lemma deleteuser_spares_renamed_sessions_witness :
  let s := Scenario.bobRenamed in
  let s' := (handleDeleteUser 2%nat ["bob"] s).2 in
  (DB s' = delete "bob" (DB s)
   /\ users s' = users s
   /\ (forall p, deref s' p = deref s p)
   /\ (forall c, writableb s' c = writableb s c)
   /\ delivered s s' (conn (deref s 2%nat)) ["User " +:+ "bob" +:+ " deleted successfully."]
   /\ forall pw, authenticateUser Scenario.hashOk "bob" pw s' = (inr "user not found", s'))
  /\ users s !! "robert" = Some 1%nat
  /\ username (deref s 1%nat) = "bob".
Proof.
  intros s. split.
  - apply (deleteuser_spares_renamed_sessions Scenario.hashOk 2%nat "bob" Scenario.bobRenamed).
    + vm_compute. reflexivity.
    + vm_compute. reflexivity.
    + apply asciiNicknamesb_true. vm_compute. reflexivity.
    + vm_compute. discriminate.
    + vm_compute. reflexivity.
    + vm_compute. reflexivity.
    + vm_compute. reflexivity.
  - vm_compute. split; reflexivity.
Defined.
